(** * Gold market front-end: the request client and the view controller

    A shallow embedding of [frontend/js/api.js] (class [API] and the
    service objects built on it) and of [js/app.js] (class
    [GoldMarketApp]), followed by the properties proved about them.

    Conventions of the embedding:
    - a JavaScript value is a term of [value]; numbers are the integers
      (status codes, attempt ceilings, whole amounts).  The statements
      about drawing hold for any pair of card builders (class [Cards]);
      the builders of the source, on these values, are the instance
      [builders];
    - the browser is a [World]: the document (cookie string, CSRF meta
      tag, elements looked up by the selector the source uses), the
      number of [fetch] calls issued so far, the timers, and the
      chronological list of observable events;
    - an [async] function is a computation in the monad [M], state
      passing over [World] with JavaScript's abrupt completion ([throw]);
      [await] is sequencing.  The refresh tick, which starts two tasks
      without awaiting them, is split at its suspension point. *)

From stdpp Require Import gmap strings list pretty.
From Stdlib Require Import ZArith Lia Ascii.

Set Warnings "-register-all".
Open Scope Z_scope.

(** ** JavaScript values *)

Module JS.

Inductive value : Type :=
| VUndefined
| VNull
| VBool (b : bool)
| VNum (n : Z)
| VStr (s : string)
| VArr (items : list value)
| VObj (fields : list (string * value)).

(** ToBoolean, as used by [if], [||], [&&] and [?:]. *)
Definition truthy (v : value) : bool :=
  match v with
  | VUndefined | VNull => false
  | VBool b => b
  | VNum n => negb (n =? 0)
  | VStr s => negb (String.eqb s "")
  | VArr _ | VObj _ => true
  end.

Definition nullish (v : value) : bool :=
  match v with
  | VUndefined | VNull => true
  | _ => false
  end.

(** Own-property lookup in an object literal. *)
Fixpoint assoc (k : string) (fields : list (string * value)) : value :=
  match fields with
  | [] => VUndefined
  | (k', v) :: rest => if String.eqb k k' then v else assoc k rest
  end.

(** [v.k] for a value that is not nullish.  The names the program reads
    ([success], [data], [message], [code], [params], [retryAttempts],
    [isOpen] and the store fields) are own properties of plain objects
    only; on any other value the read yields [undefined]. *)
Definition prop (v : value) (k : string) : value :=
  match v with
  | VObj fields => assoc k fields
  | _ => VUndefined
  end.

(** [v?.k] *)
Definition opt_chain (v : value) (k : string) : value :=
  if nullish v then VUndefined else prop v k.

(** [a || b] *)
Definition or_else (a b : value) : value :=
  if truthy a then a else b.

(** A parameter default [p = d]: taken exactly when the argument is
    [undefined] (a [null] argument is kept). *)
Definition default_arg (arg d : value) : value :=
  match arg with
  | VUndefined => d
  | _ => arg
  end.

(** The i-th positional argument of a call; missing ones are
    [undefined], surplus ones are ignored by the callee. *)
Definition arg (i : nat) (args : list value) : value :=
  nth i args VUndefined.

(** ToString, as applied by template literals and by [new Error(msg)]. *)
Fixpoint ToString (v : value) : string :=
  match v with
  | VUndefined => "undefined"
  | VNull => "null"
  | VBool true => "true"
  | VBool false => "false"
  | VNum n => pretty n
  | VStr s => s
  | VArr items =>
      (fix join (l : list value) : string :=
         match l with
         | [] => ""
         | x :: rest =>
             let sx := if nullish x then "" else ToString x in
             match rest with
             | [] => sx
             | _ :: _ => sx +:+ "," +:+ join rest
             end
         end) items
  | VObj _ => "[object Object]"
  end.

(** What a [throw] carries.  Every error the program builds or the
    runtime raises is an [Error] object; [status], [code] and [data] are
    the properties [API.handleResponse] adds ([None] and [VUndefined]
    when they were never set). *)
Record Error : Type := mkError {
  error_name : string;
  error_message : string;
  error_status : option Z;
  error_code : value;
  error_data : value
}.

Definition TypeError (msg : string) : Error :=
  mkError "TypeError" msg None VUndefined VUndefined.

(** The thrown value: an error object, or [undefined] (a variable that
    was never assigned, thrown as it is). *)
Inductive thrown : Type :=
| ThrownUndefined
| Thrown (e : Error).

Inductive completion (A : Type) : Type :=
| Normal (a : A)
| Abrupt (t : thrown).
Arguments Normal {A} a.
Arguments Abrupt {A} t.

End JS.
Export JS.

(** ** The browser *)

Inductive Method : Type := GET | POST | PUT | DELETE.

Definition method_name (m : Method) : string :=
  match m with
  | GET => "GET" | POST => "POST" | PUT => "PUT" | DELETE => "DELETE"
  end.

(** The [init] argument of [fetch(url, init)]. *)
Record Request : Type := mkRequest {
  request_url : string;
  request_method : string;
  request_headers : gmap string string;
  request_credentials : string;
  request_body : option string
}.

(** A [Response]: [response_json] is what [response.json()] resolves
    to, [None] when it rejects (the body is not JSON). *)
Record Response : Type := mkResponse {
  response_ok : bool;
  response_status : Z;
  response_json : option value
}.

Inductive FetchResult : Type :=
| Resolved (r : Response)
| Rejected (e : Error).

(** The attributes of an element the program writes. *)
Record Element : Type := mkElement {
  textContent : string;
  innerHTML : string;
  className : string;
  href : string
}.

Record Document : Type := mkDocument {
  cookie : string;
  (** [content] of [<meta name="csrf-token">], [None] without the tag *)
  meta_csrf_token : option string;
  (** elements by the id or selector the source looks them up with *)
  elements : gmap string Element
}.

Inductive Callback : Type :=
| UpdateClockCallback
| AutoUpdateCallback.

Inductive Event : Type :=
| Fetch (r : Request)
| Sleep (ms : Z)
| SetInterval (id : positive) (cb : Callback) (ms : Z)
| ClearInterval (id : positive)
| AddEventListener (target type : string)
| ConsoleLog (msg : string)
| ConsoleError (msg : string) (t : thrown).

(** The fields of the [GoldMarketApp] instance ([this]).  A timer handle
    is a positive integer, hence truthy; [None] is [null]. *)
Record App : Type := mkApp {
  goldPrices : value;
  currencyRates : value;
  storeInfo : value;
  marketStatus : value;
  updateInterval : option positive;
  clockInterval : option positive
}.

Record World : Type := mkWorld {
  document : Document;
  (** the page's application object, mutated in place by its methods *)
  app : App;
  (** [fetch] calls issued so far *)
  fetch_count : nat;
  (** what [new Date().toLocaleTimeString(..)] yields now *)
  wall_clock : string;
  (** the handle the next [setInterval] returns *)
  next_timer : positive;
  (** everything observable that happened, oldest first *)
  events : list Event
}.

Definition emit (e : Event) (w : World) : World :=
  mkWorld (document w) (app w) (fetch_count w) (wall_clock w) (next_timer w)
          (events w ++ [e]).

Definition set_elements (els : gmap string Element) (w : World) : World :=
  mkWorld (mkDocument (cookie (document w)) (meta_csrf_token (document w)) els)
          (app w) (fetch_count w) (wall_clock w) (next_timer w) (events w).

Definition set_app (a : App) (w : World) : World :=
  mkWorld (document w) a (fetch_count w) (wall_clock w) (next_timer w) (events w).

Definition count_fetch (w : World) : World :=
  mkWorld (document w) (app w) (S (fetch_count w)) (wall_clock w) (next_timer w)
          (events w).

Definition advance_timer (w : World) : World :=
  mkWorld (document w) (app w) (fetch_count w) (wall_clock w)
          (Pos.succ (next_timer w)) (events w).

(** ** Computations *)

Definition M (A : Type) : Type := World -> completion A * World.

Definition ret {A} (a : A) : M A := fun w => (Normal a, w).

Definition throw {A} (t : thrown) : M A := fun w => (Abrupt t, w).

Definition bind {A B} (m : M A) (k : A -> M B) : M B :=
  fun w =>
    match m w with
    | (Normal a, w') => k a w'
    | (Abrupt t, w') => (Abrupt t, w')
    end.

(** [try { m } catch (error) { h error }] *)
Definition try_catch {A} (m : M A) (h : thrown -> M A) : M A :=
  fun w =>
    match m w with
    | (Normal a, w') => (Normal a, w')
    | (Abrupt t, w') => h t w'
    end.

Definition modify (f : World -> World) : M unit := fun w => (Normal tt, f w).

Definition reads {A} (f : World -> A) : M A := fun w => (Normal (f w), w).

(** A computation that touches no state, run inside [M]. *)
Definition lift {A} (c : completion A) : M A := fun w => (c, w).

Declare Scope js_scope.
Delimit Scope js_scope with js.
Notation "'let*' x ':=' m 'in' k" := (bind m (fun x => k))
  (at level 10, x name, m at level 100, k at level 200) : js_scope.
Notation "m ';;' k" := (bind m (fun _ => k))
  (at level 100, k at level 200, right associativity) : js_scope.
Open Scope js_scope.

(** [v.k]: a TypeError on [null] and [undefined]. *)
Definition read (v : value) (k : string) : completion value :=
  if nullish v
  then Abrupt (Thrown (TypeError
         ("Cannot read properties of " +:+ ToString v +:+ " (reading '" +:+ k +:+ "')")))
  else Normal (prop v k).

Definition member (v : value) (k : string) : M value := lift (read v k).

Definition getElement (key : string) : M (option Element) :=
  reads (fun w => elements (document w) !! key).

Definition setElement (key : string) (el : Element) : M unit :=
  modify (fun w => set_elements (<[key := el]> (elements (document w))) w).

Definition console_log (msg : string) : M unit := modify (emit (ConsoleLog msg)).

Definition console_error (msg : string) (t : thrown) : M unit :=
  modify (emit (ConsoleError msg t)).

(** [await new Promise(resolve => setTimeout(resolve, ms))] *)
Definition sleep (ms : Z) : M unit := modify (emit (Sleep ms)).

Definition setInterval (cb : Callback) (ms : Z) : M positive :=
  fun w => (Normal (next_timer w),
            advance_timer (emit (SetInterval (next_timer w) cb ms) w)).

Definition clearInterval (id : positive) : M unit := modify (emit (ClearInterval id)).

(** What an event list shows of the traffic: the URLs requested, the
    pauses taken, and both in order. *)
Definition fetch_urls (evs : list Event) : list string :=
  omap (fun e => match e with Fetch r => Some (request_url r) | _ => None end) evs.

Definition delays (evs : list Event) : list Z :=
  omap (fun e => match e with Sleep ms => Some ms | _ => None end) evs.

Inductive Step : Type :=
| Attempt (method url : string)
| Wait (ms : Z).

Definition timeline (evs : list Event) : list Step :=
  omap (fun e => match e with
                 | Fetch r => Some (Attempt (request_method r) (request_url r))
                 | Sleep ms => Some (Wait ms)
                 | _ => None
                 end) evs.

(** The [X-CSRF-Token] header of each request sent, in order. *)
Definition tokens_sent (evs : list Event) : list (option string) :=
  omap (fun e => match e with
                 | Fetch r => Some (request_headers r !! "X-CSRF-Token")
                 | _ => None
                 end) evs.

(** ** What the page is loaded with

    The transport and the built-ins whose results the program only
    passes on.  [fetch n req] is the outcome of the call issued after
    [n] earlier ones; [StringToNumber] yields [None] for NaN. *)
Class Runtime : Type := {
  origin : string;
  fetch : nat -> Request -> FetchResult;
  JSON_stringify : value -> option string;
  URLSearchParams_toString : value -> string;
  StringToNumber : string -> option Z
}.

(** ** frontend/js/api.js *)

Module API_CONFIG.
Definition BASE_URL `{Runtime} : string := origin.
Definition API_PREFIX : string := "/api".
Definition TIMEOUT : Z := 30000.
Definition RETRY_ATTEMPTS : Z := 3.
Definition RETRY_DELAY : Z := 1000.
End API_CONFIG.

Module API.
Section WithRuntime.
Context `{Runtime}.

Definition startsWith (s p : string) : bool := String.prefix p s.

Definition buildUrl (endpoint : string) : string :=
  let cleanEndpoint :=
    if startsWith endpoint "/" then endpoint else "/" +:+ endpoint in
  API_CONFIG.BASE_URL +:+ API_CONFIG.API_PREFIX +:+ cleanEndpoint.

(** The first capture of [/csrf_token=([^;]+)/] in the cookie string:
    the leftmost place where the text [csrf_token=] is followed by at
    least one character other than [;], and the longest run of such
    characters from there. *)
Fixpoint not_semicolon_run (s : string) : string :=
  match s with
  | EmptyString => EmptyString
  | String c rest =>
      if Ascii.eqb c ";"%char then EmptyString else String c (not_semicolon_run rest)
  end.

Fixpoint strip_prefix (p s : string) : option string :=
  match p, s with
  | EmptyString, _ => Some s
  | String a p', String b s' => if Ascii.eqb a b then strip_prefix p' s' else None
  | String _ _, EmptyString => None
  end.

Definition csrf_match_here (s : string) : option string :=
  match strip_prefix "csrf_token=" s with
  | Some rest =>
      match not_semicolon_run rest with
      | EmptyString => None
      | run => Some run
      end
  | None => None
  end.

Fixpoint csrf_cookie_match (s : string) : option string :=
  match csrf_match_here s with
  | Some token => Some token
  | None =>
      match s with
      | EmptyString => None
      | String _ rest => csrf_cookie_match rest
      end
  end.

(** [null] is [None]. *)
Definition getCSRFToken (doc : Document) : option string :=
  match csrf_cookie_match (cookie doc) with
  | Some token => Some token
  | None =>
      match meta_csrf_token doc with
      | Some content => Some content
      | None => None
      end
  end.

Definition getHeaders (includeCSRF : bool) (doc : Document) : gmap string string :=
  let headers : gmap string string :=
    <["Accept" := "application/json"]>
      (<["Content-Type" := "application/json"]> ∅) in
  if includeCSRF then
    match getCSRFToken doc with
    | Some csrfToken =>
        if negb (String.eqb csrfToken "")
        then <["X-CSRF-Token" := csrfToken]> headers
        else headers
    | None => headers
    end
  else headers.

Definition handleResponse (response : Response) : M value :=
  let data := match response_json response with
              | Some v => v
              | None => VNull
              end in
  if negb (response_ok response) then
    let message := or_else (opt_chain data "message")
                           (VStr ("HTTP " +:+ pretty (response_status response))) in
    throw (Thrown {| error_name := "Error";
                     error_message := ToString message;
                     error_status := Some (response_status response);
                     error_code := or_else (opt_chain data "code") (VStr "UNKNOWN_ERROR");
                     error_data := data |})
  else ret data.

(** [await fetch(url, init)], in its two halves: the call is issued
    (and its outcome fixed by the transport), and later the awaiting
    task resumes with the response or the rejection. *)
Definition fetch_start (req : Request) : M FetchResult :=
  fun w => (Normal (fetch (fetch_count w) req), count_fetch (emit (Fetch req) w)).

Definition fetch_finish (r : FetchResult) : M Response :=
  match r with
  | Resolved response => ret response
  | Rejected e => throw (Thrown e)
  end.

(** A verb up to its first suspension.  The promise a verb returns is
    pending on the issued [fetch], or already rejected when the
    synchronous part threw. *)
Definition pending : Type := completion FetchResult.

Definition start (request : M Request) : M pending :=
  fun w =>
    match request w with
    | (Normal req, w') =>
        match fetch_start req w' with
        | (c, w'') => (Normal c, w'')
        end
    | (Abrupt t, w') => (Normal (Abrupt t), w')
    end.

Definition finish (p : pending) : M value :=
  match p with
  | Normal r => let* response := fetch_finish r in handleResponse response
  | Abrupt t => throw t
  end.

(** The verbs take the endpoint and the remaining positional arguments
    of the call, bound to their parameters as JavaScript binds them. *)
Definition get_request (endpoint : string) (args : list value) : M Request :=
  let options := default_arg (arg 0 args) (VObj []) in
  let url := buildUrl endpoint in
  let* params := member options "params" in
  let queryParams :=
    if truthy params then "?" +:+ URLSearchParams_toString params else "" in
  let* doc := reads document in
  ret (mkRequest (url +:+ queryParams) "GET" (getHeaders false doc) "include" None).

Definition post_request (endpoint : string) (args : list value) : M Request :=
  let data := arg 0 args in
  let url := buildUrl endpoint in
  let* doc := reads document in
  ret (mkRequest url "POST" (getHeaders true doc) "include" (JSON_stringify data)).

Definition put_request (endpoint : string) (args : list value) : M Request :=
  let data := arg 0 args in
  let url := buildUrl endpoint in
  let* doc := reads document in
  ret (mkRequest url "PUT" (getHeaders true doc) "include" (JSON_stringify data)).

Definition delete_request (endpoint : string) (args : list value) : M Request :=
  let url := buildUrl endpoint in
  let* doc := reads document in
  ret (mkRequest url "DELETE" (getHeaders true doc) "include" None).

Definition get_start (endpoint : string) (args : list value) : M pending :=
  start (get_request endpoint args).

Definition get (endpoint : string) (args : list value) : M value :=
  let* p := get_start endpoint args in finish p.

Definition post (endpoint : string) (args : list value) : M value :=
  let* p := start (post_request endpoint args) in finish p.

Definition put (endpoint : string) (args : list value) : M value :=
  let* p := start (put_request endpoint args) in finish p.

Definition delete (endpoint : string) (args : list value) : M value :=
  let* p := start (delete_request endpoint args) in finish p.

(** [this[method]] for the four verbs. *)
Definition verb (method : Method) : string -> list value -> M value :=
  match method with
  | GET => get
  | POST => post
  | PUT => put
  | DELETE => delete
  end.

(** ToNumber, as applied by [<=] and [<] to a non-numeric operand;
    [None] is NaN, with which every comparison is false. *)
Definition ToNumber (v : value) : option Z :=
  match v with
  | VUndefined => None
  | VNull => Some 0
  | VBool b => Some (if b then 1 else 0)
  | VNum n => Some n
  | VStr s => StringToNumber s
  | VArr _ | VObj _ => StringToNumber (ToString v)
  end.

(** [error.status >= 400 && error.status < 500] *)
Definition client_error (e : Error) : bool :=
  match error_status e with
  | Some status => (400 <=? status) && (status <? 500)
  | None => false
  end.

(** The loop of [requestWithRetry], for a numeric ceiling.  [remaining]
    counts the iterations for which [attempt <= maxAttempts] still
    holds, that is [maxAttempts - attempt + 1]. *)
Fixpoint retry_loop (call : M value) (maxAttempts : Z)
    (remaining : nat) (attempt : Z) (lastError : thrown) : M value :=
  match remaining with
  | O => throw lastError
  | S remaining' =>
      try_catch call (fun error =>
        match error with
        | ThrownUndefined =>
            throw (Thrown (TypeError
              "Cannot read properties of undefined (reading 'status')"))
        | Thrown e =>
            if client_error e then throw error
            else
              (if attempt <? maxAttempts
               then sleep (API_CONFIG.RETRY_DELAY * attempt)
               else ret tt);;
              retry_loop call maxAttempts remaining' (attempt + 1) error
        end)
  end.

Definition requestWithRetry (method : Method) (endpoint : string)
    (data options : value) : M value :=
  let data := default_arg data VNull in
  let options := default_arg options (VObj []) in
  let* retryAttempts := member options "retryAttempts" in
  let maxAttempts := or_else retryAttempts (VNum API_CONFIG.RETRY_ATTEMPTS) in
  match ToNumber maxAttempts with
  | Some n =>
      retry_loop (verb method endpoint [data; options]) n (Z.to_nat n) 1
                 ThrownUndefined
  | None => throw ThrownUndefined
  end.

End WithRuntime.
End API.

(** The service objects, as far as the view controller calls them. *)
Module GoldAPI.
Definition getAllPrices_start `{Runtime} : M API.pending :=
  API.get_start "/gold/prices" [].
Definition getAllPrices `{Runtime} : M value := API.get "/gold/prices" [].

(** The rest of the object, but for [getPriceHistory], which builds its
    query string with [new URLSearchParams(options)]. *)
Definition getGoldTypes `{Runtime} : M value := API.get "/gold/types" [].
Definition getPriceById `{Runtime} (id : value) : M value :=
  API.get ("/gold/prices/" +:+ ToString id) [].
Definition getCurrentPrice `{Runtime} (goldTypeId : value) : M value :=
  API.get ("/gold/current/" +:+ ToString goldTypeId) [].
Definition comparePrices `{Runtime} : M value := API.get "/gold/compare" [].
Definition getStatistics `{Runtime} (goldTypeId days : value) : M value :=
  let days := default_arg days (VNum 30) in
  API.get ("/gold/statistics/" +:+ ToString goldTypeId +:+ "?days=" +:+ ToString days) [].
Definition createPrice `{Runtime} (priceData : value) : M value :=
  API.post "/gold/prices" [priceData].
Definition updatePrice `{Runtime} (id priceData : value) : M value :=
  API.put ("/gold/prices/" +:+ ToString id) [priceData].
Definition deletePrice `{Runtime} (id : value) : M value :=
  API.delete ("/gold/prices/" +:+ ToString id) [].
Definition autoUpdate `{Runtime} (basePrice24k : value) : M value :=
  API.post "/gold/auto-update" [VObj [("basePrice24k", basePrice24k)]].
End GoldAPI.

Module CurrencyAPI.
Definition getAllRates_start `{Runtime} : M API.pending :=
  API.get_start "/currency/rates" [].
Definition getAllRates `{Runtime} : M value := API.get "/currency/rates" [].

(** The rest of the object, but for [getRateHistory]. *)
Definition getCurrencies `{Runtime} : M value := API.get "/currency/currencies" [].
Definition getRateById `{Runtime} (id : value) : M value :=
  API.get ("/currency/rates/" +:+ ToString id) [].
Definition getCurrentRate `{Runtime} (currencyId : value) : M value :=
  API.get ("/currency/current/" +:+ ToString currencyId) [].
Definition getRateByCode `{Runtime} (code : value) : M value :=
  API.get ("/currency/code/" +:+ ToString code) [].
Definition convert `{Runtime} (amount from to type : value) : M value :=
  let type := default_arg type (VStr "buy") in
  API.post "/currency/convert"
    [VObj [("amount", amount); ("from", from); ("to", to); ("type", type)]].
Definition compareRates `{Runtime} : M value := API.get "/currency/compare" [].
Definition getStatistics `{Runtime} (currencyId days : value) : M value :=
  let days := default_arg days (VNum 30) in
  API.get ("/currency/statistics/" +:+ ToString currencyId +:+ "?days=" +:+ ToString days)
          [].
Definition createRate `{Runtime} (rateData : value) : M value :=
  API.post "/currency/rates" [rateData].
Definition updateRate `{Runtime} (id rateData : value) : M value :=
  API.put ("/currency/rates/" +:+ ToString id) [rateData].
Definition deleteRate `{Runtime} (id : value) : M value :=
  API.delete ("/currency/rates/" +:+ ToString id) [].
Definition bulkUpdate `{Runtime} (rates : value) : M value :=
  API.post "/currency/bulk-update" [VObj [("rates", rates)]].
End CurrencyAPI.

Module SettingsAPI.
Definition getStoreInfo `{Runtime} : M value := API.get "/settings/store" [].
Definition checkMarketStatus `{Runtime} : M value :=
  API.get "/settings/market/status" [].

(** The rest of the object. *)
Definition getAllSettings `{Runtime} : M value := API.get "/settings" [].
Definition getSetting `{Runtime} (key : value) : M value :=
  API.get ("/settings/" +:+ ToString key) [].
Definition setSetting `{Runtime} (key v type : value) : M value :=
  let type := default_arg type (VStr "string") in
  API.put ("/settings/" +:+ ToString key) [VObj [("value", v); ("type", type)]].
Definition deleteSetting `{Runtime} (key : value) : M value :=
  API.delete ("/settings/" +:+ ToString key) [].
Definition updateStoreInfo `{Runtime} (info : value) : M value :=
  API.put "/settings/store" [info].
Definition getMarketSettings `{Runtime} : M value := API.get "/settings/market" [].
Definition updateMarketSettings `{Runtime} (settings : value) : M value :=
  API.put "/settings/market" [settings].
Definition getMarginSettings `{Runtime} : M value := API.get "/settings/margins" [].
Definition updateMarginSettings `{Runtime} (margins : value) : M value :=
  API.put "/settings/margins" [margins].
Definition getSecuritySettings `{Runtime} : M value := API.get "/settings/security" [].
Definition updateSecuritySettings `{Runtime} (settings : value) : M value :=
  API.put "/settings/security" [settings].
Definition resetToDefaults `{Runtime} : M value := API.post "/settings/reset" [].
End SettingsAPI.

Module AuthAPI.
Definition getCSRFToken `{Runtime} : M value := API.get "/auth/csrf" [].
Definition login `{Runtime} (username password : value) : M value :=
  API.post "/auth/login" [VObj [("username", username); ("password", password)]].
Definition logout `{Runtime} : M value := API.post "/auth/logout" [].
Definition checkSession `{Runtime} : M value := API.get "/auth/session" [].
Definition changePassword `{Runtime} (currentPassword newPassword : value) : M value :=
  API.post "/auth/change-password"
    [VObj [("currentPassword", currentPassword); ("newPassword", newPassword)]].
Definition refreshSession `{Runtime} : M value := API.post "/auth/refresh" [].
End AuthAPI.

(** [UserAPI], but for [getAllUsers]. *)
Module UserAPI.
Definition getProfile `{Runtime} : M value := API.get "/users/profile" [].
Definition updateProfile `{Runtime} (data : value) : M value :=
  API.put "/users/profile" [data].
Definition getStatistics `{Runtime} : M value := API.get "/users/statistics" [].
Definition getUserById `{Runtime} (id : value) : M value :=
  API.get ("/users/" +:+ ToString id) [].
Definition createUser `{Runtime} (userData : value) : M value :=
  API.post "/users" [userData].
Definition updateUser `{Runtime} (id userData : value) : M value :=
  API.put ("/users/" +:+ ToString id) [userData].
Definition deleteUser `{Runtime} (id : value) : M value :=
  API.delete ("/users/" +:+ ToString id) [].
Definition changeUserPassword `{Runtime} (id newPassword : value) : M value :=
  API.post ("/users/" +:+ ToString id +:+ "/change-password")
    [VObj [("newPassword", newPassword)]].
Definition toggleUserStatus `{Runtime} (id isActive : value) : M value :=
  API.put ("/users/" +:+ ToString id +:+ "/status") [VObj [("isActive", isActive)]].
End UserAPI.

(** ** js/app.js *)

(** The two card builders format decimal amounts ([toFixed],
    [toLocaleString]); they are taken as given: a fragment of markup for
    an item, or the TypeError an ill-formed item makes them throw. *)
Class Cards : Type := {
  createGoldPriceCard : value -> completion string;
  createCurrencyRateCard : value -> completion string
}.

(** The locale of the page, as far as the program depends on it:
    [n.toLocaleString()] for a number [n]. *)
Class Locale : Type := {
  Number_toLocaleString : Z -> string
}.

Module GoldMarketApp.
Section WithPage.
Context `{Runtime} `{Cards}.

Definition set_textContent (s : string) (el : Element) : Element :=
  mkElement s (innerHTML el) (className el) (href el).
Definition set_innerHTML (s : string) (el : Element) : Element :=
  mkElement (textContent el) s (className el) (href el).
Definition set_className (s : string) (el : Element) : Element :=
  mkElement (textContent el) (innerHTML el) s (href el).
Definition set_href (s : string) (el : Element) : Element :=
  mkElement (textContent el) (innerHTML el) (className el) s.

Definition set_goldPrices (v : value) : M unit :=
  modify (fun w => let a := app w in
    set_app (mkApp v (currencyRates a) (storeInfo a) (marketStatus a)
                   (updateInterval a) (clockInterval a)) w).
Definition set_currencyRates (v : value) : M unit :=
  modify (fun w => let a := app w in
    set_app (mkApp (goldPrices a) v (storeInfo a) (marketStatus a)
                   (updateInterval a) (clockInterval a)) w).
Definition set_storeInfo (v : value) : M unit :=
  modify (fun w => let a := app w in
    set_app (mkApp (goldPrices a) (currencyRates a) v (marketStatus a)
                   (updateInterval a) (clockInterval a)) w).
Definition set_marketStatus (v : value) : M unit :=
  modify (fun w => let a := app w in
    set_app (mkApp (goldPrices a) (currencyRates a) (storeInfo a) v
                   (updateInterval a) (clockInterval a)) w).
Definition set_updateInterval (t : option positive) : M unit :=
  modify (fun w => let a := app w in
    set_app (mkApp (goldPrices a) (currencyRates a) (storeInfo a) (marketStatus a)
                   t (clockInterval a)) w).
Definition set_clockInterval (t : option positive) : M unit :=
  modify (fun w => let a := app w in
    set_app (mkApp (goldPrices a) (currencyRates a) (storeInfo a) (marketStatus a)
                   (updateInterval a) t) w).

(** The fields the constructor assigns before it calls [init]. *)
Definition new_app : App :=
  {| goldPrices := VArr [];
     currencyRates := VArr [];
     storeInfo := VObj [];
     marketStatus := VObj [("isOpen", VBool false)];
     updateInterval := None;
     clockInterval := None |}.

Definition updateClock : M unit :=
  let* clockElement := getElement "clock" in
  match clockElement with
  | None => ret tt
  | Some el =>
      let* timeString := reads wall_clock in
      setElement "clock" (set_textContent timeString el)
  end.

Definition initClock : M unit :=
  updateClock;;
  let* id := setInterval UpdateClockCallback 1000 in
  set_clockInterval (Some id).

(** [if (el && this.storeInfo.field) { body }] for an element looked up
    by [key]: the field is read only when the element exists. *)
Definition with_store_field (key field : string)
    (body : Element -> value -> M unit) : M unit :=
  let* found := getElement key in
  match found with
  | None => ret tt
  | Some el =>
      let* info := reads (fun w => storeInfo (app w)) in
      let* v := member info field in
      if truthy v then body el v else ret tt
  end.

Definition is_digit (c : ascii) : bool :=
  let n := nat_of_ascii c in (48 <=? n)%nat && (n <=? 57)%nat.

(** [s.replace(/\D/g, '')] *)
Fixpoint keep_digits (s : string) : string :=
  match s with
  | EmptyString => EmptyString
  | String c rest =>
      if is_digit c then String c (keep_digits rest) else keep_digits rest
  end.

(** [s.replace('@', '')]: the first occurrence only. *)
Fixpoint drop_first_at (s : string) : string :=
  match s with
  | EmptyString => EmptyString
  | String c rest =>
      if Ascii.eqb c "@"%char then rest else String c (drop_first_at rest)
  end.

(** [v.replace(..)]: only a string has the method. *)
Definition replace_on (v : value) (f : string -> string) : M string :=
  match v with
  | VStr s => ret (f s)
  | _ => throw (Thrown (TypeError "replace is not a function"))
  end.

Definition updateStoreInfo : M unit :=
  with_store_field ".logo-text" "name" (fun el name =>
    setElement ".logo-text" (set_textContent (ToString name) el));;
  with_store_field "footer-store-name" "name" (fun el name =>
    setElement "footer-store-name" (set_textContent (ToString name) el));;
  with_store_field "footer-address" "address" (fun el address =>
    setElement "footer-address" (set_textContent (ToString address) el));;
  with_store_field "footer-phone" "phone" (fun el phone =>
    setElement "footer-phone"
      (set_href ("tel:" +:+ ToString phone) (set_textContent (ToString phone) el)));;
  with_store_field "footer-whatsapp" "whatsapp" (fun el whatsapp =>
    let* digits := replace_on whatsapp keep_digits in
    setElement "footer-whatsapp" (set_href ("https://wa.me/" +:+ digits) el));;
  with_store_field "footer-instagram" "instagram" (fun el instagram =>
    let* handle := replace_on instagram drop_first_at in
    setElement "footer-instagram" (set_href ("https://instagram.com/" +:+ handle) el));;
  with_store_field "footer-facebook" "facebook" (fun el facebook =>
    setElement "footer-facebook"
      (set_href ("https://facebook.com/" +:+ ToString facebook) el)).

Definition updateMarketStatus : M unit :=
  let* indicator := getElement ".status-indicator" in
  let* text := getElement ".status-text" in
  match indicator, text with
  | Some ind, Some txt =>
      let* status := reads (fun w => marketStatus (app w)) in
      let* isOpen := member status "isOpen" in
      let state := if truthy isOpen then "open" else "closed" in
      setElement ".status-indicator" (set_className ("status-indicator " +:+ state) ind);;
      setElement ".status-text"
        (set_textContent (if truthy isOpen then "السوق مفتوح" else "السوق مغلق")
           (set_className ("status-text " +:+ state) txt))
  | _, _ => ret tt
  end.

(** [items.map(card).join('')]: the cards are built in order and the
    first throw ends the call. *)
Fixpoint map_join (card : value -> completion string) (items : list value)
    : completion string :=
  match items with
  | [] => Normal ""
  | x :: rest =>
      match card x with
      | Normal s =>
          match map_join card rest with
          | Normal r => Normal (s +:+ r)
          | Abrupt t => Abrupt t
          end
      | Abrupt t => Abrupt t
      end
  end.

(** [snapshot.map(card).join('')] on whatever the snapshot holds. *)
Definition render_cards (card : value -> completion string) (snapshot : value)
    : M string :=
  match snapshot with
  | VArr items => lift (map_join card items)
  | VUndefined | VNull =>
      throw (Thrown (TypeError
        ("Cannot read properties of " +:+ ToString snapshot +:+ " (reading 'map')")))
  | _ => throw (Thrown (TypeError "map is not a function"))
  end.

Definition renderGoldPrices : M unit :=
  let* container := getElement "gold-prices-grid" in
  match container with
  | None => ret tt
  | Some el =>
      let* prices := reads (fun w => goldPrices (app w)) in
      let* html := render_cards createGoldPriceCard prices in
      setElement "gold-prices-grid" (set_innerHTML html el)
  end.

Definition renderCurrencyRates : M unit :=
  let* container := getElement "currency-rates-grid" in
  match container with
  | None => ret tt
  | Some el =>
      let* rates := reads (fun w => currencyRates (app w)) in
      let* html := render_cards createCurrencyRateCard rates in
      setElement "currency-rates-grid" (set_innerHTML html el)
  end.

(** What [fetchGoldPrices] does with the response once it has one, and
    its [catch]. *)
Definition fetchGoldPrices_finish (p : API.pending) : M unit :=
  try_catch
    (let* response := API.finish p in
     let* success := member response "success" in
     if truthy success then
       let* data := member response "data" in
       set_goldPrices data;;
       renderGoldPrices
     else ret tt)
    (fun error => console_error "Error fetching gold prices:" error).

Definition fetchGoldPrices : M unit :=
  try_catch
    (let* response := GoldAPI.getAllPrices in
     let* success := member response "success" in
     if truthy success then
       let* data := member response "data" in
       set_goldPrices data;;
       renderGoldPrices
     else ret tt)
    (fun error => console_error "Error fetching gold prices:" error).

Definition fetchCurrencyRates_finish (p : API.pending) : M unit :=
  try_catch
    (let* response := API.finish p in
     let* success := member response "success" in
     if truthy success then
       let* data := member response "data" in
       set_currencyRates data;;
       renderCurrencyRates
     else ret tt)
    (fun error => console_error "Error fetching currency rates:" error).

Definition fetchCurrencyRates : M unit :=
  try_catch
    (let* response := CurrencyAPI.getAllRates in
     let* success := member response "success" in
     if truthy success then
       let* data := member response "data" in
       set_currencyRates data;;
       renderCurrencyRates
     else ret tt)
    (fun error => console_error "Error fetching currency rates:" error).

(** The first two blocks of [fetchInitialData]'s [try], named so that
    statements can refer to them. *)
Definition fetchInitialData_storeInfo : M unit :=
  let* storeResponse := SettingsAPI.getStoreInfo in
  let* success := member storeResponse "success" in
  if truthy success then
    let* data := member storeResponse "data" in
    set_storeInfo data;;
    updateStoreInfo
  else ret tt.

Definition fetchInitialData_marketStatus : M unit :=
  let* marketResponse := SettingsAPI.checkMarketStatus in
  let* success := member marketResponse "success" in
  if truthy success then
    let* data := member marketResponse "data" in
    set_marketStatus data;;
    updateMarketStatus
  else ret tt.

Definition fetchInitialData : M unit :=
  try_catch
    (fetchInitialData_storeInfo;;
     fetchInitialData_marketStatus;;
     fetchGoldPrices;;
     fetchCurrencyRates)
    (fun error =>
       console_error "Error fetching initial data:" error;;
       throw error).

Definition render : M unit :=
  renderGoldPrices;;
  renderCurrencyRates.

Definition startAutoUpdate : M unit :=
  let* id := setInterval AutoUpdateCallback 30000 in
  set_updateInterval (Some id).

(** The callback [startAutoUpdate] registers.  The two fetches are
    started and not awaited: both requests are issued, the market status
    is redrawn, and only later do the two tasks resume, in the order the
    responses arrive ([gold_first]).  An exception leaving the callback
    is reported by the browser and ends the callback only. *)
Definition startAutoUpdate_callback (gold_first : bool) : M unit :=
  let* gold := GoldAPI.getAllPrices_start in
  let* currency := CurrencyAPI.getAllRates_start in
  try_catch updateMarketStatus (fun error => console_error "Uncaught" error);;
  if gold_first
  then fetchGoldPrices_finish gold;; fetchCurrencyRates_finish currency
  else fetchCurrencyRates_finish currency;; fetchGoldPrices_finish gold.

Definition stopAutoUpdate : M unit :=
  let* interval := reads (fun w => updateInterval (app w)) in
  (match interval with
   | Some id => clearInterval id;; set_updateInterval None
   | None => ret tt
   end);;
  let* clock := reads (fun w => clockInterval (app w)) in
  match clock with
  | Some id => clearInterval id;; set_clockInterval None
  | None => ret tt
  end.

Definition attachEventListeners : M unit :=
  let* adminBtn := getElement "admin-btn" in
  (match adminBtn with
   | Some _ => modify (emit (AddEventListener "admin-btn" "click"))
   | None => ret tt
   end);;
  modify (emit (AddEventListener "document" "mouseover"));;
  modify (emit (AddEventListener "document" "mouseout")).

Definition quoted (s : string) : string :=
  String "034"%char s +:+ String "034"%char "".

Definition newline : string := String "010"%char "".

Definition error_banner (message : string) : string :=
  newline +:+
  "                <div class=" +:+ quoted "alert alert-danger" +:+ ">" +:+ newline +:+
  "                    <i class=" +:+ quoted "icon" +:+ ">⚠️</i>" +:+ newline +:+
  "                    <span>" +:+ message +:+ "</span>" +:+ newline +:+
  "                </div>" +:+ newline +:+
  "            ".

Definition showError (message : string) : M unit :=
  let* container := getElement "error-container" in
  match container with
  | Some el => setElement "error-container" (set_innerHTML (error_banner message) el)
  | None => ret tt
  end.

Definition init : M unit :=
  try_catch
    (console_log "Initializing Gold Market App...";;
     initClock;;
     fetchInitialData;;
     render;;
     startAutoUpdate;;
     attachEventListeners;;
     console_log "App initialized successfully")
    (fun error =>
       console_error "App initialization error:" error;;
       showError "Failed to initialize application").

(** [new GoldMarketApp()] *)
Definition constructor : M unit :=
  modify (set_app new_app);;
  init.

(** The [beforeunload] listener. *)
Definition beforeunload : M unit := stopAutoUpdate.

Definition success_banner (message : string) : string :=
  newline +:+
  "                <div class=" +:+ quoted "alert alert-success" +:+ ">" +:+ newline +:+
  "                    <i class=" +:+ quoted "icon" +:+ ">✓</i>" +:+ newline +:+
  "                    <span>" +:+ message +:+ "</span>" +:+ newline +:+
  "                </div>" +:+ newline +:+
  "            ".

(** A [setTimeout(callback, ms)] that is not awaited: the callback is
    named and handed back to the caller with its delay, to be run when
    the delay has passed. *)
Inductive Timeout : Type :=
| ClearSuccess (ms : Z).

Definition showSuccess (message : string) : M (list Timeout) :=
  let* container := getElement "success-container" in
  match container with
  | Some el =>
      setElement "success-container" (set_innerHTML (success_banner message) el);;
      ret [ClearSuccess 5000]
  | None => ret []
  end.

(** The callback [showSuccess] schedules: [container.innerHTML = ''],
    on the element the call had found. *)
Definition showSuccess_timeout : M unit :=
  let* container := getElement "success-container" in
  match container with
  | Some el => setElement "success-container" (set_innerHTML "" el)
  | None => ret tt
  end.

End WithPage.

(** *** The card builders

    [createGoldPriceCard] and [createCurrencyRateCard] on the values of
    the embedding.  An amount is a [value]: a number, or whatever else
    the payload holds in its place. *)

Fixpoint zeros (n : nat) : string :=
  match n with
  | O => EmptyString
  | S n' => String "0"%char (zeros n')
  end.

(** [x.toFixed(digits)] for a number [x]; [None] is NaN. *)
Definition Number_toFixed (digits : nat) (x : option Z) : string :=
  match x with
  | None => "NaN"
  | Some n =>
      match digits with
      | O => pretty n
      | S _ => pretty n +:+ "." +:+ zeros digits
      end
  end.

(** [a - b]: both operands are converted by ToNumber. *)
Definition minus `{Runtime} (a b : value) : option Z :=
  match API.ToNumber a, API.ToNumber b with
  | Some x, Some y => Some (x - y)
  | _, _ => None
  end.

(** [v.toFixed(digits)]: only a number has the method. *)
Definition toFixed (v : value) (digits : nat) : completion string :=
  match v with
  | VNum n => Normal (Number_toFixed digits (Some n))
  | VUndefined | VNull =>
      Abrupt (Thrown (TypeError
        ("Cannot read properties of " +:+ ToString v +:+ " (reading 'toFixed')")))
  | _ => Abrupt (Thrown (TypeError "toFixed is not a function"))
  end.

(** The object has an own property of this name. *)
Definition has_own (k : string) (fields : list (string * value)) : bool :=
  existsb (fun field => String.eqb k field.1) fields.

(** [v.toLocaleString()].  A number is formatted for the locale; a
    string and a boolean are their text; an array is its elements so
    converted and joined by commas, [null] and [undefined] counting as
    empty; an object answers with [Object.prototype.toLocaleString],
    which calls its [toString], unless a property of its own stands in
    the way of either. *)
Fixpoint toLocaleString `{Locale} (v : value) : completion string :=
  match v with
  | VUndefined | VNull =>
      Abrupt (Thrown (TypeError
        ("Cannot read properties of " +:+ ToString v
         +:+ " (reading 'toLocaleString')")))
  | VBool _ => Normal (ToString v)
  | VNum n => Normal (Number_toLocaleString n)
  | VStr s => Normal s
  | VArr items =>
      (fix join (l : list value) : completion string :=
         match l with
         | [] => Normal EmptyString
         | x :: rest =>
             match (if nullish x then Normal EmptyString else toLocaleString x) with
             | Normal sx =>
                 match rest with
                 | [] => Normal sx
                 | _ :: _ =>
                     match join rest with
                     | Normal sr => Normal (sx +:+ "," +:+ sr)
                     | Abrupt t => Abrupt t
                     end
                 end
             | Abrupt t => Abrupt t
             end
         end) items
  | VObj fields =>
      if has_own "toLocaleString" fields
      then Abrupt (Thrown (TypeError "toLocaleString is not a function"))
      else if has_own "toString" fields
      then Abrupt (Thrown (TypeError "toString is not a function"))
      else Normal "[object Object]"
  end.

(** The template of [createGoldPriceCard], with its six holes. *)
Definition gold_card (id goldTypeName karat buy sell spread : string) : string :=
  newline +:+
  "            <div class=" +:+ quoted "card card-price" +:+ " data-id=" +:+ quoted id +:+ ">" +:+ newline +:+
  "                <div class=" +:+ quoted "card-title" +:+ ">" +:+ goldTypeName +:+ "</div>" +:+ newline +:+
  "                <div class=" +:+ quoted "card-value" +:+ ">" +:+ karat +:+ "K</div>" +:+ newline +:+
  "                <div class=" +:+ quoted "card-prices" +:+ ">" +:+ newline +:+
  "                    <div class=" +:+ quoted "price-item" +:+ ">" +:+ newline +:+
  "                        <span class=" +:+ quoted "price-label" +:+ ">سعر الشراء</span>" +:+ newline +:+
  "                        <span class=" +:+ quoted "price-value price-buy" +:+ ">" +:+ buy +:+ "</span>" +:+ newline +:+
  "                    </div>" +:+ newline +:+
  "                    <div class=" +:+ quoted "price-item" +:+ ">" +:+ newline +:+
  "                        <span class=" +:+ quoted "price-label" +:+ ">سعر البيع</span>" +:+ newline +:+
  "                        <span class=" +:+ quoted "price-value price-sell" +:+ ">" +:+ sell +:+ "</span>" +:+ newline +:+
  "                    </div>" +:+ newline +:+
  "                </div>" +:+ newline +:+
  "                <div class=" +:+ quoted "mt-4 text-sm text-muted" +:+ ">" +:+ newline +:+
  "                    الفرق: <span class=" +:+ quoted "text-gold" +:+ ">" +:+ spread +:+ "</span>" +:+ newline +:+
  "                </div>" +:+ newline +:+
  "            </div>" +:+ newline +:+
  "        ".

(** The template of [createCurrencyRateCard], with its seven holes. *)
Definition rate_card (id flag currencyName currencyCode buy sell spread : string)
    : string :=
  newline +:+
  "            <div class=" +:+ quoted "card card-price" +:+ " data-id=" +:+ quoted id +:+ ">" +:+ newline +:+
  "                <div class=" +:+ quoted "card-title" +:+ ">" +:+ newline +:+
  "                    <span class=" +:+ quoted "text-2xl" +:+ ">" +:+ flag +:+ "</span>" +:+ newline +:+
  "                    " +:+ currencyName +:+ newline +:+
  "                </div>" +:+ newline +:+
  "                <div class=" +:+ quoted "card-value" +:+ ">" +:+ currencyCode +:+ "</div>" +:+ newline +:+
  "                <div class=" +:+ quoted "card-prices" +:+ ">" +:+ newline +:+
  "                    <div class=" +:+ quoted "price-item" +:+ ">" +:+ newline +:+
  "                        <span class=" +:+ quoted "price-label" +:+ ">سعر الشراء</span>" +:+ newline +:+
  "                        <span class=" +:+ quoted "price-value price-buy" +:+ ">" +:+ buy +:+ "</span>" +:+ newline +:+
  "                    </div>" +:+ newline +:+
  "                    <div class=" +:+ quoted "price-item" +:+ ">" +:+ newline +:+
  "                        <span class=" +:+ quoted "price-label" +:+ ">سعر البيع</span>" +:+ newline +:+
  "                        <span class=" +:+ quoted "price-value price-sell" +:+ ">" +:+ sell +:+ "</span>" +:+ newline +:+
  "                    </div>" +:+ newline +:+
  "                </div>" +:+ newline +:+
  "                <div class=" +:+ quoted "mt-4 text-sm text-muted" +:+ ">" +:+ newline +:+
  "                    الفرق: <span class=" +:+ quoted "text-gold" +:+ ">" +:+ spread +:+ "</span>" +:+ newline +:+
  "                </div>" +:+ newline +:+
  "            </div>" +:+ newline +:+
  "        ".

Definition createGoldPriceCard `{Runtime} `{Locale} (price : value)
    : completion string :=
  match read price "sellPrice" with
  | Abrupt t => Abrupt t
  | Normal sellPrice =>
      let buyPrice := prop price "buyPrice" in
      let spread := Number_toFixed 2 (minus sellPrice buyPrice) in
      match toLocaleString buyPrice with
      | Abrupt t => Abrupt t
      | Normal buy =>
          match toLocaleString sellPrice with
          | Abrupt t => Abrupt t
          | Normal sell =>
              Normal (gold_card (ToString (prop price "id"))
                                (ToString (prop price "goldTypeName"))
                                (ToString (prop price "karat"))
                                buy sell spread)
          end
      end
  end.

Definition createCurrencyRateCard `{Runtime} (rate : value) : completion string :=
  match read rate "sellRate" with
  | Abrupt t => Abrupt t
  | Normal sellRate =>
      let buyRate := prop rate "buyRate" in
      let spread := Number_toFixed 4 (minus sellRate buyRate) in
      match toFixed buyRate 4 with
      | Abrupt t => Abrupt t
      | Normal buy =>
          match toFixed sellRate 4 with
          | Abrupt t => Abrupt t
          | Normal sell =>
              Normal (rate_card (ToString (prop rate "id"))
                                (ToString (or_else (prop rate "flagEmoji")
                                                   (VStr "🏳️")))
                                (ToString (prop rate "currencyName"))
                                (ToString (prop rate "currencyCode"))
                                buy sell spread)
          end
      end
  end.

End GoldMarketApp.

(** The builders of the source as an instance of [Cards]. *)
Definition builders `{Runtime} `{Locale} : Cards :=
  {| createGoldPriceCard := GoldMarketApp.createGoldPriceCard;
     createCurrencyRateCard := GoldMarketApp.createCurrencyRateCard |}.

(** ** Pages and servers to run the program on *)

Module Fixtures.

Definition blank : Element := mkElement "" "" "" "".

(** A page with every element the view controller looks up. *)
Definition full_page : gmap string Element :=
  list_to_map (map (fun key => (key, blank))
    ["clock"; ".logo-text"; "footer-store-name"; "footer-address";
     "footer-phone"; "footer-whatsapp"; "footer-instagram"; "footer-facebook";
     ".status-indicator"; ".status-text"; "gold-prices-grid";
     "currency-rates-grid"; "error-container"; "admin-btn"]).

Definition page (cookie : string) (meta : option string) : World :=
  {| document := mkDocument cookie meta full_page;
     app := mkApp (VArr []) (VArr []) (VObj []) (VObj [("isOpen", VBool false)])
                  None None;
     fetch_count := 0;
     wall_clock := "09:30:00";
     next_timer := 1%positive;
     events := [] |}.

Definition json (status : Z) (body : value) : FetchResult :=
  Resolved (mkResponse ((200 <=? status) && (status <=? 299)) status (Some body)).

Definition not_json (status : Z) : FetchResult :=
  Resolved (mkResponse ((200 <=? status) && (status <=? 299)) status None).

Definition network_failure : FetchResult :=
  Rejected (TypeError "Failed to fetch").

Definition success (data : value) : value :=
  VObj [("success", VBool true); ("data", data)].

Definition stub_stringify (v : value) : option string :=
  match v with
  | VUndefined => None
  | _ => Some (ToString v)
  end.

(** A server that answers the n-th request with the n-th entry. *)
Definition scripted (script : list FetchResult) : Runtime :=
  {| origin := "https://shop.example";
     fetch := fun n _ => nth n script network_failure;
     JSON_stringify := stub_stringify;
     URLSearchParams_toString := ToString;
     StringToNumber := fun _ => None |}.

(** A server that answers by path. *)
Definition routed (routes : list (string * FetchResult)) : Runtime :=
  {| origin := "https://shop.example";
     fetch := fun _ req =>
       match list_find (fun route => String.eqb (request_url req)
                          ("https://shop.example/api" +:+ route.1)) routes with
       | Some (_, (_, answer)) => answer
       | None => not_json 404
       end;
     JSON_stringify := stub_stringify;
     URLSearchParams_toString := ToString;
     StringToNumber := fun _ => None |}.

(** A browser whose locale is en-US: a whole number is written with
    its digits in groups of three. *)
Fixpoint group_digits (digits : string) : string :=
  match digits with
  | EmptyString => EmptyString
  | String c rest =>
      String c
        (if (0 <? String.length rest)%nat && (String.length rest mod 3 =? 0)%nat
         then String ","%char (group_digits rest)
         else group_digits rest)
  end.

Definition en_US : Locale :=
  {| Number_toLocaleString := fun n =>
       if n <? 0 then String "-"%char (group_digits (pretty (- n)))
       else group_digits (pretty n) |}.

(** The card builders of the source, in that browser. *)
Definition cards (server : Runtime) : Cards := @builders server en_US.

(** Two 503s, then the list. *)
Definition flaky : Runtime :=
  scripted [not_json 503; not_json 503; json 200 (VObj [("success", VBool true)])].

(** A 503, then a 404. *)
Definition missing : Runtime :=
  scripted [not_json 503; not_json 404; json 200 (VObj [("success", VBool true)])].

Definition store : value :=
  VObj [("name", VStr "ELAM"); ("phone", VStr "+970 59 000"); ("whatsapp", VStr "+970-59-000");
        ("instagram", VStr "@elam")].

Definition market_open : value := VObj [("isOpen", VBool true)].

Definition gold_24 : value :=
  VObj [("id", VNum 1); ("goldTypeName", VStr "Gold 24"); ("karat", VNum 24);
        ("buyPrice", VNum 2500); ("sellPrice", VNum 2550)].

Definition gold_21 : value :=
  VObj [("id", VNum 2); ("goldTypeName", VStr "Gold 21"); ("karat", VNum 21);
        ("buyPrice", VNum 2190); ("sellPrice", VNum 2230)].

Definition gold_list : value := VArr [gold_24; gold_21].

Definition usd : value :=
  VObj [("id", VNum 7); ("currencyCode", VStr "USD"); ("currencyName", VStr "US Dollar");
        ("buyRate", VNum 3); ("sellRate", VNum 4)].

Definition rate_list : value := VArr [usd].

(** Every endpoint answers. *)
Definition healthy : Runtime :=
  routed [("/settings/store", json 200 (success store));
          ("/settings/market/status", json 200 (success market_open));
          ("/gold/prices", json 200 (success gold_list));
          ("/currency/rates", json 200 (success rate_list))].

(** The gold endpoint is down, the rest answers. *)
Definition gold_down : Runtime :=
  routed [("/settings/store", json 200 (success store));
          ("/settings/market/status", json 200 (success market_open));
          ("/gold/prices", network_failure);
          ("/currency/rates", json 200 (success rate_list))].

(** The market-status endpoint is down, the rest answers. *)
Definition market_down : Runtime :=
  routed [("/settings/store", json 200 (success store));
          ("/settings/market/status", json 500 (VObj []));
          ("/gold/prices", json 200 (success gold_list));
          ("/currency/rates", json 200 (success rate_list))].

End Fixtures.

(** * Properties *)

(** ** Vocabulary of the statements *)

(** An endpoint without the slash it may start with. *)
Definition strip_leading_slash (endpoint : string) : string :=
  match endpoint with
  | String c rest => if Ascii.eqb c "/"%char then rest else endpoint
  | EmptyString => endpoint
  end.

(** The payload [handleResponse] works with. *)
Definition payload_of (response : Response) : value :=
  match response_json response with
  | Some v => v
  | None => VNull
  end.

(** The cookie string as the browser builds it: cookies, each a name,
    [=] and a value, separated by a semicolon and a blank.  The pieces
    between the semicolons: *)
Fixpoint cookie_pieces (s : string) : list string :=
  match s with
  | EmptyString => [EmptyString]
  | String c rest =>
      if Ascii.eqb c ";"%char then EmptyString :: cookie_pieces rest
      else match cookie_pieces rest with
           | piece :: pieces => String c piece :: pieces
           | [] => [String c EmptyString]
           end
  end.

Fixpoint drop_blanks (s : string) : string :=
  match s with
  | String c rest => if Ascii.eqb c " "%char then drop_blanks rest else s
  | EmptyString => EmptyString
  end.

(** The cookies of a cookie string. *)
Definition cookies (s : string) : list string :=
  map drop_blanks (cookie_pieces s).

(** What follows the text, in a string that begins with it. *)
Fixpoint after (text s : string) : option string :=
  match text, s with
  | EmptyString, _ => Some s
  | String a text', String b s' => if Ascii.eqb a b then after text' s' else None
  | String _ _, EmptyString => None
  end.

(** The value of a cookie named [csrf_token], when it has one. *)
Definition csrf_token_of (one : string) : option string :=
  match after "csrf_token=" one with
  | Some (String c v) => Some (String c v)
  | _ => None
  end.

(** The token the spec speaks of, discoverable from the cookie named
    [csrf_token]: the value of the first cookie of that name that has
    a value. *)
Fixpoint first_csrf_token (all : list string) : option string :=
  match all with
  | [] => None
  | one :: others =>
      match csrf_token_of one with
      | Some v => Some v
      | None => first_csrf_token others
      end
  end.

Definition csrf_cookie (s : string) : option string :=
  first_csrf_token (cookies s).

(** The text occurs in the string. *)
Fixpoint occurs (text s : string) : bool :=
  String.prefix text s
  || match s with
     | EmptyString => false
     | String _ rest => occurs text rest
     end.

(** The text [csrf_token=] occurs in the cookie string only where a
    cookie begins: in no cookie's name after its first character, and
    in no cookie's value. *)
Definition csrf_token_names_only (s : string) : bool :=
  forallb (fun one => match one with
                      | EmptyString => true
                      | String _ rest => negb (occurs "csrf_token=" rest)
                      end)
          (cookies s).

(** The page has the meta tag, and its content is not empty. *)
Definition meta_has_token (doc : Document) : Prop :=
  exists content, meta_csrf_token doc = Some content /\ content <> "".

(** The [X-CSRF-Token] entry of the headers of a mutating request. *)
Definition csrf_header (doc : Document) : option string :=
  API.getHeaders true doc !! "X-CSRF-Token".

(** The world after a request has been handed to [fetch]. *)
Definition issued (req : Request) (w : World) : World :=
  count_fetch (emit (Fetch req) w).

(** The world in which an attempt starts when [failures] attempts,
    numbered from [attempt], each failed and were each followed by the
    pause of their number. *)
Fixpoint before_attempt (call : M value) (attempt : Z) (failures : nat)
    (w : World) : World :=
  match failures with
  | O => w
  | S failures' =>
      before_attempt call (attempt + 1) failures'
        (emit (Sleep (API_CONFIG.RETRY_DELAY * attempt)) (call w).2)
  end.

(** An attempt ended in an error whose status is outside [400, 500). *)
Definition retriable (c : completion value) : Prop :=
  exists e, c = Abrupt (Thrown e) /\ API.client_error e = false.

(** An attempt after which the loop is left: a result, a client error,
    or any error when it was the last attempt allowed. *)
Definition stops (last_attempt : bool) (c : completion value) : Prop :=
  match c with
  | Normal _ => True
  | Abrupt (Thrown e) => API.client_error e = true \/ last_attempt = true
  | Abrupt ThrownUndefined => False
  end.

Definition steps_of (c : completion Request) : list Step :=
  match c with
  | Normal req => [Attempt (request_method req) (request_url req)]
  | Abrupt _ => []
  end.

(** [failures] rounds of one attempt and the pause after it. *)
Fixpoint backoff (steps : list Step) (attempt : Z) (failures : nat) : list Step :=
  match failures with
  | O => []
  | S failures' =>
      steps ++ [Wait (API_CONFIG.RETRY_DELAY * attempt)]
            ++ backoff steps (attempt + 1) failures'
  end.

(** A computation leaves an observation of the world as it was. *)
Definition keeps {A B : Type} (obs : World -> B) (m : M A) : Prop :=
  forall w, obs (m w).2 = obs w.

(** An observation that neither drawing on the page nor an error on
    the console changes. *)
Class Backdrop {B : Type} (obs : World -> B) : Prop := {
  backdrop_elements : forall els w, obs (set_elements els w) = obs w;
  backdrop_console_error :
    forall msg t w, obs (emit (ConsoleError msg t) w) = obs w
}.

Definition page_state (w : World) : App * Document := (app w, document w).

Definition market_and_traffic (w : World) : value * list string :=
  (marketStatus (app w), fetch_urls (events w)).

Definition console_errors (evs : list Event) : list string :=
  omap (fun e => match e with ConsoleError msg _ => Some msg | _ => None end) evs.

Section Vocabulary.
Context {RT : Runtime} {CD : Cards}.

(** The attempt ceiling [requestWithRetry] derives from its options;
    [None] when the options are [null] or the ceiling is not a number. *)
Definition ceiling (options : value) : option Z :=
  let options := default_arg options (VObj []) in
  if nullish options then None
  else API.ToNumber (or_else (prop options "retryAttempts")
                             (VNum API_CONFIG.RETRY_ATTEMPTS)).

(** The request a verb hands to [fetch], or what it throws before. *)
Definition request_for (method : Method) (endpoint : string) (args : list value)
    (doc : Document) : completion Request :=
  match method with
  | GET =>
      match read (default_arg (arg 0 args) (VObj [])) "params" with
      | Normal params =>
          Normal (mkRequest
            (API.buildUrl endpoint +:+
               (if truthy params then "?" +:+ URLSearchParams_toString params else ""))
            "GET" (API.getHeaders false doc) "include" None)
      | Abrupt t => Abrupt t
      end
  | POST =>
      Normal (mkRequest (API.buildUrl endpoint) "POST" (API.getHeaders true doc)
                        "include" (JSON_stringify (arg 0 args)))
  | PUT =>
      Normal (mkRequest (API.buildUrl endpoint) "PUT" (API.getHeaders true doc)
                        "include" (JSON_stringify (arg 0 args)))
  | DELETE =>
      Normal (mkRequest (API.buildUrl endpoint) "DELETE" (API.getHeaders true doc)
                        "include" None)
  end.

(** What the awaiting verb makes of the outcome of its [fetch]. *)
Definition settle (r : FetchResult) : M value :=
  match r with
  | Resolved response => API.handleResponse response
  | Rejected e => throw (Thrown e)
  end.

(** The call [requestWithRetry] repeats. *)
Definition retry_call (method : Method) (endpoint : string) (data options : value)
    : M value :=
  API.verb method endpoint [default_arg data VNull; default_arg options (VObj [])].

(** The request of [API.get(endpoint)]. *)
Definition plain_get (endpoint : string) (doc : Document) : Request :=
  mkRequest (API.buildUrl endpoint +:+ "") "GET" (API.getHeaders false doc)
            "include" None.

(** The refresh callback once both requests are out. *)
Definition callback_rest (gold_first : bool) (gold currency : API.pending)
    : M unit :=
  try_catch GoldMarketApp.updateMarketStatus
    (fun error => console_error "Uncaught" error);;
  if gold_first
  then GoldMarketApp.fetchGoldPrices_finish gold;;
       GoldMarketApp.fetchCurrencyRates_finish currency
  else GoldMarketApp.fetchCurrencyRates_finish currency;;
       GoldMarketApp.fetchGoldPrices_finish gold.

(** The shape [fetchGoldPrices] and [fetchCurrencyRates] share. *)
Definition snapshot_task (get : M value) (set : value -> M unit) (render : M unit)
    (msg : string) : M unit :=
  try_catch
    (let* response := get in
     let* success := member response "success" in
     if truthy success then
       let* data := member response "data" in
       set data;;
       render
     else ret tt)
    (fun error => console_error msg error).

(** The world [init] has reached when it calls [fetchInitialData]. *)
Definition booted (w : World) : World :=
  ((console_log "Initializing Gold Market App...";; GoldMarketApp.initClock) w).2.

(** What is left of [init]'s [try] after [fetchInitialData]. *)
Definition go_live : M unit :=
  GoldMarketApp.render;;
  GoldMarketApp.startAutoUpdate;;
  GoldMarketApp.attachEventListeners;;
  console_log "App initialized successfully".

(** The [catch] of [init]. *)
Definition init_catch (error : thrown) : M unit :=
  console_error "App initialization error:" error;;
  GoldMarketApp.showError "Failed to initialize application".

(** The world an aborted startup ends in, from the world [w1] in which
    the failing step threw [t]. *)
Definition aborted (t : thrown) (w1 : World) : World :=
  (GoldMarketApp.showError "Failed to initialize application"
     (emit (ConsoleError "App initialization error:" t)
        (emit (ConsoleError "Error fetching initial data:" t) w1))).2.

(** The store-info request, or else the market-status request once
    the store-info block went through, is rejected with [t] in [w1]. *)
Definition settings_failure (w : World) (t : thrown) (w1 : World) : Prop :=
  SettingsAPI.getStoreInfo (booted w) = (Abrupt t, w1)
  \/ exists w0,
       GoldMarketApp.fetchInitialData_storeInfo (booted w) = (Normal tt, w0)
       /\ SettingsAPI.checkMarketStatus w0 = (Abrupt t, w1).

(** The store-info block and the market-status block of the initial
    load have both gone through, and left the world [w0]. *)
Definition settings_loaded (w w0 : World) : Prop :=
  exists w1,
    GoldMarketApp.fetchInitialData_storeInfo (booted w) = (Normal tt, w1)
    /\ GoldMarketApp.fetchInitialData_marketStatus w1 = (Normal tt, w0).

End Vocabulary.

(** ** Vocabulary of the further properties *)

(** *** Cookies *)

(** The text holds a semicolon. *)
Fixpoint has_semicolon (s : string) : bool :=
  match s with
  | EmptyString => false
  | String c rest => Ascii.eqb c ";"%char || has_semicolon rest
  end.

(** What follows a cookie value: the end of the cookie string, or a
    semicolon. *)
Definition ends_value (post : string) : Prop :=
  post = "" \/ exists rest, post = String ";"%char rest.

(** *** Service calls *)

(** A call of one of the service functions, with its arguments. *)
Inductive ServiceCall : Type :=
| Auth_getCSRFToken
| Auth_login (username password : value)
| Auth_logout
| Auth_checkSession
| Auth_changePassword (currentPassword newPassword : value)
| Auth_refreshSession
| Gold_getAllPrices
| Gold_getGoldTypes
| Gold_getPriceById (id : value)
| Gold_getCurrentPrice (goldTypeId : value)
| Gold_comparePrices
| Gold_getStatistics (goldTypeId days : value)
| Gold_createPrice (priceData : value)
| Gold_updatePrice (id priceData : value)
| Gold_deletePrice (id : value)
| Gold_autoUpdate (basePrice24k : value)
| Currency_getAllRates
| Currency_getCurrencies
| Currency_getRateById (id : value)
| Currency_getCurrentRate (currencyId : value)
| Currency_getRateByCode (code : value)
| Currency_convert (amount from to type : value)
| Currency_compareRates
| Currency_getStatistics (currencyId days : value)
| Currency_createRate (rateData : value)
| Currency_updateRate (id rateData : value)
| Currency_deleteRate (id : value)
| Currency_bulkUpdate (rates : value)
| User_getProfile
| User_updateProfile (data : value)
| User_getStatistics
| User_getUserById (id : value)
| User_createUser (userData : value)
| User_updateUser (id userData : value)
| User_deleteUser (id : value)
| User_changeUserPassword (id newPassword : value)
| User_toggleUserStatus (id isActive : value)
| Settings_getAllSettings
| Settings_getSetting (key : value)
| Settings_setSetting (key v type : value)
| Settings_deleteSetting (key : value)
| Settings_getStoreInfo
| Settings_updateStoreInfo (info : value)
| Settings_getMarketSettings
| Settings_updateMarketSettings (settings : value)
| Settings_getMarginSettings
| Settings_updateMarginSettings (margins : value)
| Settings_getSecuritySettings
| Settings_updateSecuritySettings (settings : value)
| Settings_checkMarketStatus
| Settings_resetToDefaults.

(** The call as the service objects make it. *)
Definition perform {RT : Runtime} (c : ServiceCall) : M value :=
  match c with
  | Auth_getCSRFToken => AuthAPI.getCSRFToken
  | Auth_login username password => AuthAPI.login username password
  | Auth_logout => AuthAPI.logout
  | Auth_checkSession => AuthAPI.checkSession
  | Auth_changePassword current new => AuthAPI.changePassword current new
  | Auth_refreshSession => AuthAPI.refreshSession
  | Gold_getAllPrices => GoldAPI.getAllPrices
  | Gold_getGoldTypes => GoldAPI.getGoldTypes
  | Gold_getPriceById id => GoldAPI.getPriceById id
  | Gold_getCurrentPrice id => GoldAPI.getCurrentPrice id
  | Gold_comparePrices => GoldAPI.comparePrices
  | Gold_getStatistics id days => GoldAPI.getStatistics id days
  | Gold_createPrice priceData => GoldAPI.createPrice priceData
  | Gold_updatePrice id priceData => GoldAPI.updatePrice id priceData
  | Gold_deletePrice id => GoldAPI.deletePrice id
  | Gold_autoUpdate base => GoldAPI.autoUpdate base
  | Currency_getAllRates => CurrencyAPI.getAllRates
  | Currency_getCurrencies => CurrencyAPI.getCurrencies
  | Currency_getRateById id => CurrencyAPI.getRateById id
  | Currency_getCurrentRate id => CurrencyAPI.getCurrentRate id
  | Currency_getRateByCode code => CurrencyAPI.getRateByCode code
  | Currency_convert amount from to type => CurrencyAPI.convert amount from to type
  | Currency_compareRates => CurrencyAPI.compareRates
  | Currency_getStatistics id days => CurrencyAPI.getStatistics id days
  | Currency_createRate rateData => CurrencyAPI.createRate rateData
  | Currency_updateRate id rateData => CurrencyAPI.updateRate id rateData
  | Currency_deleteRate id => CurrencyAPI.deleteRate id
  | Currency_bulkUpdate rates => CurrencyAPI.bulkUpdate rates
  | User_getProfile => UserAPI.getProfile
  | User_updateProfile data => UserAPI.updateProfile data
  | User_getStatistics => UserAPI.getStatistics
  | User_getUserById id => UserAPI.getUserById id
  | User_createUser userData => UserAPI.createUser userData
  | User_updateUser id userData => UserAPI.updateUser id userData
  | User_deleteUser id => UserAPI.deleteUser id
  | User_changeUserPassword id newPassword => UserAPI.changeUserPassword id newPassword
  | User_toggleUserStatus id isActive => UserAPI.toggleUserStatus id isActive
  | Settings_getAllSettings => SettingsAPI.getAllSettings
  | Settings_getSetting key => SettingsAPI.getSetting key
  | Settings_setSetting key v type => SettingsAPI.setSetting key v type
  | Settings_deleteSetting key => SettingsAPI.deleteSetting key
  | Settings_getStoreInfo => SettingsAPI.getStoreInfo
  | Settings_updateStoreInfo info => SettingsAPI.updateStoreInfo info
  | Settings_getMarketSettings => SettingsAPI.getMarketSettings
  | Settings_updateMarketSettings settings => SettingsAPI.updateMarketSettings settings
  | Settings_getMarginSettings => SettingsAPI.getMarginSettings
  | Settings_updateMarginSettings margins => SettingsAPI.updateMarginSettings margins
  | Settings_getSecuritySettings => SettingsAPI.getSecuritySettings
  | Settings_updateSecuritySettings settings =>
      SettingsAPI.updateSecuritySettings settings
  | Settings_checkMarketStatus => SettingsAPI.checkMarketStatus
  | Settings_resetToDefaults => SettingsAPI.resetToDefaults
  end.

(** What every request of a service call has in common. *)
Definition service_request {RT : Runtime} (doc : Document) (req : Request) : Prop :=
  String.prefix (origin +:+ "/api/") (request_url req) = true
  /\ request_credentials req = "include"
  /\ (request_method req = "GET" /\ request_body req = None
      /\ request_headers req = API.getHeaders false doc
      \/ (request_method req = "POST" \/ request_method req = "PUT"
          \/ request_method req = "DELETE")
         /\ request_headers req = API.getHeaders true doc).

(** *** Drawing *)

(** [parts.join('')] *)
Definition concat_strings (parts : list string) : string :=
  foldr String.append "" parts.

(** The shape [renderGoldPrices] and [renderCurrencyRates] share. *)
Definition render_grid (key : string) (card : value -> completion string)
    (snapshot : World -> value) : M unit :=
  let* container := getElement key in
  match container with
  | None => ret tt
  | Some el =>
      let* items := reads snapshot in
      let* html := GoldMarketApp.render_cards card items in
      setElement key (GoldMarketApp.set_innerHTML html el)
  end.

(** The world with the markup of one element replaced. *)
Definition with_innerHTML (key html : string) (w : World) : World :=
  match elements (document w) !! key with
  | Some el =>
      set_elements (<[key := GoldMarketApp.set_innerHTML html el]>
                      (elements (document w))) w
  | None => w
  end.

(** Every character is a decimal digit. *)
Fixpoint all_digits (s : string) : bool :=
  match s with
  | EmptyString => true
  | String c rest => GoldMarketApp.is_digit c && all_digits rest
  end.

(** The text holds an [@]. *)
Fixpoint has_at (s : string) : bool :=
  match s with
  | EmptyString => false
  | String c rest => Ascii.eqb c "@"%char || has_at rest
  end.

(** One block of [updateStoreInfo] as a rule on elements: the element
    under [key] is rewritten by [g] when the store field is truthy. *)
Definition store_rule (info : value) (key field : string)
    (g : Element -> value -> Element) (k : string) (el : Element) : Element :=
  if String.eqb k key && truthy (prop info field)
  then g el (prop info field)
  else el.

(** A rule that applies to strings only. *)
Definition on_string (f : string -> Element -> Element) (el : Element) (v : value)
    : Element :=
  match v with
  | VStr s => f s el
  | _ => el
  end.

(** What [updateStoreInfo] makes of the element under [k] when it
    completes: its seven rules, each of which applies to one key. *)
Definition store_update (info : value) (k : string) (el : Element) : Element :=
  let text := fun el v => GoldMarketApp.set_textContent (ToString v) el in
  store_rule info "footer-facebook" "facebook"
    (fun el v => GoldMarketApp.set_href ("https://facebook.com/" +:+ ToString v) el) k
  (store_rule info "footer-instagram" "instagram"
    (on_string (fun s => GoldMarketApp.set_href
                  ("https://instagram.com/" +:+ GoldMarketApp.drop_first_at s))) k
  (store_rule info "footer-whatsapp" "whatsapp"
    (on_string (fun s => GoldMarketApp.set_href
                  ("https://wa.me/" +:+ GoldMarketApp.keep_digits s))) k
  (store_rule info "footer-phone" "phone"
    (fun el v => GoldMarketApp.set_href ("tel:" +:+ ToString v)
                   (GoldMarketApp.set_textContent (ToString v) el)) k
  (store_rule info "footer-address" "address" text k
  (store_rule info "footer-store-name" "name" text k
  (store_rule info ".logo-text" "name" text k el)))))).

(** *** Timers, banners and traffic *)

(** The elements the data regions are drawn into. *)
Definition data_regions : list string :=
  [".logo-text"; "footer-store-name"; "footer-address"; "footer-phone";
   "footer-whatsapp"; "footer-instagram"; "footer-facebook";
   ".status-indicator"; ".status-text"; "gold-prices-grid"; "currency-rates-grid"].

Definition data_region (key : string) : bool :=
  existsb (String.eqb key) data_regions.

(** An observation that loading and refreshing data leave alone: it
    changes neither when a data region is drawn, nor when an error is
    logged, nor when a request is sent, nor when a snapshot is stored. *)
Class Offstage {B : Type} (obs : World -> B) : Prop := {
  offstage_draw : forall key el w,
    data_region key = true ->
    obs (set_elements (<[key := el]> (elements (document w))) w) = obs w;
  offstage_console_error : forall msg t w, obs (emit (ConsoleError msg t) w) = obs w;
  offstage_issued : forall req w, obs (issued req w) = obs w;
  offstage_snapshot : forall gold rates store market w,
    obs (set_app (mkApp gold rates store market
                        (updateInterval (app w)) (clockInterval (app w))) w)
    = obs w
}.

(** The handles [setInterval] has given out, in order. *)
Definition intervals_set (evs : list Event) : list positive :=
  omap (fun e => match e with SetInterval id _ _ => Some id | _ => None end) evs.

(** The handles passed to [clearInterval], in order. *)
Definition intervals_cleared (evs : list Event) : list positive :=
  omap (fun e => match e with ClearInterval id => Some id | _ => None end) evs.

(** The timers: those registered and those cleared so far, the two
    handles the application holds, and the next handle. *)
Definition timers (w : World)
    : list positive * list positive * option positive * option positive * positive :=
  (intervals_set (events w), intervals_cleared (events w),
   updateInterval (app w), clockInterval (app w), next_timer w).

(** The element [showError] writes to. *)
Definition error_region (w : World) : option Element :=
  elements (document w) !! "error-container".

(** The element [showSuccess] writes to. *)
Definition success_region (w : World) : option Element :=
  elements (document w) !! "success-container".

(** The URLs requested so far, in order. *)
Definition traffic (w : World) : list string := fetch_urls (events w).

(** What is left of startup once the page has been drawn. *)
Definition register : M unit :=
  GoldMarketApp.startAutoUpdate;;
  GoldMarketApp.attachEventListeners;;
  console_log "App initialized successfully".

(** The four requests of the initial load, in the order of the source. *)
Definition startup_urls {RT : Runtime} : list string :=
  map API.buildUrl
    ["/settings/store"; "/settings/market/status"; "/gold/prices"; "/currency/rates"].

(** What a resumed snapshot task does to the page: nothing, or store
    the data and redraw its grid. *)
Definition stored (set : value -> World -> World) (render : M unit)
    (d : option value) (w : World) : World :=
  match d with
  | Some data => (render (set data w)).2
  | None => w
  end.

(** [this.goldPrices = data] and [this.currencyRates = data] as functions
    on the world. *)
Definition keep_gold (data : value) (w : World) : World :=
  (GoldMarketApp.set_goldPrices data w).2.

Definition keep_rates (data : value) (w : World) : World :=
  (GoldMarketApp.set_currencyRates data w).2.

(** What the fifth block of [updateStoreInfo] reads. *)
Definition whatsapp_link (w : World) : value * option Element :=
  (storeInfo (app w), elements (document w) !! "footer-whatsapp").

(** A firing of one of the two interval timers. *)
Inductive Tick : Type :=
| ClockTick
| RefreshTick (gold_first : bool).

(** The callback a firing runs. *)
Definition fire {RT : Runtime} {CD : Cards} (t : Tick) : M unit :=
  match t with
  | ClockTick => GoldMarketApp.updateClock
  | RefreshTick gold_first => GoldMarketApp.startAutoUpdate_callback gold_first
  end.

(** The world after the timers fired in the given order; what a
    callback throws is reported by the browser and ends that callback
    only. *)
Definition after_ticks {RT : Runtime} {CD : Cards} (ticks : list Tick) (w : World)
    : World :=
  foldl (fun w t => (fire t w).2) w ticks.

Create HintDb keeps discriminated.

(** ** Strings, cookies and headers *)

Lemma append_empty_r (s : string) : s +:+ "" = s.
Proof.
  induction s as [|c s IH]; [reflexivity|].
  change (String c s +:+ "") with (String c (s +:+ "")). f_equal. exact IH.
Qed.

Lemma strip_prefix_app (p s rest : string) :
  API.strip_prefix p s = Some rest <-> s = p +:+ rest.
Proof.
  revert s. induction p as [|a p IH]; intros s; cbn.
  - split; [intros [= ->]; reflexivity | intros ->; reflexivity].
  - destruct s as [|b s]; [split; discriminate|].
    destruct (Ascii.eqb_spec a b) as [->|Hne].
    + rewrite IH. split; [intros ->; reflexivity | intros [=]; assumption].
    + split; [discriminate | intros [=]; congruence].
Qed.

Lemma csrf_match_here_spec (s token : string) :
  API.csrf_match_here s = Some token ->
  exists c rest, s = "csrf_token=" +:+ String c rest /\ c <> ";"%char /\ token <> "".
Proof.
  unfold API.csrf_match_here.
  destruct (API.strip_prefix "csrf_token=" s) as [r|] eqn:E; [|discriminate].
  apply strip_prefix_app in E. subst s.
  destruct r as [|c rest]; cbn [API.not_semicolon_run]; [discriminate|].
  destruct (Ascii.eqb_spec c ";"); [discriminate|].
  intros [= <-]. exists c, rest. repeat split; [assumption|discriminate].
Qed.

Lemma csrf_cookie_match_unfold (s : string) :
  API.csrf_cookie_match s =
  match API.csrf_match_here s with
  | Some token => Some token
  | None => match s with
            | EmptyString => None
            | String _ rest => API.csrf_cookie_match rest
            end
  end.
Proof. destruct s; reflexivity. Qed.

Lemma csrf_cookie_match_nonempty (s token : string) :
  API.csrf_cookie_match s = Some token -> token <> "".
Proof.
  induction s as [|a s IH]; rewrite csrf_cookie_match_unfold.
  - destruct (API.csrf_match_here "") eqn:E; [|discriminate].
    intros [= <-]. apply csrf_match_here_spec in E as (? & ? & _ & _ & ?). assumption.
  - destruct (API.csrf_match_here (String a s)) eqn:E; [|exact IH].
    intros [= <-]. apply csrf_match_here_spec in E as (? & ? & _ & _ & ?). assumption.
Qed.

Lemma csrf_header_value (doc : Document) :
  csrf_header doc =
  match API.csrf_cookie_match (cookie doc) with
  | Some token => Some token
  | None =>
      match meta_csrf_token doc with
      | Some content => if String.eqb content "" then None else Some content
      | None => None
      end
  end.
Proof.
  unfold csrf_header, API.getHeaders, API.getCSRFToken.
  destruct (API.csrf_cookie_match (cookie doc)) as [token|] eqn:E.
  - apply csrf_cookie_match_nonempty in E.
    destruct (String.eqb_spec token ""); [contradiction|].
    cbn. apply lookup_insert_eq.
  - destruct (meta_csrf_token doc) as [content|]; [|reflexivity].
    destruct (String.eqb_spec content ""); cbn; [reflexivity|apply lookup_insert_eq].
Qed.

(** *** The cookie named [csrf_token] *)

Lemma has_semicolon_app (a b : string) :
  has_semicolon (a +:+ b) = has_semicolon a || has_semicolon b.
Proof.
  induction a as [|c a IH]; [reflexivity|].
  change (String c a +:+ b) with (String c (a +:+ b)).
  cbn [has_semicolon]. rewrite IH. apply orb_assoc.
Qed.

Lemma cookie_pieces_head (s : string) :
  exists piece pieces tail,
    cookie_pieces s = piece :: pieces
    /\ s = piece +:+ tail
    /\ has_semicolon piece = false
    /\ ends_value tail.
Proof.
  induction s as [|c s (piece & pieces & tail & E & Es & Hno & Hend)].
  - exists "", [], "". repeat split. left. reflexivity.
  - cbn [cookie_pieces]. destruct (Ascii.eqb_spec c ";") as [->|Hne].
    + exists "", (cookie_pieces s), (String ";" s). repeat split.
      right. eexists. reflexivity.
    + rewrite E. exists (String c piece), pieces, tail. split; [reflexivity|].
      split; [rewrite Es at 1; reflexivity|]. split; [|exact Hend].
      cbn [has_semicolon]. rewrite Hno.
      destruct (Ascii.eqb_spec c ";"); [contradiction|reflexivity].
Qed.

Lemma strip_prefix_piece (text piece tail : string) :
  has_semicolon text = false ->
  ends_value tail ->
  API.strip_prefix text (piece +:+ tail)
  = (fun rest => rest +:+ tail) <$> API.strip_prefix text piece.
Proof.
  intros Htext Htail. revert piece.
  induction text as [|a text IH]; intros piece; [reflexivity|].
  cbn [has_semicolon] in Htext. apply orb_false_iff in Htext as [Ha Htext].
  destruct piece as [|b piece].
  - change ("" +:+ tail) with tail. cbn [API.strip_prefix].
    destruct Htail as [->|(rest & ->)]; [reflexivity|].
    destruct (Ascii.eqb_spec a ";") as [->|_]; [discriminate Ha|reflexivity].
  - change (String b piece +:+ tail) with (String b (piece +:+ tail)).
    cbn [API.strip_prefix]. destruct (Ascii.eqb a b); [apply IH, Htext|reflexivity].
Qed.

Lemma not_semicolon_run_piece (piece tail : string) :
  has_semicolon piece = false ->
  ends_value tail ->
  API.not_semicolon_run (piece +:+ tail) = piece.
Proof.
  intros Hno Htail. induction piece as [|c piece IH].
  - change ("" +:+ tail) with tail. destruct Htail as [->|(rest & ->)]; reflexivity.
  - cbn [has_semicolon] in Hno. apply orb_false_iff in Hno as [Hc Hno].
    change (String c piece +:+ tail) with (String c (piece +:+ tail)).
    cbn [API.not_semicolon_run]. rewrite Hc, (IH Hno). reflexivity.
Qed.

Lemma after_strip_prefix (text s : string) : after text s = API.strip_prefix text s.
Proof.
  revert s. induction text as [|a text IH]; intros s; [reflexivity|].
  destruct s as [|b s]; [reflexivity|]. cbn [after API.strip_prefix].
  destruct (Ascii.eqb a b); [apply IH|reflexivity].
Qed.

(** At the beginning of a cookie the pattern finds the value of the
    cookie named [csrf_token]. *)
Lemma csrf_match_here_piece (piece tail : string) :
  has_semicolon piece = false ->
  ends_value tail ->
  API.csrf_match_here (piece +:+ tail) = csrf_token_of piece.
Proof.
  intros Hno Htail. unfold API.csrf_match_here, csrf_token_of.
  rewrite (after_strip_prefix "csrf_token=" piece).
  rewrite strip_prefix_piece by (reflexivity || assumption).
  destruct (API.strip_prefix "csrf_token=" piece) as [rest|] eqn:E; [|reflexivity].
  cbn [fmap option_fmap option_map].
  apply strip_prefix_app in E. subst piece.
  rewrite has_semicolon_app in Hno. apply orb_false_iff in Hno as [_ Hrest].
  rewrite (not_semicolon_run_piece rest tail Hrest Htail).
  destruct rest; reflexivity.
Qed.

Lemma strip_prefix_prefix (text s rest : string) :
  API.strip_prefix text s = Some rest -> String.prefix text s = true.
Proof.
  revert s. induction text as [|a text IH]; intros s; [destruct s; reflexivity|].
  destruct s as [|b s]; [discriminate|]. cbn [API.strip_prefix String.prefix].
  destruct (Ascii.eqb_spec a b) as [->|Hne]; [|discriminate].
  destruct (ascii_dec b b); [apply IH|contradiction].
Qed.

Lemma occurs_tail (text s : string) (c : ascii) :
  occurs text (String c s) = false -> occurs text s = false.
Proof. cbn [occurs]. intros H. apply orb_false_iff in H as [_ H]. exact H. Qed.

Lemma occurs_here (text s : string) :
  occurs text s = false -> String.prefix text s = false.
Proof. destruct s; cbn [occurs]; intros H; apply orb_false_iff in H as [H _]; exact H. Qed.

Lemma occurs_drop_blanks (text s : string) :
  occurs text s = false -> occurs text (drop_blanks s) = false.
Proof.
  induction s as [|c s IH]; [trivial|]. intros H. cbn [drop_blanks].
  destruct (Ascii.eqb c " "); [apply IH, (occurs_tail _ _ _ H)|exact H].
Qed.

Lemma csrf_match_here_occurs (s : string) :
  String.prefix "csrf_token=" s = false -> API.csrf_match_here s = None.
Proof.
  intros H. unfold API.csrf_match_here.
  destruct (API.strip_prefix "csrf_token=" s) as [rest|] eqn:E; [|reflexivity].
  apply strip_prefix_prefix in E. congruence.
Qed.

Lemma csrf_cookie_match_absent (s : string) :
  occurs "csrf_token=" s = false -> API.csrf_cookie_match s = None.
Proof.
  induction s as [|c s IH]; intros H; rewrite csrf_cookie_match_unfold;
    rewrite (csrf_match_here_occurs _ (occurs_here _ _ H)); [reflexivity|].
  apply IH, (occurs_tail _ _ _ H).
Qed.

Lemma csrf_token_of_absent (one : string) :
  String.prefix "csrf_token=" one = false -> csrf_token_of one = None.
Proof.
  intros H. unfold csrf_token_of. rewrite (after_strip_prefix "csrf_token=" one).
  destruct (API.strip_prefix "csrf_token=" one) as [rest|] eqn:E; [|reflexivity].
  apply strip_prefix_prefix in E. congruence.
Qed.

(** Where the text [csrf_token=] stands only at the beginning of
    cookies, the pattern finds the cookie the spec names. *)
Lemma csrf_cookie_match_named (s : string) :
  csrf_token_names_only s = true ->
  API.csrf_cookie_match s = csrf_cookie s.
Proof.
  unfold csrf_token_names_only, csrf_cookie, cookies.
  induction s as [|c s IH]; [reflexivity|].
  rewrite csrf_cookie_match_unfold.
  destruct (cookie_pieces_head (String c s)) as (piece & pieces & tail & E & Es & Hno & Hend).
  assert (Hhere : API.csrf_match_here (String c s) = csrf_token_of piece).
  { rewrite Es. apply csrf_match_here_piece; assumption. }
  rewrite Hhere, E. cbn [map forallb first_csrf_token]. clear Hhere Es Hno Hend tail.
  cbn [cookie_pieces] in E.
  destruct (Ascii.eqb_spec c ";") as [->|Hsemi].
  - injection E as <- <-. cbn [drop_blanks csrf_token_of API.strip_prefix].
    intros H. cbn in H |- *. apply IH. exact H.
  - destruct (cookie_pieces s) as [|p ps] eqn:Ep.
    { destruct (cookie_pieces_head s) as (? & ? & ? & E' & _). congruence. }
    injection E as <- <-. cbn [map forallb first_csrf_token] in IH.
    cbn [drop_blanks]. destruct (Ascii.eqb_spec c " ") as [->|Hblank].
    + intros H. specialize (IH H).
      assert (Hblank : csrf_token_of (String " " p) = None) by reflexivity.
      rewrite Hblank. exact IH.
    + intros H. apply andb_true_iff in H as [Hp Hps].
      apply negb_true_iff in Hp.
      assert (Hq : csrf_token_of (drop_blanks p) = None).
      { apply csrf_token_of_absent, occurs_here, occurs_drop_blanks, Hp. }
      assert (Hrest : match drop_blanks p with
                      | "" => true
                      | String _ rest => negb (occurs "csrf_token=" rest)
                      end = true).
      { pose proof (occurs_drop_blanks _ _ Hp) as Hd.
        destruct (drop_blanks p) as [|d q]; [reflexivity|].
        apply negb_true_iff, (occurs_tail _ _ _ Hd). }
      rewrite Hrest, Hq in IH. specialize (IH Hps).
      destruct (csrf_token_of (String c p)); [reflexivity|exact IH].
Qed.

(** ** The request client *)

Section RequestClient.
Context {RT : Runtime}.

(** C7.  For every endpoint, [buildUrl] yields the origin, the API
    prefix, one slash, and the endpoint without the slash it may start
    with: the same URL whether or not the argument carries that slash. *)
Theorem buildUrl_one_slash (endpoint : string) :
  API.buildUrl endpoint
  = origin +:+ API_CONFIG.API_PREFIX +:+ "/" +:+ strip_leading_slash endpoint.
Proof.
  unfold API.buildUrl, API.startsWith, API_CONFIG.BASE_URL.
  destruct endpoint as [|c rest]; [reflexivity|].
  cbn [String.prefix strip_leading_slash].
  destruct (ascii_dec "/" c) as [<-|Hne].
  - destruct rest; reflexivity.
  - destruct (Ascii.eqb_spec c "/"); [congruence|reflexivity].
Qed.


Lemma handleResponse_world (response : Response) (w : World) :
  (API.handleResponse response w).2 = w.
Proof.
  unfold API.handleResponse. destruct (negb (response_ok response)); reflexivity.
Qed.

Lemma settle_world (r : FetchResult) (w : World) : (settle r w).2 = w.
Proof. destruct r; [apply handleResponse_world | reflexivity]. Qed.

Lemma settle_thrown (r : FetchResult) (w : World) :
  (settle r w).1 <> Abrupt ThrownUndefined.
Proof.
  destruct r as [response|e]; [|discriminate].
  unfold settle, API.handleResponse.
  destruct (negb (response_ok response)); discriminate.
Qed.

(** Every verb builds its request, hands it to [fetch] and settles the
    outcome; only [get] can throw before it sends anything. *)
Lemma verb_run (method : Method) (endpoint : string) (args : list value) (w : World) :
  API.verb method endpoint args w =
  match request_for method endpoint args (document w) with
  | Normal req => settle (fetch (fetch_count w) req) (issued req w)
  | Abrupt t => (Abrupt t, w)
  end.
Proof.
  destruct method; cbn [API.verb request_for].
  - unfold API.get, API.get_start, API.get_request, API.start, member, lift, bind.
    destruct (read _ "params") as [params|t]; cbn; [|reflexivity].
    destruct (fetch _ _); reflexivity.
  - unfold API.post, API.post_request, API.start, bind. cbn.
    destruct (fetch _ _); reflexivity.
  - unfold API.put, API.put_request, API.start, bind. cbn.
    destruct (fetch _ _); reflexivity.
  - unfold API.delete, API.delete_request, API.start, bind. cbn.
    destruct (fetch _ _); reflexivity.
Qed.

Lemma verb_world (method : Method) (endpoint : string) (args : list value) (w : World) :
  (API.verb method endpoint args w).2 =
  match request_for method endpoint args (document w) with
  | Normal req => issued req w
  | Abrupt _ => w
  end.
Proof.
  rewrite verb_run. destruct (request_for _ _ _ _); [apply settle_world|reflexivity].
Qed.

Lemma request_for_thrown (method : Method) (endpoint : string) (args : list value)
    (doc : Document) :
  request_for method endpoint args doc <> Abrupt ThrownUndefined.
Proof.
  destruct method; cbn; try discriminate.
  unfold read. destruct (nullish _); discriminate.
Qed.

(** A verb never throws [undefined]. *)
Lemma verb_thrown (method : Method) (endpoint : string) (args : list value) (w : World) :
  (API.verb method endpoint args w).1 <> Abrupt ThrownUndefined.
Proof.
  rewrite verb_run.
  destruct (request_for method endpoint args (document w)) as [req|t] eqn:E.
  - apply settle_thrown.
  - cbn. intros [= ->]. exact (request_for_thrown _ _ _ _ E).
Qed.

Lemma verb_document (method : Method) (endpoint : string) (args : list value) (w : World) :
  document (API.verb method endpoint args w).2 = document w.
Proof. rewrite verb_world. destruct (request_for _ _ _ _); reflexivity. Qed.

Lemma verb_timeline (method : Method) (endpoint : string) (args : list value) (w : World) :
  timeline (events (API.verb method endpoint args w).2)
  = timeline (events w) ++ steps_of (request_for method endpoint args (document w)).
Proof.
  rewrite verb_world. destruct (request_for _ _ _ _) as [req|t]; cbn.
  - unfold timeline. rewrite omap_app. reflexivity.
  - rewrite app_nil_r. reflexivity.
Qed.

Lemma verb_delays (method : Method) (endpoint : string) (args : list value) (w : World) :
  delays (events (API.verb method endpoint args w).2) = delays (events w).
Proof.
  rewrite verb_world. destruct (request_for _ _ _ _) as [req|t]; cbn; [|reflexivity].
  unfold delays. rewrite omap_app. cbn. apply app_nil_r.
Qed.

Lemma tokens_sent_issued (req : Request) (w : World) :
  tokens_sent (events (issued req w))
  = tokens_sent (events w) ++ [request_headers req !! "X-CSRF-Token"].
Proof.
  unfold tokens_sent. cbn [issued count_fetch emit events].
  rewrite omap_app. reflexivity.
Qed.

(** C6, as amended.  The headers of a GET never hold [X-CSRF-Token].
    Each POST, PUT and DELETE sends the header of [getHeaders(true)],
    and that header is there exactly when a token is discoverable from
    the cookie [csrf_token] (the cookie has a value) or, failing that,
    the meta tag is present and its content is not empty; the token is
    the cookie's when the cookie has one, the meta content otherwise.
    This is stated for cookie strings in which the text [csrf_token=]
    stands only at the beginning of cookies. *)
Theorem csrf_header_rule (endpoint : string) (args : list value) (w : World) :
  let doc := document w in
  let sent (method : Method) :=
    tokens_sent (events (API.verb method endpoint args w).2) in
  API.getHeaders false doc !! "X-CSRF-Token" = None
  /\ sent GET = tokens_sent (events w)
                ++ (if nullish (default_arg (arg 0 args) (VObj [])) then [] else [None])
  /\ sent POST = tokens_sent (events w) ++ [csrf_header doc]
  /\ sent PUT = tokens_sent (events w) ++ [csrf_header doc]
  /\ sent DELETE = tokens_sent (events w) ++ [csrf_header doc]
  /\ (csrf_token_names_only (cookie doc) = true ->
      (is_Some (csrf_header doc)
       <-> is_Some (csrf_cookie (cookie doc)) \/ meta_has_token doc)
      /\ csrf_header doc
         = match csrf_cookie (cookie doc) with
           | Some token => Some token
           | None =>
               match meta_csrf_token doc with
               | Some content => if String.eqb content "" then None else Some content
               | None => None
               end
           end).
Proof.
  cbn zeta. split; [reflexivity|].
  split.
  { rewrite verb_world. cbn [request_for]. unfold read.
    destruct (nullish _); [symmetry; apply app_nil_r|apply tokens_sent_issued]. }
  split; [rewrite verb_world; apply tokens_sent_issued|].
  split; [rewrite verb_world; apply tokens_sent_issued|].
  split; [rewrite verb_world; apply tokens_sent_issued|].
  intros Hnames. rewrite csrf_header_value, (csrf_cookie_match_named _ Hnames).
  split; [|reflexivity]. unfold meta_has_token.
  destruct (csrf_cookie (cookie (document w))) as [token|].
  - split; [left|]; eexists; reflexivity.
  - destruct (meta_csrf_token (document w)) as [content|].
    + destruct (String.eqb_spec content "") as [->|Hne].
      * split; [intros []; discriminate|].
        intros [[] | (c & [= <-] & Hc)]; [discriminate|contradiction].
      * split; [right; exists content; auto | eexists; reflexivity].
    + split; [intros []; discriminate|].
      intros [[] | (c & [=] & Hc)]; discriminate.
Qed.

(** *** The retry loop *)

(** The loop run against any call: after [k] retriable failures and an
    attempt that stops, it ends exactly as that attempt ended. *)
Lemma retry_loop_run (call : M value) (n : Z) (k : nat) :
  forall (attempt : Z) (remaining : nat) (lastError : thrown) (w : World),
    Z.of_nat remaining = n - attempt + 1 ->
    attempt + Z.of_nat k <= n ->
    (forall i, (i < k)%nat -> retriable (call (before_attempt call attempt i w)).1) ->
    stops (attempt + Z.of_nat k =? n) (call (before_attempt call attempt k w)).1 ->
    API.retry_loop call n remaining attempt lastError w
    = call (before_attempt call attempt k w).
Proof.
  induction k as [|k IH]; intros attempt remaining lastError w Hrem Hle Hfail Hstop.
  - cbn [before_attempt] in *.
    destruct remaining as [|remaining]; [lia|].
    cbn [API.retry_loop]. unfold try_catch.
    destruct (call w) as [[v|[|e]] w'] eqn:E; cbn in Hstop |- *.
    + reflexivity.
    + contradiction.
    + destruct (API.client_error e) eqn:Ec; [reflexivity|].
      destruct Hstop as [?|Hlast]; [discriminate|].
      apply Z.eqb_eq in Hlast.
      replace (attempt <? n) with false by (symmetry; apply Z.ltb_ge; lia).
      destruct remaining; [reflexivity|lia].
  - destruct remaining as [|remaining]; [lia|].
    cbn [API.retry_loop]. unfold try_catch.
    destruct (Hfail O ltac:(lia)) as (e & E & Ec). cbn [before_attempt] in E.
    destruct (call w) as [c w'] eqn:Ew. cbn in E. subst c. rewrite Ec.
    replace (attempt <? n) with true by (symmetry; apply Z.ltb_lt; lia).
    unfold bind at 1, sleep, modify. cbn [before_attempt].
    rewrite Ew. cbn [snd].
    apply IH.
    + lia.
    + lia.
    + intros i Hi. specialize (Hfail (S i) ltac:(lia)).
      cbn [before_attempt] in Hfail. rewrite Ew in Hfail. exact Hfail.
    + cbn [before_attempt] in Hstop. rewrite Ew in Hstop.
      replace (attempt + 1 + Z.of_nat k =? n) with (attempt + Z.of_nat (S k) =? n)
        by (f_equal; lia).
      exact Hstop.
Qed.

Lemma retriable_or_stops (c : completion value) :
  c <> Abrupt ThrownUndefined -> retriable c \/ stops false c.
Proof.
  destruct c as [v|[|e]]; intros Hc.
  - right. exact I.
  - contradiction.
  - destruct (API.client_error e) eqn:E.
    + right. left. assumption.
    + left. exists e. split; [reflexivity|assumption].
Qed.

Lemma stops_weaken (b : bool) (c : completion value) : stops false c -> stops b c.
Proof.
  destruct c as [v|[|e]]; cbn; [auto|auto|].
  intros [?|?]; [left; assumption|discriminate].
Qed.

Lemma first_stop (call : M value) (w : World) (m : nat) :
  (forall w0, (call w0).1 <> Abrupt ThrownUndefined) ->
  (exists k, (k < m)%nat
             /\ (forall i, (i < k)%nat -> retriable (call (before_attempt call 1 i w)).1)
             /\ stops false (call (before_attempt call 1 k w)).1)
  \/ (forall i, (i < m)%nat -> retriable (call (before_attempt call 1 i w)).1).
Proof.
  intros Hthrown. induction m as [|m IH].
  - right. intros i Hi. lia.
  - destruct IH as [(k & Hk & Hfail & Hstop) | Hall].
    + left. exists k. split; [lia|]. split; assumption.
    + destruct (retriable_or_stops (call (before_attempt call 1 m w)).1 (Hthrown _))
        as [Hr|Hs].
      * right. intros i Hi. destruct (decide (i = m)) as [->|Hne]; [assumption|].
        apply Hall. lia.
      * left. exists m. split; [lia|]. split; assumption.
Qed.

(** Every run with a positive ceiling is of the kind [retry_loop_run]
    describes: some number of retriable failures below the ceiling,
    then an attempt that stops. *)
Lemma retry_run_classified (call : M value) (n : Z) (w : World) :
  1 <= n ->
  (forall w0, (call w0).1 <> Abrupt ThrownUndefined) ->
  exists k, Z.of_nat k < n
            /\ (forall i, (i < k)%nat -> retriable (call (before_attempt call 1 i w)).1)
            /\ stops (1 + Z.of_nat k =? n) (call (before_attempt call 1 k w)).1.
Proof.
  intros Hn Hthrown.
  destruct (first_stop call w (Z.to_nat n) Hthrown) as [(k & Hk & Hfail & Hstop) | Hall].
  - exists k. split; [lia|]. split; [assumption|]. apply stops_weaken. assumption.
  - exists (Z.to_nat n - 1)%nat. split; [lia|]. split.
    + intros i Hi. apply Hall. lia.
    + destruct (Hall (Z.to_nat n - 1)%nat ltac:(lia)) as (e & -> & He).
      cbn. right. apply Z.eqb_eq. lia.
Qed.

Lemma requestWithRetry_loop (method : Method) (endpoint : string)
    (data options : value) (n : Z) (w : World) :
  ceiling options = Some n ->
  API.requestWithRetry method endpoint data options w
  = API.retry_loop (retry_call method endpoint data options) n (Z.to_nat n) 1
                   ThrownUndefined w.
Proof.
  unfold ceiling, API.requestWithRetry, retry_call, member, read, lift, bind.
  destruct (nullish (default_arg options (VObj []))); [discriminate|].
  intros ->. reflexivity.
Qed.

(** With a ceiling that is not positive no attempt is made, and what is
    thrown is the never-assigned [lastError]. *)
Lemma requestWithRetry_no_attempt (method : Method) (endpoint : string)
    (data options : value) (n : Z) (w : World) :
  ceiling options = Some n -> n <= 0 ->
  API.requestWithRetry method endpoint data options w = (Abrupt ThrownUndefined, w).
Proof.
  intros Hc Hn. rewrite (requestWithRetry_loop _ _ _ _ n) by assumption.
  replace (Z.to_nat n) with O by lia. reflexivity.
Qed.

Lemma before_attempt_document (method : Method) (endpoint : string)
    (args : list value) (k : nat) :
  forall (attempt : Z) (w : World),
    document (before_attempt (API.verb method endpoint args) attempt k w) = document w.
Proof.
  induction k as [|k IH]; intros attempt w; cbn [before_attempt]; [reflexivity|].
  rewrite IH. cbn. apply verb_document.
Qed.

Lemma before_attempt_timeline (method : Method) (endpoint : string)
    (args : list value) (k : nat) :
  forall (attempt : Z) (w : World),
    timeline (events (before_attempt (API.verb method endpoint args) attempt k w))
    = timeline (events w)
      ++ backoff (steps_of (request_for method endpoint args (document w))) attempt k.
Proof.
  induction k as [|k IH]; intros attempt w; cbn [before_attempt backoff].
  - rewrite app_nil_r. reflexivity.
  - rewrite IH. cbn [document emit events].
    rewrite verb_document. unfold timeline at 1. rewrite omap_app.
    fold (timeline (events (API.verb method endpoint args w).2)).
    rewrite verb_timeline. cbn [omap list_omap]. rewrite <- !app_assoc. reflexivity.
Qed.

Lemma before_attempt_delays (method : Method) (endpoint : string)
    (args : list value) (k : nat) :
  forall (attempt : Z) (w : World),
    delays (events (before_attempt (API.verb method endpoint args) attempt k w))
    = delays (events w)
      ++ map (fun i => API_CONFIG.RETRY_DELAY * (attempt + Z.of_nat i)) (seq 0 k).
Proof.
  induction k as [|k IH]; intros attempt w; cbn [before_attempt].
  - cbn. rewrite app_nil_r. reflexivity.
  - rewrite IH. cbn [emit events]. unfold delays at 1. rewrite omap_app.
    fold (delays (events (API.verb method endpoint args w).2)).
    rewrite verb_delays. cbn [omap list_omap seq map].
    rewrite <- app_assoc. cbn [app]. rewrite Z.add_0_r.
    do 2 f_equal. rewrite <- seq_shift, map_map.
    apply map_ext. intros i. f_equal. lia.
Qed.

(** C2.  [requestWithRetry] goes on to the next attempt exactly after
    an error whose status is outside [400, 500) while attempts are
    left: when the first [k] attempts fail that way and attempt [k + 1]
    returns, or throws a client error, or is the last one the ceiling
    allows, the call ends as that attempt ends, with its result or its
    error, and makes no further attempt.  For [k = 0] and a 4xx answer
    this is one attempt and an immediate rejection. *)
Theorem requestWithRetry_policy (method : Method) (endpoint : string)
    (data options : value) (n : Z) (k : nat) (w : World) :
  let call := retry_call method endpoint data options in
  ceiling options = Some n ->
  Z.of_nat k < n ->
  (forall i, (i < k)%nat -> retriable (call (before_attempt call 1 i w)).1) ->
  stops (1 + Z.of_nat k =? n) (call (before_attempt call 1 k w)).1 ->
  API.requestWithRetry method endpoint data options w
  = call (before_attempt call 1 k w).
Proof.
  intros call Hn Hk Hfail Hstop.
  rewrite (requestWithRetry_loop _ _ _ _ n) by assumption.
  apply retry_loop_run; [lia|lia|assumption|assumption].
Qed.

(** C3.  The pause after the i-th failed attempt, before retry i, is
    [RETRY_DELAY * i]: a run of [k] retriable failures and a final
    attempt shows the attempts with the pauses 1000, 2000, ...,
    1000 k between them, and nothing else. *)
Theorem requestWithRetry_backoff (method : Method) (endpoint : string)
    (data options : value) (n : Z) (k : nat) (w : World) :
  let call := retry_call method endpoint data options in
  let args := [default_arg data VNull; default_arg options (VObj [])] in
  let steps := steps_of (request_for method endpoint args (document w)) in
  let w' := (API.requestWithRetry method endpoint data options w).2 in
  ceiling options = Some n ->
  Z.of_nat k < n ->
  (forall i, (i < k)%nat -> retriable (call (before_attempt call 1 i w)).1) ->
  stops (1 + Z.of_nat k =? n) (call (before_attempt call 1 k w)).1 ->
  timeline (events w') = timeline (events w) ++ backoff steps 1 k ++ steps
  /\ delays (events w')
     = delays (events w)
       ++ map (fun i => API_CONFIG.RETRY_DELAY * Z.of_nat i) (seq 1 k).
Proof.
  intros call args steps w' Hn Hk Hfail Hstop. subst w'.
  rewrite (requestWithRetry_loop _ _ _ _ n) by assumption.
  rewrite (retry_loop_run call n k) by (lia || assumption).
  unfold call, retry_call. fold args. split.
  - rewrite verb_timeline, before_attempt_timeline, before_attempt_document.
    rewrite <- app_assoc. reflexivity.
  - rewrite verb_delays, before_attempt_delays. f_equal.
    rewrite <- seq_shift, map_map. apply map_ext. intros i. f_equal. lia.
Qed.

(** C9.  With a ceiling of at least one attempt, [requestWithRetry]
    ends as one of its attempts ends, and every attempt is the call
    [this[method](endpoint, data, options)].  No verb reads its third
    argument: the call is the verb on the data alone, the data is what
    [get] and [delete] receive as their [options], the query string of
    a GET is built from [data.params], and [delete] reads nothing of
    either.  Of the caller's options only [retryAttempts] matters: two
    calls whose options agree on it do the same. *)
Theorem requestWithRetry_drops_options (method : Method) (endpoint : string)
    (data options : value) (n : Z) (w : World) :
  let data' := default_arg data VNull in
  let options' := default_arg options (VObj []) in
  let call := API.verb method endpoint [data'; options'] in
  ceiling options = Some n ->
  1 <= n ->
  (exists k : nat,
     Z.of_nat k < n
     /\ API.requestWithRetry method endpoint data options w
        = call (before_attempt call 1 k w))
  /\ call = API.verb method endpoint [data']
  /\ API.verb GET endpoint [data'; options'] = API.get endpoint [data']
  /\ API.verb DELETE endpoint [data'; options'] = API.delete endpoint []
  /\ API.get_request endpoint [data'; options'] w
     = (match read data' "params" with
        | Normal params =>
            Normal (mkRequest
              (API.buildUrl endpoint +:+
                 (if truthy params then "?" +:+ URLSearchParams_toString params else ""))
              "GET" (API.getHeaders false (document w)) "include" None)
        | Abrupt t => Abrupt t
        end, w)
  /\ (forall other : value,
        read (default_arg other (VObj [])) "retryAttempts"
        = read options' "retryAttempts" ->
        API.requestWithRetry method endpoint data other w
        = API.requestWithRetry method endpoint data options w).
Proof.
  cbn zeta. intros Hc Hn.
  split; [|split; [destruct method; reflexivity|split; [reflexivity|split; [reflexivity|split]]]].
  - destruct (retry_run_classified (retry_call method endpoint data options) n w Hn)
      as (k & Hk & Hfail & Hstop).
    { intros w0. apply verb_thrown. }
    exists k. split; [assumption|].
    rewrite (requestWithRetry_loop _ _ _ _ n) by assumption.
    rewrite (retry_loop_run (retry_call method endpoint data options) n k)
      by (lia || assumption).
    reflexivity.
  - unfold API.get_request, member, lift, bind, reads. cbn [arg nth].
    replace (default_arg (default_arg data VNull) (VObj []))
      with (default_arg data VNull) by (destruct data; reflexivity).
    destruct (read (default_arg data VNull) "params"); reflexivity.
  - intros other Hread.
    unfold API.requestWithRetry, member, lift, bind. rewrite Hread.
    destruct (read (default_arg options (VObj [])) "retryAttempts")
      as [retryAttempts|t]; [|reflexivity].
    destruct (API.ToNumber _) as [m|]; [|reflexivity].
    destruct method; reflexivity.
Qed.

End RequestClient.

(** ** What a computation leaves alone *)

Section Frame.
Context {B : Type} (obs : World -> B).

Lemma keeps_ret {A} (a : A) : keeps obs (ret a).
Proof. intros w. reflexivity. Qed.

Lemma keeps_throw {A} (t : thrown) : keeps obs (@throw A t).
Proof. intros w. reflexivity. Qed.

Lemma keeps_lift {A} (c : completion A) : keeps obs (lift c).
Proof. intros w. reflexivity. Qed.

Lemma keeps_reads {A} (f : World -> A) : keeps obs (reads f).
Proof. intros w. reflexivity. Qed.

Lemma keeps_member (v : value) (k : string) : keeps obs (member v k).
Proof. apply keeps_lift. Qed.

Lemma keeps_getElement (key : string) : keeps obs (getElement key).
Proof. apply keeps_reads. Qed.

Lemma keeps_bind {A C} (m : M A) (k : A -> M C) :
  keeps obs m -> (forall a, keeps obs (k a)) -> keeps obs (bind m k).
Proof.
  intros Hm Hk w. unfold bind. specialize (Hm w).
  destruct (m w) as [[a|t] w']; cbn in *; [|assumption].
  rewrite Hk. assumption.
Qed.

Lemma keeps_try_catch {A} (m : M A) (h : thrown -> M A) :
  keeps obs m -> (forall t, keeps obs (h t)) -> keeps obs (try_catch m h).
Proof.
  intros Hm Hh w. unfold try_catch. specialize (Hm w).
  destruct (m w) as [[a|t] w']; cbn in *; [assumption|].
  rewrite Hh. assumption.
Qed.

Lemma keeps_if {A} (b : bool) (m1 m2 : M A) :
  keeps obs m1 -> keeps obs m2 -> keeps obs (if b then m1 else m2).
Proof. destruct b; auto. Qed.

Lemma keeps_finish {RT : Runtime} (p : API.pending) : keeps obs (API.finish p).
Proof.
  intros w. destruct p as [[response|e]|t]; cbn; [|reflexivity|reflexivity].
  unfold bind; cbn. rewrite handleResponse_world. reflexivity.
Qed.

Lemma keeps_get {RT : Runtime} (endpoint : string) :
  (forall req w, obs (issued req w) = obs w) ->
  keeps obs (API.get endpoint []).
Proof.
  intros Hobs w. change (API.get endpoint []) with (API.verb GET endpoint []).
  rewrite verb_world. destruct (request_for _ _ _ _); [apply Hobs|reflexivity].
Qed.

End Frame.

#[export] Hint Resolve keeps_ret keeps_throw keeps_lift keeps_reads keeps_member
  keeps_getElement keeps_finish : keeps.
#[export] Hint Extern 2 (keeps _ (bind _ _)) => apply keeps_bind; [|intros ?] : keeps.
#[export] Hint Extern 2 (keeps _ (try_catch _ _)) =>
  apply keeps_try_catch; [|intros ?] : keeps.
#[export] Hint Extern 3 (keeps _ (if _ then _ else _)) => apply keeps_if : keeps.
#[export] Hint Extern 3 (keeps _ (match ?x with _ => _ end)) => destruct x : keeps.
#[export] Hint Extern 1 (Backdrop _) => typeclasses eauto : keeps.

Lemma fetch_urls_snoc_other (evs : list Event) (e : Event) :
  (forall r, e <> Fetch r) -> fetch_urls (evs ++ [e]) = fetch_urls evs.
Proof.
  intros He. unfold fetch_urls. rewrite omap_app. cbn.
  destruct e; try apply app_nil_r. destruct (He r eq_refl).
Qed.

Lemma app_field_backdrop {B : Type} (field : App -> B) :
  Backdrop (fun w => field (app w)).
Proof. split; reflexivity. Qed.

Lemma traffic_backdrop : Backdrop (fun w => fetch_urls (events w)).
Proof.
  split; [reflexivity|]. intros msg t w. cbn [emit events].
  apply fetch_urls_snoc_other. discriminate.
Qed.

Lemma market_and_traffic_backdrop : Backdrop market_and_traffic.
Proof.
  split; [reflexivity|].
  intros msg t w. unfold market_and_traffic. cbn [emit app events].
  rewrite fetch_urls_snoc_other by discriminate. reflexivity.
Qed.

#[export] Existing Instances app_field_backdrop traffic_backdrop
  market_and_traffic_backdrop.

Section Drawing.
Context {CD : Cards} {B : Type} (obs : World -> B) `{!Backdrop obs}.

Lemma keeps_setElement (key : string) (el : Element) : keeps obs (setElement key el).
Proof. intros w. apply backdrop_elements. Qed.

Lemma keeps_console_error (msg : string) (t : thrown) :
  keeps obs (console_error msg t).
Proof. intros w. apply backdrop_console_error. Qed.

Hint Resolve keeps_setElement keeps_console_error : keeps.

Lemma keeps_render_cards (card : value -> completion string) (snapshot : value) :
  keeps obs (GoldMarketApp.render_cards card snapshot).
Proof. unfold GoldMarketApp.render_cards. destruct snapshot; auto with keeps. Qed.

Hint Resolve keeps_render_cards : keeps.

Lemma keeps_renderGoldPrices : keeps obs GoldMarketApp.renderGoldPrices.
Proof. unfold GoldMarketApp.renderGoldPrices. auto 10 with keeps. Qed.

Lemma keeps_renderCurrencyRates : keeps obs GoldMarketApp.renderCurrencyRates.
Proof. unfold GoldMarketApp.renderCurrencyRates. auto 10 with keeps. Qed.

Lemma keeps_updateMarketStatus : keeps obs GoldMarketApp.updateMarketStatus.
Proof. unfold GoldMarketApp.updateMarketStatus. auto 12 with keeps. Qed.

Lemma keeps_showError (message : string) : keeps obs (GoldMarketApp.showError message).
Proof. unfold GoldMarketApp.showError. auto 10 with keeps. Qed.

Lemma keeps_with_store_field (key field : string) (body : Element -> value -> M unit) :
  (forall el v, keeps obs (body el v)) ->
  keeps obs (GoldMarketApp.with_store_field key field body).
Proof. intros Hbody. unfold GoldMarketApp.with_store_field. auto 10 with keeps. Qed.

Lemma keeps_replace_on (v : value) (f : string -> string) :
  keeps obs (GoldMarketApp.replace_on v f).
Proof. unfold GoldMarketApp.replace_on. destruct v; auto with keeps. Qed.

Hint Resolve keeps_replace_on : keeps.

Lemma keeps_updateStoreInfo : keeps obs GoldMarketApp.updateStoreInfo.
Proof.
  unfold GoldMarketApp.updateStoreInfo.
  do 6 (apply keeps_bind;
        [apply keeps_with_store_field; intros; auto 10 with keeps | intros _]).
  apply keeps_with_store_field; intros; auto with keeps.
Qed.

End Drawing.

#[export] Hint Resolve keeps_setElement keeps_console_error keeps_render_cards
  keeps_renderGoldPrices keeps_renderCurrencyRates keeps_updateMarketStatus
  keeps_showError keeps_replace_on keeps_updateStoreInfo : keeps.

(** ** The view controller *)

Section ViewController.
Context {RT : Runtime} {CD : Cards}.

Lemma keeps_fetchGoldPrices_finish {B} (obs : World -> B) `{!Backdrop obs}
    (p : API.pending) :
  (forall v, keeps obs (GoldMarketApp.set_goldPrices v)) ->
  keeps obs (GoldMarketApp.fetchGoldPrices_finish p).
Proof.
  intros Hset. unfold GoldMarketApp.fetchGoldPrices_finish. auto 12 with keeps.
Qed.

Lemma keeps_fetchCurrencyRates_finish {B} (obs : World -> B) `{!Backdrop obs}
    (p : API.pending) :
  (forall v, keeps obs (GoldMarketApp.set_currencyRates v)) ->
  keeps obs (GoldMarketApp.fetchCurrencyRates_finish p).
Proof.
  intros Hset. unfold GoldMarketApp.fetchCurrencyRates_finish. auto 12 with keeps.
Qed.

Lemma get_start_run (endpoint : string) (w : World) :
  API.get_start endpoint [] w
  = (Normal (Normal (fetch (fetch_count w) (plain_get endpoint (document w)))),
     issued (plain_get endpoint (document w)) w).
Proof. reflexivity. Qed.

(** An awaited fetch is its two halves in a row. *)
Lemma fetchGoldPrices_halves (w : World) :
  GoldMarketApp.fetchGoldPrices w
  = (let* p := GoldAPI.getAllPrices_start in GoldMarketApp.fetchGoldPrices_finish p) w.
Proof. reflexivity. Qed.

Lemma fetchCurrencyRates_halves (w : World) :
  GoldMarketApp.fetchCurrencyRates w
  = (let* p := CurrencyAPI.getAllRates_start in
     GoldMarketApp.fetchCurrencyRates_finish p) w.
Proof. reflexivity. Qed.

(** C8.  [stopAutoUpdate] completes normally from every state and
    leaves both timer handles [null]; run again it completes normally
    and changes nothing, not even the event list. *)
Theorem stopAutoUpdate_idempotent (w : World) :
  let once := GoldMarketApp.stopAutoUpdate w in
  let twice := GoldMarketApp.stopAutoUpdate once.2 in
  once.1 = Normal tt /\ twice.1 = Normal tt /\
  updateInterval (app once.2) = None /\ clockInterval (app once.2) = None /\
  twice.2 = once.2.
Proof.
  destruct w as [doc [gold rates store market [update|] [clock|]] n now timer evs];
    repeat split; reflexivity.
Qed.

Lemma callback_run (gold_first : bool) (w : World) :
  let gold := plain_get "/gold/prices" (document w) in
  let currency := plain_get "/currency/rates" (document w) in
  GoldMarketApp.startAutoUpdate_callback gold_first w
  = callback_rest gold_first
      (Normal (fetch (fetch_count w) gold))
      (Normal (fetch (S (fetch_count w)) currency))
      (issued currency (issued gold w)).
Proof. reflexivity. Qed.

Lemma keeps_callback_rest (gold_first : bool) (gold currency : API.pending) :
  keeps market_and_traffic (callback_rest gold_first gold currency).
Proof.
  pose proof (fun p => keeps_fetchGoldPrices_finish market_and_traffic p
                         (fun v w0 => eq_refl)).
  pose proof (fun p => keeps_fetchCurrencyRates_finish market_and_traffic p
                         (fun v w0 => eq_refl)).
  unfold callback_rest. auto 10 with keeps.
Qed.

(** C4, what the code does.  A refresh tick requests the gold prices
    and the currency rates and nothing else, whichever response comes
    first, and leaves the stored market status as it was: the status
    indicator is redrawn from the snapshot of the last load. *)
Theorem refresh_skips_market_status (gold_first : bool) (w : World) :
  let w' := (GoldMarketApp.startAutoUpdate_callback gold_first w).2 in
  marketStatus (app w') = marketStatus (app w) /\
  fetch_urls (events w')
  = fetch_urls (events w)
    ++ [API.buildUrl "/gold/prices"; API.buildUrl "/currency/rates"].
Proof.
  cbn zeta. rewrite callback_run. cbn zeta.
  match goal with |- context [(?m ?w0).2] =>
    pose proof (keeps_callback_rest gold_first _ _ w0 : _ (m w0).2 = _) as Hkeep
  end.
  unfold market_and_traffic in Hkeep. injection Hkeep as Hmarket Hurls.
  split.
  - rewrite Hmarket. reflexivity.
  - rewrite Hurls. unfold fetch_urls. rewrite !omap_app.
    cbn [omap list_omap plain_get request_url].
    rewrite !append_empty_r, <- app_assoc. reflexivity.
Qed.

(** *** Snapshots *)

Lemma snapshot_task_normal get set render msg (w : World) :
  (snapshot_task get set render msg w).1 = Normal tt.
Proof.
  unfold snapshot_task, try_catch.
  match goal with |- context [match ?b w with _ => _ end] =>
    destruct (b w) as [[[]|t] w'] end; reflexivity.
Qed.

Lemma snapshot_task_unchanged {B} (obs : World -> B) get set render msg (w : World) :
  keeps obs get ->
  (forall t w0, obs (emit (ConsoleError msg t) w0) = obs w0) ->
  match (get w).1 with
  | Normal payload => truthy (opt_chain payload "success") = false
  | Abrupt _ => True
  end ->
  obs (snapshot_task get set render msg w).2 = obs w.
Proof.
  intros Hget Hcon Hfail. specialize (Hget w).
  unfold snapshot_task, try_catch, bind, member, lift, read, opt_chain in *.
  destruct (get w) as [[payload|t] w1]; cbn [fst snd] in *.
  - destruct (nullish payload); cbn.
    + rewrite Hcon. assumption.
    + rewrite Hfail. cbn. assumption.
  - cbn. rewrite Hcon. assumption.
Qed.

Lemma snapshot_task_replaced {B} (obs : World -> B) `{!Backdrop obs}
    get set render msg (w : World) (payload : value) :
  keeps obs render ->
  (get w).1 = Normal payload ->
  truthy (opt_chain payload "success") = true ->
  obs (snapshot_task get set render msg w).2
  = obs (set (prop payload "data") (get w).2).2.
Proof.
  intros Hrender Hget Hsuccess.
  unfold snapshot_task, try_catch, bind, member, lift, read, opt_chain in *.
  destruct (get w) as [c w1]; cbn [fst snd] in *. subst c.
  destruct (nullish payload); [discriminate|]. rewrite Hsuccess.
  destruct (set (prop payload "data") w1) as [[[]|t] w2]; cbn [snd].
  - specialize (Hrender w2).
    destruct (render w2) as [[[]|t] w3]; cbn [snd] in *; [assumption|].
    cbn. rewrite backdrop_console_error. assumption.
  - cbn. apply backdrop_console_error.
Qed.

Lemma keeps_page_state_get (endpoint : string) :
  keeps page_state (API.get endpoint []).
Proof. apply keeps_get. reflexivity. Qed.

(** C10.  [fetchGoldPrices] and [fetchCurrencyRates] always complete
    normally.  When the request throws, or the payload is [null] or its
    [success] is not truthy, the application object and the document
    are exactly as before: the snapshot is kept and nothing is drawn.
    When [success] is truthy the snapshot is the payload's [data]. *)
Theorem fetch_snapshot_atomic (w : World) :
  let after_gold := GoldMarketApp.fetchGoldPrices w in
  let after_rates := GoldMarketApp.fetchCurrencyRates w in
  after_gold.1 = Normal tt /\ after_rates.1 = Normal tt /\
  match (GoldAPI.getAllPrices w).1 with
  | Normal payload =>
      if truthy (opt_chain payload "success")
      then goldPrices (app after_gold.2) = prop payload "data"
      else page_state after_gold.2 = page_state w
  | Abrupt _ => page_state after_gold.2 = page_state w
  end /\
  match (CurrencyAPI.getAllRates w).1 with
  | Normal payload =>
      if truthy (opt_chain payload "success")
      then currencyRates (app after_rates.2) = prop payload "data"
      else page_state after_rates.2 = page_state w
  | Abrupt _ => page_state after_rates.2 = page_state w
  end.
Proof.
  cbn zeta.
  change GoldMarketApp.fetchGoldPrices with
    (snapshot_task GoldAPI.getAllPrices GoldMarketApp.set_goldPrices
       GoldMarketApp.renderGoldPrices "Error fetching gold prices:").
  change GoldMarketApp.fetchCurrencyRates with
    (snapshot_task CurrencyAPI.getAllRates GoldMarketApp.set_currencyRates
       GoldMarketApp.renderCurrencyRates "Error fetching currency rates:").
  split; [apply snapshot_task_normal|]. split; [apply snapshot_task_normal|].
  split.
  - destruct (GoldAPI.getAllPrices w).1 as [payload|t] eqn:E.
    + destruct (truthy (opt_chain payload "success")) eqn:Es.
      * rewrite (snapshot_task_replaced (fun w0 => goldPrices (app w0))
                   _ _ _ _ w payload);
          [reflexivity| |assumption|assumption].
        apply (keeps_renderGoldPrices (fun w0 => goldPrices (app w0))).
      * apply snapshot_task_unchanged;
          [apply keeps_page_state_get|reflexivity|rewrite E; assumption].
    + apply snapshot_task_unchanged;
        [apply keeps_page_state_get|reflexivity|rewrite E; exact I].
  - destruct (CurrencyAPI.getAllRates w).1 as [payload|t] eqn:E.
    + destruct (truthy (opt_chain payload "success")) eqn:Es.
      * rewrite (snapshot_task_replaced (fun w0 => currencyRates (app w0))
                   _ _ _ _ w payload);
          [reflexivity| |assumption|assumption].
        apply (keeps_renderCurrencyRates (fun w0 => currencyRates (app w0))).
      * apply snapshot_task_unchanged;
          [apply keeps_page_state_get|reflexivity|rewrite E; assumption].
    + apply snapshot_task_unchanged;
        [apply keeps_page_state_get|reflexivity|rewrite E; exact I].
Qed.

(** *** Startup *)

Lemma init_run (w : World) :
  GoldMarketApp.init w
  = try_catch (GoldMarketApp.fetchInitialData;; go_live) init_catch (booted w).
Proof.
  unfold GoldMarketApp.init, booted, GoldMarketApp.initClock,
    GoldMarketApp.updateClock, try_catch, bind, console_log, modify, getElement,
    reads, setInterval, GoldMarketApp.set_clockInterval.
  cbn [fst snd elements document emit].
  destruct (elements (document w) !! "clock"); reflexivity.
Qed.

Lemma showError_normal (message : string) (w : World) :
  (GoldMarketApp.showError message w).1 = Normal tt.
Proof.
  unfold GoldMarketApp.showError, bind, getElement, reads.
  destruct (elements (document w) !! "error-container"); reflexivity.
Qed.

Lemma fetchInitialData_abort (w0 w1 : World) (t : thrown) :
  (GoldMarketApp.fetchInitialData_storeInfo w0 = (Abrupt t, w1)
   \/ exists w, GoldMarketApp.fetchInitialData_storeInfo w0 = (Normal tt, w)
                /\ GoldMarketApp.fetchInitialData_marketStatus w = (Abrupt t, w1)) ->
  GoldMarketApp.fetchInitialData w0
  = (Abrupt t, emit (ConsoleError "Error fetching initial data:" t) w1).
Proof.
  unfold GoldMarketApp.fetchInitialData, try_catch.
  intros [E | (w & E & E')]; unfold bind at 1; rewrite E.
  - reflexivity.
  - unfold bind at 1. rewrite E'. reflexivity.
Qed.

Lemma init_abort (w w1 : World) (t : thrown) :
  GoldMarketApp.fetchInitialData (booted w)
  = (Abrupt t, emit (ConsoleError "Error fetching initial data:" t) w1) ->
  GoldMarketApp.init w = (Normal tt, aborted t w1).
Proof.
  intros E. rewrite init_run. unfold try_catch, bind at 1. rewrite E.
  unfold init_catch, aborted, bind, console_error, modify.
  cbn [fst snd].
  match goal with |- ?m ?w0 = _ =>
    pose proof (showError_normal "Failed to initialize application" w0) as Hn;
    destruct (m w0) as [c w']; cbn in Hn |- *; congruence
  end.
Qed.

Lemma settings_failure_abort (w w1 : World) (t : thrown) :
  settings_failure w t w1 ->
  GoldMarketApp.fetchInitialData (booted w)
  = (Abrupt t, emit (ConsoleError "Error fetching initial data:" t) w1).
Proof.
  intros Hfail. apply fetchInitialData_abort.
  destruct Hfail as [E | (w0 & E & E')].
  - left. unfold GoldMarketApp.fetchInitialData_storeInfo, bind. rewrite E. reflexivity.
  - right. exists w0. split; [assumption|].
    unfold GoldMarketApp.fetchInitialData_marketStatus, bind. rewrite E'. reflexivity.
Qed.

Lemma keeps_app_field_get {B} (field : App -> B) (endpoint : string) :
  keeps (fun w => field (app w)) (API.get endpoint []).
Proof. apply keeps_get. reflexivity. Qed.

Lemma booted_updateInterval (w : World) :
  updateInterval (app (booted w)) = updateInterval (app w).
Proof.
  unfold booted, GoldMarketApp.initClock, GoldMarketApp.updateClock, bind,
    console_log, modify, getElement, reads, setInterval,
    GoldMarketApp.set_clockInterval.
  cbn [fst snd elements document emit].
  destruct (elements (document w) !! "clock"); reflexivity.
Qed.

Lemma keeps_updateInterval_storeInfo :
  keeps (fun w => updateInterval (app w)) GoldMarketApp.fetchInitialData_storeInfo.
Proof.
  unfold GoldMarketApp.fetchInitialData_storeInfo.
  pose proof (keeps_app_field_get updateInterval "/settings/store").
  assert (forall v, keeps (fun w => updateInterval (app w))
                      (GoldMarketApp.set_storeInfo v)) by (intros v w; reflexivity).
  unfold SettingsAPI.getStoreInfo. auto 10 with keeps.
Qed.

Lemma settings_failure_frame (w w1 : World) (t : thrown) :
  settings_failure w t w1 ->
  updateInterval (app w1) = updateInterval (app w).
Proof.
  intros [E | (w0 & E & E')].
  - pose proof (keeps_app_field_get updateInterval "/settings/store" (booted w)) as Hk.
    unfold SettingsAPI.getStoreInfo in E. rewrite E in Hk. cbn in Hk.
    rewrite Hk. apply booted_updateInterval.
  - pose proof (keeps_app_field_get updateInterval "/settings/market/status" w0) as Hk.
    unfold SettingsAPI.checkMarketStatus in E'. rewrite E' in Hk. cbn in Hk.
    pose proof (keeps_updateInterval_storeInfo (booted w)) as Hs.
    rewrite E in Hs. cbn in Hs.
    rewrite Hk, Hs. apply booted_updateInterval.
Qed.

Lemma aborted_banner (t : thrown) (w1 : World) :
  elements (document (aborted t w1)) !! "error-container"
  = GoldMarketApp.set_innerHTML
      (GoldMarketApp.error_banner "Failed to initialize application")
    <$> elements (document w1) !! "error-container".
Proof.
  unfold aborted, GoldMarketApp.showError, bind, getElement, reads, setElement, modify.
  cbn [fst snd elements document emit].
  destruct (elements (document w1) !! "error-container") as [el|] eqn:E;
    cbn [fst snd elements document set_elements fmap option_fmap option_map].
  - apply lookup_insert_eq.
  - assumption.
Qed.

End ViewController.

(** ** Further properties of the request client *)

(** *** The CSRF cookie *)

Lemma append_assoc (a b c : string) : (a +:+ b) +:+ c = a +:+ b +:+ c.
Proof.
  induction a as [|x a IH]; [reflexivity|].
  change (String x (a +:+ b) +:+ c = String x (a +:+ b +:+ c)).
  change (String x ((a +:+ b) +:+ c) = String x (a +:+ b +:+ c)). f_equal. exact IH.
Qed.

Lemma not_semicolon_run_split (s : string) :
  exists post, s = API.not_semicolon_run s +:+ post
               /\ has_semicolon (API.not_semicolon_run s) = false
               /\ ends_value post.
Proof.
  induction s as [|c s (post & E & Hno & Hend)]; cbn [API.not_semicolon_run].
  - exists "". repeat split. left. reflexivity.
  - destruct (Ascii.eqb_spec c ";") as [->|Hne].
    + exists (String ";" s). repeat split. right. eexists; reflexivity.
    + exists post. split; [|split; [|assumption]].
      * change (String c s = String c (API.not_semicolon_run s +:+ post)).
        f_equal. exact E.
      * cbn [has_semicolon]. rewrite Hno.
        destruct (Ascii.eqb_spec c ";"); [contradiction|reflexivity].
Qed.

Lemma csrf_match_here_shape (s token : string) :
  API.csrf_match_here s = Some token ->
  exists post, s = "csrf_token=" +:+ token +:+ post
               /\ token <> "" /\ has_semicolon token = false /\ ends_value post.
Proof.
  unfold API.csrf_match_here.
  destruct (API.strip_prefix "csrf_token=" s) as [r|] eqn:E; [|discriminate].
  apply strip_prefix_app in E. subst s.
  destruct (not_semicolon_run_split r) as (post & Er & Hno & Hend).
  destruct (API.not_semicolon_run r) as [|c run] eqn:Erun; [discriminate|].
  intros [= <-]. exists post. split; [|split; [discriminate|split; assumption]].
  rewrite Er at 1. reflexivity.
Qed.

(** X1.  What the cookie pattern [/csrf_token=([^;]+)/] of
    [getCSRFToken] returns: when it matches, the cookie string is some
    text, then [csrf_token=], then the token, then the rest; the token
    is not empty and holds no semicolon, it runs up to the next
    semicolon or the end of the string, and the match is the leftmost
    one: the pattern matches at no earlier position. *)
Theorem cookie_token_shape (s token : string) :
  API.csrf_cookie_match s = Some token ->
  exists pre post,
    s = pre +:+ "csrf_token=" +:+ token +:+ post
    /\ token <> "" /\ has_semicolon token = false /\ ends_value post
    /\ forall p1 p2,
         pre = p1 +:+ p2 -> p2 <> "" ->
         API.csrf_match_here (p2 +:+ "csrf_token=" +:+ token +:+ post) = None.
Proof.
  induction s as [|a s IH]; rewrite csrf_cookie_match_unfold.
  - destruct (API.csrf_match_here "") eqn:E; [|discriminate].
    intros [= <-]. apply csrf_match_here_shape in E as (post & E & H1 & H2 & H3).
    exists "", post. split; [exact E|]. repeat split; try assumption.
    intros [|? ?] [|? ?] Hp Hne; solve [discriminate Hp | congruence].
  - destruct (API.csrf_match_here (String a s)) eqn:E.
    + intros [= <-]. apply csrf_match_here_shape in E as (post & E & H1 & H2 & H3).
      exists "", post. split; [exact E|]. repeat split; try assumption.
      intros [|? ?] [|? ?] Hp Hne; solve [discriminate Hp | congruence].
    + intros Hs. destruct (IH Hs) as (pre & post & -> & H1 & H2 & H3 & H4).
      exists (String a pre), post. split; [reflexivity|].
      repeat split; try assumption.
      intros [|b p1] p2 Hp Hne.
      * change ("" +:+ p2) with p2 in Hp. subst p2. exact E.
      * injection Hp as _ Hp. apply (H4 p1 p2 Hp Hne).
Qed.

(** *** URLs and requests *)

Lemma prefix_refl_app (s t : string) : String.prefix s (s +:+ t) = true.
Proof.
  induction s as [|c s IH]; [destruct t; reflexivity|].
  change (String.prefix (String c s) (String c (s +:+ t)) = true).
  cbn [String.prefix]. destruct (ascii_dec c c); [exact IH|contradiction].
Qed.

Section Client.
Context {RT : Runtime}.

Lemma buildUrl_form (endpoint : string) :
  API.buildUrl endpoint = origin +:+ "/api/" +:+ strip_leading_slash endpoint.
Proof.
  unfold API.buildUrl, API.startsWith, API_CONFIG.BASE_URL, API_CONFIG.API_PREFIX.
  destruct endpoint as [|c rest]; [reflexivity|].
  cbn [String.prefix strip_leading_slash].
  destruct (ascii_dec "/" c) as [<-|Hne].
  - destruct rest; reflexivity.
  - destruct (Ascii.eqb_spec c "/"); [congruence|reflexivity].
Qed.

(** X2.  Two endpoints are sent to the same URL exactly when they
    differ at most by the one slash an endpoint may start with. *)
Theorem buildUrl_collisions (e1 e2 : string) :
  API.buildUrl e1 = API.buildUrl e2
  <-> strip_leading_slash e1 = strip_leading_slash e2.
Proof.
  rewrite !buildUrl_form. split.
  - intros E. apply (inj (String.app origin)) in E.
    apply (inj (String.app "/api/")) in E. exact E.
  - intros ->. reflexivity.
Qed.

(** X3.  A call of [get], [post], [put] or [delete] that passes no
    query parameters issues exactly one [fetch] and ends as
    [handleResponse] ends on its outcome (or with the rejection of the
    [fetch]).  The request is: the URL of [buildUrl], the method of
    the verb, credentials [include], the headers of [getHeaders] (with
    the CSRF token for every verb but [get]) and, for [post] and [put]
    only, the body [JSON.stringify(data)].  The one exception: [get]
    with [null] as options throws a [TypeError] and requests
    nothing. *)
Theorem verb_single_request (method : Method) (endpoint : string)
    (args : list value) (w : World) :
  let options := default_arg (arg 0 args) (VObj []) in
  let r := API.verb method endpoint args w in
  let req :=
    mkRequest (API.buildUrl endpoint) (method_name method)
      (API.getHeaders (match method with GET => false | _ => true end) (document w))
      "include"
      (match method with
       | POST | PUT => JSON_stringify (arg 0 args)
       | GET | DELETE => None
       end) in
  (method = GET -> truthy (opt_chain options "params") = false) ->
  if match method with GET => nullish options | _ => false end
  then r.2 = w /\ exists e, r.1 = Abrupt (Thrown e) /\ error_name e = "TypeError"
  else r = settle (fetch (fetch_count w) req) (issued req w)
       /\ r.2 = issued req w.
Proof.
  cbn zeta. intros Hparams. rewrite verb_run.
  destruct method; cbn [request_for method_name].
  - specialize (Hparams eq_refl). unfold opt_chain in Hparams. unfold read.
    destruct (nullish (default_arg (arg 0 args) (VObj []))) eqn:En.
    + split; [reflexivity|]. eexists. split; reflexivity.
    + rewrite Hparams, append_empty_r. split; [reflexivity|apply settle_world].
  - split; [reflexivity|apply settle_world].
  - split; [reflexivity|apply settle_world].
  - split; [reflexivity|apply settle_world].
Qed.

Lemma verb_page_state (method : Method) (endpoint : string) (args : list value) (w : World) :
  page_state (API.verb method endpoint args w).2 = page_state w.
Proof. rewrite verb_world. destruct (request_for _ _ _ _); reflexivity. Qed.

Lemma verb_fetch_count (method : Method) (endpoint : string) (args : list value) (w : World) :
  (fetch_count (API.verb method endpoint args w).2 <= S (fetch_count w))%nat.
Proof. rewrite verb_world. destruct (request_for _ _ _ _); cbn; lia. Qed.

Lemma before_attempt_page_state (method : Method) (endpoint : string)
    (args : list value) (k : nat) :
  forall (attempt : Z) (w : World),
    page_state (before_attempt (API.verb method endpoint args) attempt k w)
    = page_state w.
Proof.
  induction k as [|k IH]; intros attempt w; cbn [before_attempt]; [reflexivity|].
  rewrite IH. apply (verb_page_state method endpoint args w).
Qed.

Lemma before_attempt_fetch_count (method : Method) (endpoint : string)
    (args : list value) (k : nat) :
  forall (attempt : Z) (w : World),
    (fetch_count (before_attempt (API.verb method endpoint args) attempt k w)
     <= fetch_count w + k)%nat.
Proof.
  induction k as [|k IH]; intros attempt w; cbn [before_attempt]; [lia|].
  etransitivity; [apply IH|]. cbn [emit fetch_count].
  pose proof (verb_fetch_count method endpoint args w). lia.
Qed.

(** X4.  With a ceiling of [n >= 1] attempts, [requestWithRetry] ends
    as its attempt number [k + 1] ends, for some [k < n]; by then it
    has issued at most [k + 1] requests, has slept [RETRY_DELAY * i]
    after the [i]-th failure for [i = 1 .. k] and no other time, and
    has left the application object and the document as they were. *)
Theorem requestWithRetry_bounded (method : Method) (endpoint : string)
    (data options : value) (n : Z) (w : World) :
  let call := retry_call method endpoint data options in
  let r := API.requestWithRetry method endpoint data options w in
  ceiling options = Some n ->
  1 <= n ->
  exists k : nat,
    Z.of_nat k < n
    /\ r = call (before_attempt call 1 k w)
    /\ (fetch_count r.2 <= fetch_count w + k + 1)%nat
    /\ delays (events r.2)
       = delays (events w) ++ map (fun i => API_CONFIG.RETRY_DELAY * Z.of_nat i) (seq 1 k)
    /\ page_state r.2 = page_state w.
Proof.
  intros call r Hc Hn. subst r.
  destruct (retry_run_classified call n w Hn) as (k & Hk & Hfail & Hstop).
  { intros w0. apply verb_thrown. }
  exists k. split; [assumption|].
  rewrite (requestWithRetry_loop _ _ _ _ n) by assumption.
  rewrite (retry_loop_run call n k) by (lia || assumption).
  split; [reflexivity|]. unfold call, retry_call. split; [|split].
  - pose proof (verb_fetch_count method endpoint
      [default_arg data VNull; default_arg options (VObj [])]
      (before_attempt (API.verb method endpoint
         [default_arg data VNull; default_arg options (VObj [])]) 1 k w)).
    pose proof (before_attempt_fetch_count method endpoint
      [default_arg data VNull; default_arg options (VObj [])] k 1 w). lia.
  - rewrite verb_delays, before_attempt_delays. f_equal.
    rewrite <- seq_shift, map_map. apply map_ext. intros i. f_equal. lia.
  - rewrite verb_page_state. apply before_attempt_page_state.
Qed.

(** X5.  A falsy [retryAttempts] (0, [null], the empty string, absent)
    does not switch retrying off: the call behaves as if no options
    had been passed, with the default of [RETRY_ATTEMPTS] attempts. *)
Theorem requestWithRetry_falsy_ceiling (method : Method) (endpoint : string)
    (data options : value) (w : World) :
  nullish (default_arg options (VObj [])) = false ->
  truthy (prop (default_arg options (VObj [])) "retryAttempts") = false ->
  API.requestWithRetry method endpoint data options w
  = API.requestWithRetry method endpoint data VUndefined w.
Proof.
  intros Hn Ht.
  unfold API.requestWithRetry, member, lift, read, bind, or_else.
  rewrite Hn, Ht. cbn [default_arg nullish prop assoc truthy API.ToNumber].
  destruct method; reflexivity.
Qed.

End Client.

(** *** The service objects *)

Section Services.
Context {RT : Runtime}.

Lemma service_verb_run (method : Method) (rest : string) (args : list value) (w : World) :
  (method = GET -> args = []) ->
  exists req,
    API.verb method (String "/" rest) args w
    = settle (fetch (fetch_count w) req) (issued req w)
    /\ service_request (document w) req.
Proof.
  intros Hget. rewrite verb_run.
  assert (Hurl : API.buildUrl (String "/" rest) = origin +:+ "/api/" +:+ rest)
    by apply buildUrl_form.
  assert (Hp : forall q, String.prefix (origin +:+ "/api/")
                           (API.buildUrl (String "/" rest) +:+ q) = true).
  { intros q. rewrite Hurl, !append_assoc, <- append_assoc.
    apply prefix_refl_app. }
  destruct method; cbn [request_for].
  - rewrite (Hget eq_refl). cbn [arg nth default_arg]. unfold read. cbn [nullish prop assoc truthy].
    eexists. split; [reflexivity|]. split; [apply Hp|]. split; [reflexivity|].
    left. repeat split.
  - eexists. split; [reflexivity|]. split.
    { cbn [request_url]. rewrite <- (append_empty_r (API.buildUrl _)). apply Hp. }
    split; [reflexivity|]. right. split; [auto|reflexivity].
  - eexists. split; [reflexivity|]. split.
    { cbn [request_url]. rewrite <- (append_empty_r (API.buildUrl _)). apply Hp. }
    split; [reflexivity|]. right. split; [auto|reflexivity].
  - eexists. split; [reflexivity|]. split.
    { cbn [request_url]. rewrite <- (append_empty_r (API.buildUrl _)). apply Hp. }
    split; [reflexivity|]. right. split; [auto|reflexivity].
Qed.


End Services.

(** ** Further properties of the view controller *)

(** *** The two grids *)

Lemma map_join_all (card : value -> completion string) (items : list value)
    (parts : list string) :
  Forall2 (fun x s => card x = Normal s) items parts ->
  GoldMarketApp.map_join card items = Normal (concat_strings parts).
Proof.
  induction 1 as [|x s items parts Hx _ IH]; [reflexivity|].
  cbn [GoldMarketApp.map_join]. rewrite Hx, IH. reflexivity.
Qed.

Lemma map_join_first_failure (card : value -> completion string)
    (good : list value) (bad : value) (rest : list value) (parts : list string)
    (t : thrown) :
  Forall2 (fun x s => card x = Normal s) good parts ->
  card bad = Abrupt t ->
  GoldMarketApp.map_join card (good ++ bad :: rest) = Abrupt t.
Proof.
  intros Hgood Hbad. induction Hgood as [|x s good parts Hx _ IH]; cbn.
  - rewrite Hbad. reflexivity.
  - rewrite Hx, IH. reflexivity.
Qed.

Lemma set_elements_same (w : World) : set_elements (elements (document w)) w = w.
Proof. destruct w as [[c m els] a n now timer evs]. reflexivity. Qed.

Lemma render_cards_pure (card : value -> completion string) (items : value) (w : World) :
  (GoldMarketApp.render_cards card items w).2 = w.
Proof. destruct items; reflexivity. Qed.

Lemma render_cards_same (card : value -> completion string) (items : value) (w w' : World) :
  (GoldMarketApp.render_cards card items w).1 = (GoldMarketApp.render_cards card items w').1.
Proof. destruct items; reflexivity. Qed.

Lemma render_grid_run key card snapshot (w : World) :
  render_grid key card snapshot w =
  match elements (document w) !! key with
  | None => (Normal tt, w)
  | Some el =>
      match (GoldMarketApp.render_cards card (snapshot w) w).1 with
      | Normal html => (Normal tt, with_innerHTML key html w)
      | Abrupt t => (Abrupt t, w)
      end
  end.
Proof.
  unfold render_grid, with_innerHTML, bind, getElement, reads, setElement, modify.
  cbn [fst snd].
  destruct (elements (document w) !! key) as [el|]; [|reflexivity].
  pose proof (render_cards_pure card (snapshot w) w) as Hw.
  destruct (GoldMarketApp.render_cards card (snapshot w) w) as [[html|t] w'];
    cbn in Hw |- *; subst w'; reflexivity.
Qed.

Section Render.
Context {CD : Cards}.

Lemma renderGoldPrices_grid :
  GoldMarketApp.renderGoldPrices
  = render_grid "gold-prices-grid" createGoldPriceCard (fun w => goldPrices (app w)).
Proof. reflexivity. Qed.

Lemma renderCurrencyRates_grid :
  GoldMarketApp.renderCurrencyRates
  = render_grid "currency-rates-grid" createCurrencyRateCard
      (fun w => currencyRates (app w)).
Proof. reflexivity. Qed.

Lemma with_innerHTML_lookup (key html : string) (w : World) :
  elements (document (with_innerHTML key html w)) !! key
  = GoldMarketApp.set_innerHTML html <$> elements (document w) !! key.
Proof.
  unfold with_innerHTML.
  destruct (elements (document w) !! key) as [el|] eqn:E; cbn.
  - apply lookup_insert_eq.
  - rewrite E. reflexivity.
Qed.

Lemma with_innerHTML_twice (key html html' : string) (w : World) :
  with_innerHTML key html' (with_innerHTML key html w) = with_innerHTML key html' w.
Proof.
  unfold with_innerHTML at 1. rewrite with_innerHTML_lookup.
  unfold with_innerHTML.
  destruct (elements (document w) !! key) as [el|] eqn:E; cbn;
    [|try rewrite E; reflexivity].
  rewrite insert_insert_eq. reflexivity.
Qed.

Lemma with_innerHTML_frame (key html : string) (w : World) :
  exists els, with_innerHTML key html w = set_elements els w.
Proof.
  unfold with_innerHTML. destruct (elements (document w) !! key).
  - eexists; reflexivity.
  - exists (elements (document w)). symmetry. apply set_elements_same.
Qed.

Lemma render_grid_atomic key card snapshot (w : World) :
  (forall els w0, snapshot (set_elements els w0) = snapshot w0) ->
  let r := render_grid key card snapshot w in
  (r.1 = Normal tt \/ r.2 = w)
  /\ (is_Some (elements (document w) !! key) \/ r = (Normal tt, w))
  /\ (render_grid key card snapshot;; render_grid key card snapshot) w = r.
Proof.
  intros Hsnap. cbn zeta. unfold bind at 1. rewrite !render_grid_run.
  destruct (elements (document w) !! key) as [el|] eqn:E.
  - destruct (GoldMarketApp.render_cards card (snapshot w) w).1 as [html|t] eqn:Er.
    + split; [left; reflexivity|]. split; [left; eexists; reflexivity|].
      rewrite render_grid_run, with_innerHTML_lookup, E. cbn [fmap option_fmap option_map].
      destruct (with_innerHTML_frame key html w) as (els & Ew).
      rewrite Ew at 1 2. rewrite Hsnap.
      rewrite <- (render_cards_same card (snapshot w) w), Er.
      rewrite with_innerHTML_twice. reflexivity.
    + split; [right; reflexivity|]. split; [left; eexists; reflexivity|]. reflexivity.
  - split; [left; reflexivity|]. split; [right; reflexivity|].
    rewrite render_grid_run, E. reflexivity.
Qed.

(** X7.  [renderGoldPrices] and [renderCurrencyRates] draw all or
    nothing: when the call throws, the world is as it was; when the
    page lacks the grid, the call completes and changes nothing (the
    snapshot is not even read); and drawing twice in a row is drawing
    once. *)
Theorem render_all_or_nothing (w : World) :
  let gold := GoldMarketApp.renderGoldPrices w in
  let rates := GoldMarketApp.renderCurrencyRates w in
  (gold.1 = Normal tt \/ gold.2 = w)
  /\ (is_Some (elements (document w) !! "gold-prices-grid") \/ gold = (Normal tt, w))
  /\ (GoldMarketApp.renderGoldPrices;; GoldMarketApp.renderGoldPrices) w = gold
  /\ (rates.1 = Normal tt \/ rates.2 = w)
  /\ (is_Some (elements (document w) !! "currency-rates-grid")
      \/ rates = (Normal tt, w))
  /\ (GoldMarketApp.renderCurrencyRates;; GoldMarketApp.renderCurrencyRates) w = rates.
Proof.
  cbn zeta. rewrite renderGoldPrices_grid, renderCurrencyRates_grid.
  pose proof (render_grid_atomic "gold-prices-grid" createGoldPriceCard
                (fun w => goldPrices (app w)) w (fun _ _ => eq_refl)) as (? & ? & ?).
  pose proof (render_grid_atomic "currency-rates-grid" createCurrencyRateCard
                (fun w => currencyRates (app w)) w (fun _ _ => eq_refl)) as (? & ? & ?).
  auto 10.
Qed.

(** X8.  When the snapshot is an array and a card can be built for
    each item, the grid's markup becomes the cards of the items, in
    order, with nothing between them, and nothing else changes. *)
Theorem render_concatenates_cards (w : World) (items : list value)
    (parts : list string) :
  (goldPrices (app w) = VArr items ->
   Forall2 (fun x s => createGoldPriceCard x = Normal s) items parts ->
   GoldMarketApp.renderGoldPrices w
   = (Normal tt, with_innerHTML "gold-prices-grid" (concat_strings parts) w))
  /\ (currencyRates (app w) = VArr items ->
      Forall2 (fun x s => createCurrencyRateCard x = Normal s) items parts ->
      GoldMarketApp.renderCurrencyRates w
      = (Normal tt, with_innerHTML "currency-rates-grid" (concat_strings parts) w)).
Proof.
  split; intros Hsnap Hcards.
  - rewrite renderGoldPrices_grid, render_grid_run. rewrite Hsnap.
    unfold GoldMarketApp.render_cards, lift. cbn [fst].
    rewrite (map_join_all _ _ _ Hcards). unfold with_innerHTML.
    destruct (elements (document w) !! "gold-prices-grid"); reflexivity.
  - rewrite renderCurrencyRates_grid, render_grid_run. rewrite Hsnap.
    unfold GoldMarketApp.render_cards, lift. cbn [fst].
    rewrite (map_join_all _ _ _ Hcards). unfold with_innerHTML.
    destruct (elements (document w) !! "currency-rates-grid"); reflexivity.
Qed.

(** X9.  When the card of some item of the snapshot cannot be built,
    whatever the items after it, the call throws what the builder
    threw on the first such item, and the grid keeps the markup it
    had. *)
Theorem render_stops_at_first_bad_item (w : World) (good : list value) (bad : value)
    (rest : list value) (parts : list string) (t : thrown) :
  (goldPrices (app w) = VArr (good ++ bad :: rest) ->
   Forall2 (fun x s => createGoldPriceCard x = Normal s) good parts ->
   createGoldPriceCard bad = Abrupt t ->
   is_Some (elements (document w) !! "gold-prices-grid") ->
   GoldMarketApp.renderGoldPrices w = (Abrupt t, w))
  /\ (currencyRates (app w) = VArr (good ++ bad :: rest) ->
      Forall2 (fun x s => createCurrencyRateCard x = Normal s) good parts ->
      createCurrencyRateCard bad = Abrupt t ->
      is_Some (elements (document w) !! "currency-rates-grid") ->
      GoldMarketApp.renderCurrencyRates w = (Abrupt t, w)).
Proof.
  split; intros Hsnap Hgood Hbad [el Hel].
  - rewrite renderGoldPrices_grid, render_grid_run, Hel, Hsnap.
    unfold GoldMarketApp.render_cards, lift. cbn [fst].
    rewrite (map_join_first_failure _ _ _ _ _ _ Hgood Hbad). reflexivity.
  - rewrite renderCurrencyRates_grid, render_grid_run, Hel, Hsnap.
    unfold GoldMarketApp.render_cards, lift. cbn [fst].
    rewrite (map_join_first_failure _ _ _ _ _ _ Hgood Hbad). reflexivity.
Qed.

End Render.

(** *** The store links *)

Lemma keep_digits_app (a b : string) :
  GoldMarketApp.keep_digits (a +:+ b)
  = GoldMarketApp.keep_digits a +:+ GoldMarketApp.keep_digits b.
Proof.
  induction a as [|c a IH]; [reflexivity|].
  change (String c a +:+ b) with (String c (a +:+ b)).
  cbn [GoldMarketApp.keep_digits]. rewrite IH.
  destruct (GoldMarketApp.is_digit c); reflexivity.
Qed.

Lemma keep_digits_all_digits (s : string) :
  all_digits (GoldMarketApp.keep_digits s) = true.
Proof.
  induction s as [|c s IH]; [reflexivity|]. cbn [GoldMarketApp.keep_digits].
  destruct (GoldMarketApp.is_digit c) eqn:E; [|exact IH].
  cbn [all_digits]. rewrite E, IH. reflexivity.
Qed.

Lemma keep_digits_length (s : string) :
  (String.length (GoldMarketApp.keep_digits s) <= String.length s)%nat.
Proof.
  induction s as [|c s IH]; [reflexivity|]. cbn [GoldMarketApp.keep_digits].
  destruct (GoldMarketApp.is_digit c); cbn [String.length]; lia.
Qed.

Lemma keep_digits_fixed (s : string) :
  GoldMarketApp.keep_digits s = s <-> all_digits s = true.
Proof.
  split.
  - intros <-. apply keep_digits_all_digits.
  - induction s as [|c s IH]; [reflexivity|]. cbn [all_digits GoldMarketApp.keep_digits].
    destruct (GoldMarketApp.is_digit c); [|discriminate].
    cbn. intros H. rewrite (IH H). reflexivity.
Qed.

(** X10.  The WhatsApp number of [updateStoreInfo],
    [whatsapp.replace(/\D/g, '')]: the result holds digits only, is
    left alone by a second pass, is computed piecewise, is the input
    exactly when the input holds digits only, and is never longer than
    the input. *)
Theorem keep_digits_normalises (a b : string) :
  all_digits (GoldMarketApp.keep_digits a) = true
  /\ GoldMarketApp.keep_digits (GoldMarketApp.keep_digits a) = GoldMarketApp.keep_digits a
  /\ GoldMarketApp.keep_digits (a +:+ b)
     = GoldMarketApp.keep_digits a +:+ GoldMarketApp.keep_digits b
  /\ (GoldMarketApp.keep_digits a = a <-> all_digits a = true)
  /\ (String.length (GoldMarketApp.keep_digits a) <= String.length a)%nat.
Proof.
  split; [apply keep_digits_all_digits|].
  split; [apply keep_digits_fixed, keep_digits_all_digits|].
  split; [apply keep_digits_app|].
  split; [apply keep_digits_fixed|apply keep_digits_length].
Qed.

(** X11.  The Instagram handle of [updateStoreInfo],
    [instagram.replace('@', '')]: the first [@] is dropped and every
    later one is kept; a handle without [@] is left as it is. *)
Theorem drop_first_at_first_only (pre post : string) :
  has_at pre = false ->
  GoldMarketApp.drop_first_at (pre +:+ String "@" post) = pre +:+ post
  /\ GoldMarketApp.drop_first_at pre = pre.
Proof.
  induction pre as [|c pre IH]; intros Hpre.
  - split; reflexivity.
  - cbn [has_at] in Hpre. apply orb_false_iff in Hpre as [Hc Hpre].
    destruct (IH Hpre) as [IH1 IH2].
    change (String c pre +:+ String "@" post) with (String c (pre +:+ String "@" post)).
    cbn [GoldMarketApp.drop_first_at]. rewrite Hc, IH1, IH2. split; reflexivity.
Qed.

Lemma bind_normal_inv {A B} (m : M A) (k : A -> M B) (w w' : World) (b : B) :
  bind m k w = (Normal b, w') ->
  exists a w1, m w = (Normal a, w1) /\ k a w1 = (Normal b, w').
Proof.
  unfold bind. destruct (m w) as [[a|t] w1]; [|discriminate].
  intros E. exists a, w1. split; [reflexivity|exact E].
Qed.

Lemma set_elements_twice (els els' : gmap string Element) (w : World) :
  set_elements els' (set_elements els w) = set_elements els' w.
Proof. reflexivity. Qed.

(** One block, when it completes. *)
Lemma with_store_field_step (key field : string) (body : Element -> value -> M unit)
    (g : Element -> value -> Element) (w w' : World) :
  (forall el v w0 w1,
     body el v w0 = (Normal tt, w1) ->
     w1 = set_elements (<[key := g el v]> (elements (document w0))) w0) ->
  GoldMarketApp.with_store_field key field body w = (Normal tt, w') ->
  exists els',
    w' = set_elements els' w
    /\ forall k, els' !! k
                 = store_rule (storeInfo (app w)) key field g k
                   <$> elements (document w) !! k.
Proof.
  intros Hbody.
  unfold GoldMarketApp.with_store_field, bind, getElement, reads, member, lift, read.
  cbn [fst snd].
  assert (Hid : forall k, elements (document w) !! k
                          = (fun el => el) <$> elements (document w) !! k).
  { intros k. destruct (elements (document w) !! k); reflexivity. }
  destruct (elements (document w) !! key) as [el|] eqn:E.
  - destruct (nullish (storeInfo (app w))); [discriminate|].
    destruct (truthy (prop (storeInfo (app w)) field)) eqn:Ht.
    + intros Hb. apply Hbody in Hb. eexists. split; [exact Hb|].
      intros k. unfold store_rule. rewrite Ht.
      destruct (String.eqb_spec k key) as [->|Hne]; cbn [andb].
      * rewrite lookup_insert_eq, E. reflexivity.
      * rewrite lookup_insert_ne by congruence. apply Hid.
    + intros [= <-]. exists (elements (document w)).
      split; [symmetry; apply set_elements_same|].
      intros k. unfold store_rule. rewrite Ht, andb_false_r. apply Hid.
  - intros [= <-]. exists (elements (document w)).
    split; [symmetry; apply set_elements_same|].
    intros k. unfold store_rule.
    destruct (String.eqb_spec k key) as [->|Hne]; cbn [andb]; [|apply Hid].
    rewrite E. destruct (truthy _); reflexivity.
Qed.

Lemma setElement_step (key : string) (f : Element -> value -> Element)
    (el : Element) (v : value) (w0 w1 : World) :
  setElement key (f el v) w0 = (Normal tt, w1) ->
  w1 = set_elements (<[key := f el v]> (elements (document w0))) w0.
Proof. intros [= <-]. reflexivity. Qed.

Lemma replace_step (key prefix : string) (f : string -> string)
    (el : Element) (v : value) (w0 w1 : World) :
  (let* s := GoldMarketApp.replace_on v f in
   setElement key (GoldMarketApp.set_href (prefix +:+ s) el)) w0 = (Normal tt, w1) ->
  w1 = set_elements
         (<[key := on_string (fun s => GoldMarketApp.set_href (prefix +:+ f s)) el v]>
            (elements (document w0))) w0.
Proof. destruct v; cbn; intros [= <-]; reflexivity. Qed.

(** X12.  When [updateStoreInfo] completes, the page differs from the
    page before in its elements only, no element has appeared or
    gone, and each element is the old one rewritten by the rules of
    its selector: the name on [.logo-text] and [footer-store-name],
    the address, the phone with its [tel:] link, and the WhatsApp,
    Instagram and Facebook links, each applied when the field of
    [storeInfo] is truthy and skipped otherwise. *)
Theorem updateStoreInfo_rewrites (w w' : World) :
  GoldMarketApp.updateStoreInfo w = (Normal tt, w') ->
  exists els',
    w' = set_elements els' w
    /\ forall k, els' !! k
                 = store_update (storeInfo (app w)) k <$> elements (document w) !! k.
Proof.
  unfold GoldMarketApp.updateStoreInfo. intros H.
  apply bind_normal_inv in H as ([] & w1 & H1 & H).
  apply bind_normal_inv in H as ([] & w2 & H2 & H).
  apply bind_normal_inv in H as ([] & w3 & H3 & H).
  apply bind_normal_inv in H as ([] & w4 & H4 & H).
  apply bind_normal_inv in H as ([] & w5 & H5 & H).
  apply bind_normal_inv in H as ([] & w6 & H6 & H7).
  eapply with_store_field_step in H1 as (e1 & -> & L1);
    [|intros el v w0 w1'; apply (setElement_step _
        (fun el v => GoldMarketApp.set_textContent (ToString v) el))].
  eapply with_store_field_step in H2 as (e2 & -> & L2);
    [|intros el v w0 w1'; apply (setElement_step _
        (fun el v => GoldMarketApp.set_textContent (ToString v) el))].
  eapply with_store_field_step in H3 as (e3 & -> & L3);
    [|intros el v w0 w1'; apply (setElement_step _
        (fun el v => GoldMarketApp.set_textContent (ToString v) el))].
  eapply with_store_field_step in H4 as (e4 & -> & L4);
    [|intros el v w0 w1'; apply (setElement_step _
        (fun el v => GoldMarketApp.set_href ("tel:" +:+ ToString v)
                       (GoldMarketApp.set_textContent (ToString v) el)))].
  eapply with_store_field_step in H5 as (e5 & -> & L5);
    [|intros el v w0 w1'; apply (replace_step _ "https://wa.me/")].
  eapply with_store_field_step in H6 as (e6 & -> & L6);
    [|intros el v w0 w1'; apply (replace_step _ "https://instagram.com/")].
  eapply with_store_field_step in H7 as (e7 & -> & L7);
    [|intros el v w0 w1'; apply (setElement_step _
        (fun el v => GoldMarketApp.set_href ("https://facebook.com/" +:+ ToString v) el))].
  exists e7. split; [reflexivity|].
  intros k. cbn [set_elements app document elements] in *.
  rewrite L7, L6, L5, L4, L3, L2, L1. unfold store_update.
  destruct (elements (document w) !! k); reflexivity.
Qed.

(** *** What loading and refreshing leave alone *)

Lemma timers_offstage : Offstage timers.
Proof.
  split; try reflexivity.
  - intros msg t w. unfold timers, intervals_set, intervals_cleared. cbn [emit events app next_timer].
    rewrite !omap_app. cbn. rewrite !app_nil_r. reflexivity.
  - intros req w. unfold timers, intervals_set, intervals_cleared.
    cbn [issued count_fetch emit events app next_timer].
    rewrite !omap_app. cbn. rewrite !app_nil_r. reflexivity.
Qed.

Lemma error_region_offstage : Offstage error_region.
Proof.
  split; try reflexivity.
  intros key el w Hkey. unfold error_region. cbn [set_elements document elements].
  apply lookup_insert_ne. intros ->. discriminate Hkey.
Qed.

Lemma success_region_offstage :
  Offstage (fun w => elements (document w) !! "success-container").
Proof.
  split; try reflexivity.
  intros key el w Hkey. cbn [set_elements document elements].
  apply lookup_insert_ne. intros ->. discriminate Hkey.
Qed.

#[export] Existing Instances timers_offstage error_region_offstage
  success_region_offstage.

Section OffstageFrame.
Context {RT : Runtime} {CD : Cards} {B : Type} (obs : World -> B) `{!Offstage obs}.

Lemma offstage_setElement (key : string) (el : Element) :
  data_region key = true -> keeps obs (setElement key el).
Proof. intros Hkey w. apply offstage_draw. exact Hkey. Qed.

Lemma offstage_log (msg : string) (t : thrown) : keeps obs (console_error msg t).
Proof. intros w. apply offstage_console_error. Qed.

Lemma offstage_get (endpoint : string) : keeps obs (API.get endpoint []).
Proof. apply keeps_get. apply offstage_issued. Qed.

Lemma offstage_set_goldPrices (v : value) : keeps obs (GoldMarketApp.set_goldPrices v).
Proof. intros w. apply offstage_snapshot. Qed.

Lemma offstage_set_currencyRates (v : value) :
  keeps obs (GoldMarketApp.set_currencyRates v).
Proof. intros w. apply offstage_snapshot. Qed.

Lemma offstage_set_storeInfo (v : value) : keeps obs (GoldMarketApp.set_storeInfo v).
Proof. intros w. apply offstage_snapshot. Qed.

Lemma offstage_set_marketStatus (v : value) :
  keeps obs (GoldMarketApp.set_marketStatus v).
Proof. intros w. apply offstage_snapshot. Qed.

Hint Resolve offstage_log offstage_get offstage_set_goldPrices
  offstage_set_currencyRates offstage_set_storeInfo offstage_set_marketStatus : keeps.
Hint Extern 1 (keeps _ (setElement _ _)) =>
  apply offstage_setElement; reflexivity : keeps.

Hint Extern 1 (keeps _ (setElement _ _)) =>
  apply offstage_setElement; reflexivity : keeps.

Lemma offstage_render_cards (card : value -> completion string) (snapshot : value) :
  keeps obs (GoldMarketApp.render_cards card snapshot).
Proof. unfold GoldMarketApp.render_cards. destruct snapshot; auto with keeps. Qed.

Hint Resolve offstage_render_cards : keeps.

Lemma offstage_renderGoldPrices : keeps obs GoldMarketApp.renderGoldPrices.
Proof. unfold GoldMarketApp.renderGoldPrices. auto 10 with keeps. Qed.

Lemma offstage_renderCurrencyRates : keeps obs GoldMarketApp.renderCurrencyRates.
Proof. unfold GoldMarketApp.renderCurrencyRates. auto 10 with keeps. Qed.

Lemma offstage_updateMarketStatus : keeps obs GoldMarketApp.updateMarketStatus.
Proof. unfold GoldMarketApp.updateMarketStatus. auto 12 with keeps. Qed.

Lemma offstage_replace_on (v : value) (f : string -> string) :
  keeps obs (GoldMarketApp.replace_on v f).
Proof. unfold GoldMarketApp.replace_on. destruct v; auto with keeps. Qed.

Hint Resolve offstage_replace_on : keeps.

Lemma offstage_updateStoreInfo : keeps obs GoldMarketApp.updateStoreInfo.
Proof.
  unfold GoldMarketApp.updateStoreInfo.
  do 6 (apply keeps_bind;
        [apply keeps_with_store_field; intros; auto 10 with keeps | intros _]).
  apply keeps_with_store_field; intros; auto with keeps.
Qed.

Hint Resolve offstage_renderGoldPrices offstage_renderCurrencyRates
  offstage_updateMarketStatus offstage_updateStoreInfo : keeps.

Lemma offstage_fetchGoldPrices : keeps obs GoldMarketApp.fetchGoldPrices.
Proof.
  unfold GoldMarketApp.fetchGoldPrices, GoldAPI.getAllPrices. auto 12 with keeps.
Qed.

Lemma offstage_fetchCurrencyRates : keeps obs GoldMarketApp.fetchCurrencyRates.
Proof.
  unfold GoldMarketApp.fetchCurrencyRates, CurrencyAPI.getAllRates. auto 12 with keeps.
Qed.

Lemma offstage_fetchGoldPrices_finish (p : API.pending) :
  keeps obs (GoldMarketApp.fetchGoldPrices_finish p).
Proof. unfold GoldMarketApp.fetchGoldPrices_finish. auto 12 with keeps. Qed.

Lemma offstage_fetchCurrencyRates_finish (p : API.pending) :
  keeps obs (GoldMarketApp.fetchCurrencyRates_finish p).
Proof. unfold GoldMarketApp.fetchCurrencyRates_finish. auto 12 with keeps. Qed.

Hint Resolve offstage_fetchGoldPrices offstage_fetchCurrencyRates
  offstage_fetchGoldPrices_finish offstage_fetchCurrencyRates_finish : keeps.

Lemma offstage_fetchInitialData : keeps obs GoldMarketApp.fetchInitialData.
Proof.
  unfold GoldMarketApp.fetchInitialData, GoldMarketApp.fetchInitialData_storeInfo,
    GoldMarketApp.fetchInitialData_marketStatus, SettingsAPI.getStoreInfo,
    SettingsAPI.checkMarketStatus.
  auto 15 with keeps.
Qed.

Lemma offstage_render : keeps obs GoldMarketApp.render.
Proof. unfold GoldMarketApp.render. auto with keeps. Qed.

Lemma offstage_callback (gold_first : bool) :
  keeps obs (GoldMarketApp.startAutoUpdate_callback gold_first).
Proof.
  intros w. rewrite callback_run. cbn zeta.
  assert (Hrest : forall g c, keeps obs (callback_rest gold_first g c)).
  { intros g c. unfold callback_rest. auto 10 with keeps. }
  rewrite Hrest, !offstage_issued. reflexivity.
Qed.

End OffstageFrame.

(** *** Startup, refresh and unload *)

Section Lifecycle.
Context {RT : Runtime} {CD : Cards}.

Lemma showError_run (message : string) (w : World) :
  GoldMarketApp.showError message w
  = (Normal tt, with_innerHTML "error-container"
                  (GoldMarketApp.error_banner message) w).
Proof.
  unfold GoldMarketApp.showError, with_innerHTML, bind, getElement, reads,
    setElement, modify. cbn [fst snd].
  destruct (elements (document w) !! "error-container"); reflexivity.
Qed.

Lemma register_normal (w : World) : (register w).1 = Normal tt.
Proof.
  unfold register, GoldMarketApp.startAutoUpdate, GoldMarketApp.attachEventListeners,
    GoldMarketApp.set_updateInterval, bind, setInterval, getElement, reads,
    console_log, modify, ret.
  cbn [fst snd elements document emit advance_timer set_app].
  destruct (elements (document w) !! "admin-btn"); reflexivity.
Qed.

Lemma init_catch_run (t : thrown) (w : World) :
  init_catch t w
  = (Normal tt, with_innerHTML "error-container"
                  (GoldMarketApp.error_banner "Failed to initialize application")
                  (emit (ConsoleError "App initialization error:" t) w)).
Proof.
  unfold init_catch, bind, console_error, modify. cbn [fst snd].
  apply showError_run.
Qed.

Lemma init_cases (w : World) :
  GoldMarketApp.init w =
  match GoldMarketApp.fetchInitialData (booted w) with
  | (Normal _, w1) =>
      match GoldMarketApp.render w1 with
      | (Normal _, w2) => (Normal tt, (register w2).2)
      | (Abrupt t, w2) => init_catch t w2
      end
  | (Abrupt t, w1) => init_catch t w1
  end.
Proof.
  rewrite init_run. unfold try_catch.
  change go_live with (GoldMarketApp.render;; register).
  unfold bind at 1.
  destruct (GoldMarketApp.fetchInitialData (booted w)) as [[[]|t] w1]; [|reflexivity].
  unfold bind at 1.
  destruct (GoldMarketApp.render w1) as [[[]|t] w2]; [|reflexivity].
  pose proof (register_normal w2) as Hn.
  destruct (register w2) as [c w3]. cbn in Hn |- *. subst c. reflexivity.
Qed.

(** [init], whatever happens, ends in one of two ways: in its [catch],
    or past the registration of the refresh timer. *)
Lemma init_outcomes (w : World) :
  exists w2,
    (forall (B : Type) (obs : World -> B), Offstage obs -> obs w2 = obs (booted w))
    /\ ((exists t, GoldMarketApp.init w = (Normal tt, (init_catch t w2).2))
        \/ GoldMarketApp.init w = (Normal tt, (register w2).2)).
Proof.
  rewrite init_cases.
  destruct (GoldMarketApp.fetchInitialData (booted w)) as [[[]|t] w1] eqn:E1.
  - destruct (GoldMarketApp.render w1) as [[[]|t] w2] eqn:E2.
    + exists w2. split; [|right; reflexivity].
      intros B obs Hobs.
      pose proof (offstage_render obs w1) as H2. rewrite E2 in H2.
      pose proof (offstage_fetchInitialData obs (booted w)) as H1. rewrite E1 in H1.
      cbn in H1, H2. congruence.
    + exists w2. split; [|left; exists t; rewrite init_catch_run; reflexivity].
      intros B obs Hobs.
      pose proof (offstage_render obs w1) as H2. rewrite E2 in H2.
      pose proof (offstage_fetchInitialData obs (booted w)) as H1. rewrite E1 in H1.
      cbn in H1, H2. congruence.
  - exists w1. split; [|left; exists t; rewrite init_catch_run; reflexivity].
    intros B obs Hobs.
    pose proof (offstage_fetchInitialData obs (booted w)) as H1. rewrite E1 in H1.
    exact H1.
Qed.

Lemma timers_snoc (w : World) (e : Event) :
  timers (emit e w)
  = (intervals_set (events w)
       ++ match e with SetInterval id _ _ => [id] | _ => [] end,
     intervals_cleared (events w)
       ++ match e with ClearInterval id => [id] | _ => [] end,
     updateInterval (app w), clockInterval (app w), next_timer w).
Proof.
  unfold timers, intervals_set, intervals_cleared. cbn [emit events app next_timer].
  rewrite !omap_app. destruct e; reflexivity.
Qed.

Lemma booted_timers (w : World) :
  timers (booted w)
  = (intervals_set (events w) ++ [next_timer w], intervals_cleared (events w),
     updateInterval (app w), Some (next_timer w), Pos.succ (next_timer w)).
Proof.
  unfold booted, GoldMarketApp.initClock, GoldMarketApp.updateClock, bind,
    console_log, getElement, reads, setInterval, setElement,
    GoldMarketApp.set_clockInterval, modify, ret.
  cbn [fst snd elements document emit].
  destruct (elements (document w) !! "clock");
    unfold timers, intervals_set, intervals_cleared;
    cbn [fst snd set_app advance_timer emit set_elements events app next_timer
         updateInterval clockInterval];
    rewrite !omap_app; cbn; rewrite !app_nil_r; reflexivity.
Qed.

Lemma booted_error_region (w : World) : error_region (booted w) = error_region w.
Proof.
  unfold booted, GoldMarketApp.initClock, GoldMarketApp.updateClock, bind,
    console_log, getElement, reads, setInterval, setElement,
    GoldMarketApp.set_clockInterval, modify, ret, error_region.
  cbn [fst snd elements document emit].
  destruct (elements (document w) !! "clock");
    cbn [fst snd set_app advance_timer emit set_elements document elements];
    [apply lookup_insert_ne; discriminate|reflexivity].
Qed.

Lemma register_timers (w : World) :
  timers (register w).2
  = (intervals_set (events w) ++ [next_timer w], intervals_cleared (events w),
     Some (next_timer w), clockInterval (app w), Pos.succ (next_timer w)).
Proof.
  unfold register, GoldMarketApp.startAutoUpdate, GoldMarketApp.attachEventListeners,
    GoldMarketApp.set_updateInterval, bind, setInterval, getElement, reads,
    console_log, modify, ret.
  cbn [fst snd elements document emit advance_timer set_app].
  destruct (elements (document w) !! "admin-btn");
    unfold timers, intervals_set, intervals_cleared;
    cbn [fst snd set_app advance_timer emit set_elements events app next_timer
         updateInterval clockInterval];
    rewrite !omap_app; cbn; rewrite !app_nil_r; reflexivity.
Qed.

Lemma register_error_region (w : World) : error_region (register w).2 = error_region w.
Proof.
  unfold register, GoldMarketApp.startAutoUpdate, GoldMarketApp.attachEventListeners,
    GoldMarketApp.set_updateInterval, bind, setInterval, getElement, reads,
    console_log, modify, ret, error_region.
  cbn [fst snd elements document emit advance_timer set_app].
  destruct (elements (document w) !! "admin-btn"); reflexivity.
Qed.

Lemma with_innerHTML_timers (key html : string) (w : World) :
  timers (with_innerHTML key html w) = timers w.
Proof. destruct (with_innerHTML_frame key html w) as (els & ->). reflexivity. Qed.

Lemma init_catch_timers (t : thrown) (w : World) :
  timers (init_catch t w).2 = timers w.
Proof.
  rewrite init_catch_run. cbn [snd]. rewrite with_innerHTML_timers.
  apply offstage_console_error.
Qed.

Lemma init_catch_error_region (t : thrown) (w : World) :
  error_region (init_catch t w).2
  = GoldMarketApp.set_innerHTML
      (GoldMarketApp.error_banner "Failed to initialize application")
    <$> error_region w.
Proof.
  rewrite init_catch_run. cbn [snd]. unfold error_region.
  rewrite with_innerHTML_lookup. reflexivity.
Qed.

(** X13.  [init] never rejects, and it ends in one of two ways, on
    every page and whatever the server answers: either the refresh
    timer is registered and the error container is as it was, or no
    refresh timer is registered and the error container (when the page
    has one) shows the banner [Failed to initialize application]. *)
Theorem init_ready_or_banner (w : World) :
  let w' := (GoldMarketApp.init w).2 in
  (GoldMarketApp.init w).1 = Normal tt
  /\ (updateInterval (app w') = Some (Pos.succ (next_timer w))
      /\ error_region w' = error_region w
      \/ updateInterval (app w') = updateInterval (app w)
         /\ error_region w'
            = GoldMarketApp.set_innerHTML
                (GoldMarketApp.error_banner "Failed to initialize application")
              <$> error_region w).
Proof.
  cbn zeta. destruct (init_outcomes w) as (w2 & Hobs & [(t & E) | E]); rewrite E.
  - split; [reflexivity|]. right. cbn [snd].
    pose proof (init_catch_timers t w2) as Ht.
    rewrite (Hobs _ timers _), booted_timers in Ht.
    unfold timers at 1 in Ht. injection Ht as _ _ Hu _ _.
    split; [exact Hu|].
    rewrite init_catch_error_region, (Hobs _ error_region _), booted_error_region.
    reflexivity.
  - split; [reflexivity|]. left. cbn [snd].
    pose proof (register_timers w2) as Ht.
    pose proof (Hobs _ timers _) as Hb. rewrite booted_timers in Hb.
    unfold timers at 1 in Hb. injection Hb as _ _ _ _ Hn.
    rewrite Hn in Ht. unfold timers at 1 in Ht. injection Ht as _ _ Hu _ _.
    split; [exact Hu|].
    rewrite register_error_region, (Hobs _ error_region _). apply booted_error_region.
Qed.

Lemma stop_timers (w : World) :
  timers (GoldMarketApp.stopAutoUpdate w).2
  = (intervals_set (events w),
     intervals_cleared (events w)
       ++ option_list (updateInterval (app w)) ++ option_list (clockInterval (app w)),
     None, None, next_timer w).
Proof.
  destruct w as [doc [gold rates store market [update|] [clock|]] n now timer evs];
    unfold timers, intervals_set, intervals_cleared; cbn;
    rewrite ?omap_app; cbn; rewrite ?app_nil_r, <- ?app_assoc; reflexivity.
Qed.

(** X14.  A refresh tick, whatever the server answers and whichever
    response comes first, registers and clears no timer, keeps both
    timer handles, and writes neither to the error container nor to
    the success container: a failed refresh is reported on the console
    only. *)
Theorem refresh_leaves_timers_and_banners (gold_first : bool) (w : World) :
  let w' := (GoldMarketApp.startAutoUpdate_callback gold_first w).2 in
  timers w' = timers w
  /\ error_region w' = error_region w
  /\ elements (document w') !! "success-container"
     = elements (document w) !! "success-container".
Proof.
  cbn zeta. split; [apply (offstage_callback timers)|].
  split; [apply (offstage_callback error_region)|].
  apply (offstage_callback (fun w0 => elements (document w0) !! "success-container")).
Qed.

Lemma updateClock_timers (w : World) :
  timers (GoldMarketApp.updateClock w).2 = timers w.
Proof.
  unfold GoldMarketApp.updateClock, bind, getElement, reads, setElement, modify.
  cbn [fst snd]. destruct (elements (document w) !! "clock"); reflexivity.
Qed.

Lemma after_ticks_timers (ticks : list Tick) (w : World) :
  timers (after_ticks ticks w) = timers w.
Proof.
  revert w. induction ticks as [|t ticks IH]; intros w; [reflexivity|].
  cbn [after_ticks foldl]. change (foldl _ ?w0 ticks) with (after_ticks ticks w0).
  rewrite IH. destruct t; [apply updateClock_timers|apply (offstage_callback timers)].
Qed.

(** X15.  From construction to unload no timer is left running: once
    [init] has settled, and whatever timer callbacks have fired since,
    in any number and order, the [beforeunload] handler clears exactly
    the timers the application registered (the clock, and the refresh
    timer when startup got through), the refresh timer first, and
    leaves both handles [null]. *)
Theorem timers_cleared_on_unload (ticks : list Tick) (w : World) :
  let loaded := (GoldMarketApp.constructor w).2 in
  let w' := (GoldMarketApp.beforeunload (after_ticks ticks loaded)).2 in
  exists ids,
    (ids = [next_timer w] \/ ids = [next_timer w; Pos.succ (next_timer w)])
    /\ intervals_set (events w') = intervals_set (events w) ++ ids
    /\ intervals_cleared (events w') = intervals_cleared (events w) ++ rev ids
    /\ updateInterval (app w') = None
    /\ clockInterval (app w') = None.
Proof.
  cbn zeta.
  set (w0 := set_app GoldMarketApp.new_app w).
  destruct (init_outcomes w0) as (w2 & Hobs & Hcase).
  pose proof (Hobs _ timers _) as Hb. rewrite booted_timers in Hb.
  assert (Hrun : forall w1,
    GoldMarketApp.init w0 = (Normal tt, w1) -> (GoldMarketApp.constructor w).2 = w1).
  { intros w1 E. unfold GoldMarketApp.constructor.
    unfold bind at 1. unfold modify at 1. fold w0. rewrite E. reflexivity. }
  unfold GoldMarketApp.beforeunload.
  destruct Hcase as [(t & E) | E]; rewrite (Hrun _ E).
  - exists [next_timer w].
    pose proof (stop_timers (after_ticks ticks (init_catch t w2).2)) as Hs.
    pose proof (after_ticks_timers ticks (init_catch t w2).2) as Ha.
    rewrite init_catch_timers, Hb in Ha.
    unfold timers at 1 in Ha. injection Ha as H1 H2 H3 H4 H5.
    rewrite H1, H2, H3, H4, H5 in Hs. unfold timers at 1 in Hs.
    injection Hs as S1 S2 S3 S4 _.
    split; [left; reflexivity|]. repeat split; assumption.
  - exists [next_timer w; Pos.succ (next_timer w)].
    pose proof (stop_timers (after_ticks ticks (register w2).2)) as Hs.
    pose proof (after_ticks_timers ticks (register w2).2) as Ha.
    rewrite register_timers in Ha.
    unfold timers at 1 in Hb. injection Hb as B1 B2 B3 B4 B5.
    rewrite B1, B2, B4, B5 in Ha.
    unfold timers at 1 in Ha. injection Ha as H1 H2 H3 H4 H5.
    rewrite H1, H2, H3, H4, H5 in Hs. unfold timers at 1 in Hs.
    injection Hs as S1 S2 S3 S4 _.
    split; [right; reflexivity|].
    split; [rewrite S1, <- app_assoc; reflexivity|].
    split; [rewrite S2; reflexivity|]. split; assumption.
Qed.

End Lifecycle.

(** *** The order of the responses *)

Section Race.
Context {RT : Runtime} {CD : Cards}.

Lemma finish_pure (p : API.pending) :
  exists c, forall w, API.finish p w = (c, w).
Proof.
  destruct p as [[response|e]|t]; cbn; [|eexists; reflexivity|eexists; reflexivity].
  unfold bind, ret, API.handleResponse. cbn.
  destruct (negb (response_ok response)); eexists; reflexivity.
Qed.

Lemma finish_task_page (p : API.pending) (set : value -> World -> World)
    (render : M unit) (msg : string) :
  exists d, forall w,
    let r := try_catch
      (let* response := API.finish p in
       let* success := member response "success" in
       if truthy success then
         let* data := member response "data" in
         modify (set data);;
         render
       else ret tt)
      (fun error => console_error msg error) w in
    r.1 = Normal tt /\ page_state r.2 = page_state (stored set render d w).
Proof.
  destruct (finish_pure p) as (c & Hc).
  assert (Hrun : forall (k : value -> M unit) w,
            (let* response := API.finish p in k response) w
            = match c with Normal v => k v w | Abrupt t => (Abrupt t, w) end).
  { intros k w. unfold bind. rewrite Hc. reflexivity. }
  destruct c as [payload|t].
  - destruct (nullish payload) eqn:En.
    + exists None. intros w. cbn zeta. unfold try_catch. rewrite Hrun.
      unfold bind, member, lift, read. rewrite En. split; reflexivity.
    + destruct (truthy (prop payload "success")) eqn:Es.
      * exists (Some (prop payload "data")). intros w. cbn zeta.
        unfold try_catch. rewrite Hrun.
        unfold bind, member, lift, read, modify. rewrite En, Es. cbn [stored fst snd].
        destruct (render (set (prop payload "data") w)) as [[[]|t] w']; split; reflexivity.
      * exists None. intros w. cbn zeta. unfold try_catch. rewrite Hrun.
        unfold bind, member, lift, read. rewrite En, Es. split; reflexivity.
  - exists None. intros w. cbn zeta. unfold try_catch. rewrite Hrun. split; reflexivity.
Qed.

Lemma render_grid_world key card snapshot (w : World) :
  (render_grid key card snapshot w).2
  = match (GoldMarketApp.render_cards card (snapshot w) w).1 with
    | Normal html => with_innerHTML key html w
    | Abrupt _ => w
    end.
Proof.
  rewrite render_grid_run. unfold with_innerHTML.
  destruct (elements (document w) !! key);
    destruct (GoldMarketApp.render_cards card (snapshot w) w).1; reflexivity.
Qed.

Lemma with_innerHTML_page (key html : string) (w1 w2 : World) :
  page_state w1 = page_state w2 ->
  page_state (with_innerHTML key html w1) = page_state (with_innerHTML key html w2).
Proof.
  destruct w1 as [d1 a1 n1 c1 t1 e1], w2 as [d2 a2 n2 c2 t2 e2].
  unfold page_state. cbn [app document]. intros [= -> ->].
  unfold with_innerHTML. cbn [document].
  destruct (elements d2 !! key); reflexivity.
Qed.

Lemma with_innerHTML_commute (k1 k2 h1 h2 : string) (w : World) :
  k1 <> k2 ->
  with_innerHTML k1 h1 (with_innerHTML k2 h2 w)
  = with_innerHTML k2 h2 (with_innerHTML k1 h1 w).
Proof.
  intros Hne. unfold with_innerHTML.
  destruct (elements (document w) !! k1) as [el1|] eqn:E1;
    destruct (elements (document w) !! k2) as [el2|] eqn:E2;
    cbn [set_elements document elements];
    rewrite ?lookup_insert_ne, ?E1, ?E2 by congruence;
    cbn [set_elements document elements]; try reflexivity.
  rewrite insert_insert_ne by congruence. reflexivity.
Qed.

Lemma stored_gold_page (d : option value) (w1 w2 : World) :
  page_state w1 = page_state w2 ->
  page_state (stored keep_gold GoldMarketApp.renderGoldPrices d w1)
  = page_state (stored keep_gold GoldMarketApp.renderGoldPrices d w2).
Proof.
  intros H. destruct d as [data|]; [|exact H]. cbn [stored].
  rewrite renderGoldPrices_grid, !render_grid_world.
  rewrite (render_cards_same _ _ (keep_gold data w1) (keep_gold data w2)).
  assert (Hk : page_state (keep_gold data w1) = page_state (keep_gold data w2)).
  { destruct w1, w2. unfold page_state in *. cbn in *. congruence. }
  cbn [keep_gold GoldMarketApp.set_goldPrices modify snd set_app app goldPrices] in *.
  destruct (GoldMarketApp.render_cards _ _ _).1; [|exact Hk].
  apply with_innerHTML_page. exact Hk.
Qed.

Lemma stored_rates_page (d : option value) (w1 w2 : World) :
  page_state w1 = page_state w2 ->
  page_state (stored keep_rates GoldMarketApp.renderCurrencyRates d w1)
  = page_state (stored keep_rates GoldMarketApp.renderCurrencyRates d w2).
Proof.
  intros H. destruct d as [data|]; [|exact H]. cbn [stored].
  rewrite renderCurrencyRates_grid, !render_grid_world.
  rewrite (render_cards_same _ _ (keep_rates data w1) (keep_rates data w2)).
  assert (Hk : page_state (keep_rates data w1) = page_state (keep_rates data w2)).
  { destruct w1, w2. unfold page_state in *. cbn in *. congruence. }
  cbn [keep_rates GoldMarketApp.set_currencyRates modify snd set_app app currencyRates] in *.
  destruct (GoldMarketApp.render_cards _ _ _).1; [|exact Hk].
  apply with_innerHTML_page. exact Hk.
Qed.

Lemma stored_commute (d1 d2 : option value) (w : World) :
  stored keep_gold GoldMarketApp.renderGoldPrices d1
    (stored keep_rates GoldMarketApp.renderCurrencyRates d2 w)
  = stored keep_rates GoldMarketApp.renderCurrencyRates d2
      (stored keep_gold GoldMarketApp.renderGoldPrices d1 w).
Proof.
  destruct d1 as [a|], d2 as [b|]; try reflexivity. cbn [stored].
  rewrite renderGoldPrices_grid, renderCurrencyRates_grid, !render_grid_world.
  cbn beta.
  pose (g := fun w0 : World => goldPrices (app w0)).
  pose (r := fun w0 : World => currencyRates (app w0)).
  assert (Hg : forall w0, g (keep_gold a w0) = a) by reflexivity.
  assert (Hr : forall w0, r (keep_rates b w0) = b) by reflexivity.
  assert (Hgr : forall w0, g (keep_rates b w0) = g w0) by reflexivity.
  assert (Hrg : forall w0, r (keep_gold a w0) = r w0) by reflexivity.
  assert (Hgi : forall k h w0, g (with_innerHTML k h w0) = g w0).
  { intros k h w0. destruct (with_innerHTML_frame k h w0) as (els & ->). reflexivity. }
  assert (Hri : forall k h w0, r (with_innerHTML k h w0) = r w0).
  { intros k h w0. destruct (with_innerHTML_frame k h w0) as (els & ->). reflexivity. }
  assert (Hki : forall k h w0,
            keep_gold a (with_innerHTML k h w0) = with_innerHTML k h (keep_gold a w0)).
  { intros k h w0. unfold with_innerHTML. cbn.
    destruct (elements (document w0) !! k); reflexivity. }
  assert (Hri' : forall k h w0,
            keep_rates b (with_innerHTML k h w0) = with_innerHTML k h (keep_rates b w0)).
  { intros k h w0. unfold with_innerHTML. cbn.
    destruct (elements (document w0) !! k); reflexivity. }
  assert (Hkk : forall w0, keep_gold a (keep_rates b w0) = keep_rates b (keep_gold a w0))
    by reflexivity.
  unfold g, r in *. clear g r.
  rewrite Hr, Hg.
  rewrite (render_cards_same createCurrencyRateCard b (keep_rates b w) w).
  rewrite (render_cards_same createGoldPriceCard a (keep_gold a w) w).
  destruct (GoldMarketApp.render_cards createCurrencyRateCard b w).1 as [hr|tr] eqn:Er;
    destruct (GoldMarketApp.render_cards createGoldPriceCard a w).1 as [hg|tg] eqn:Eg;
    rewrite ?Hki, ?Hri', ?Hkk, ?Hg, ?Hr, ?Hgi, ?Hri;
    rewrite ?(render_cards_same createCurrencyRateCard b _ w), ?Er;
    rewrite ?(render_cards_same createGoldPriceCard a _ w), ?Eg;
    try reflexivity.
  apply with_innerHTML_commute. discriminate.
Qed.

Lemma bind_world {A B} (m : M A) (k : A -> M B) (w : World) (a : A) :
  (m w).1 = Normal a -> (bind m k w).2 = (k a (m w).2).2.
Proof. unfold bind. destruct (m w) as [c w']. cbn. intros ->. reflexivity. Qed.

(** X16.  The two tasks a refresh tick starts do not interfere: the
    application object and the document end up the same whether the
    gold prices or the currency rates are answered first. *)
Theorem refresh_order_irrelevant (w : World) :
  page_state (GoldMarketApp.startAutoUpdate_callback true w).2
  = page_state (GoldMarketApp.startAutoUpdate_callback false w).2.
Proof.
  rewrite !callback_run. cbn zeta.
  set (g := Normal (fetch (fetch_count w) (plain_get "/gold/prices" (document w)))).
  set (c := Normal (fetch (S (fetch_count w))
                      (plain_get "/currency/rates" (document w)))).
  set (w0 := issued _ _).
  destruct (finish_task_page g keep_gold GoldMarketApp.renderGoldPrices
              "Error fetching gold prices:") as (d1 & H1).
  destruct (finish_task_page c keep_rates GoldMarketApp.renderCurrencyRates
              "Error fetching currency rates:") as (d2 & H2).
  change (forall w, (GoldMarketApp.fetchGoldPrices_finish g w).1 = Normal tt
            /\ page_state (GoldMarketApp.fetchGoldPrices_finish g w).2
               = page_state (stored keep_gold GoldMarketApp.renderGoldPrices d1 w))
    in H1.
  change (forall w, (GoldMarketApp.fetchCurrencyRates_finish c w).1 = Normal tt
            /\ page_state (GoldMarketApp.fetchCurrencyRates_finish c w).2
               = page_state (stored keep_rates GoldMarketApp.renderCurrencyRates d2 w))
    in H2.
  unfold callback_rest.
  set (first := try_catch _ _).
  assert (Hfirst : (first w0).1 = Normal tt).
  { unfold first, try_catch.
    destruct (GoldMarketApp.updateMarketStatus w0) as [[[]|t] w1]; reflexivity. }
  rewrite !(bind_world first _ w0 tt Hfirst).
  set (w1 := (first w0).2).
  rewrite (bind_world _ _ w1 tt (proj1 (H1 w1))).
  rewrite (bind_world _ _ w1 tt (proj1 (H2 w1))).
  rewrite (proj2 (H2 _)), (proj2 (H1 _)).
  rewrite (stored_rates_page d2 _ _ (proj2 (H1 w1))).
  rewrite (stored_gold_page d1 _ _ (proj2 (H2 w1))).
  rewrite stored_commute. reflexivity.
Qed.

End Race.

(** *** The requests of the initial load *)

Section Startup.
Context {RT : Runtime} {CD : Cards}.

Lemma traffic_emit (e : Event) (w : World) :
  (forall r, e <> Fetch r) -> traffic (emit e w) = traffic w.
Proof. intros He. apply fetch_urls_snoc_other. exact He. Qed.

Lemma get_traffic (endpoint : string) (w : World) :
  traffic (API.get endpoint [] w).2 = traffic w ++ [API.buildUrl endpoint].
Proof.
  unfold API.get, bind. rewrite get_start_run.
  rewrite (keeps_finish traffic). unfold traffic, fetch_urls.
  cbn [issued count_fetch emit events]. rewrite omap_app.
  cbn [omap list_omap plain_get request_url]. rewrite append_empty_r. reflexivity.
Qed.

Lemma block_traffic {A} (endpoint : string) (k : value -> M A) (w : World) :
  (forall v, keeps traffic (k v)) ->
  traffic ((let* response := API.get endpoint [] in k response) w).2
  = traffic w ++ [API.buildUrl endpoint].
Proof.
  intros Hk. pose proof (get_traffic endpoint w) as Hg. unfold bind.
  destruct (API.get endpoint [] w) as [[v|t] w1]; cbn [snd] in *; [|exact Hg].
  rewrite Hk. exact Hg.
Qed.

Lemma traffic_is_backdrop : Backdrop traffic.
Proof. exact traffic_backdrop. Qed.

Lemma storeInfo_traffic (w : World) :
  traffic (GoldMarketApp.fetchInitialData_storeInfo w).2
  = traffic w ++ [API.buildUrl "/settings/store"].
Proof.
  pose proof traffic_is_backdrop.
  apply block_traffic. intros v.
  assert (forall d, keeps traffic (GoldMarketApp.set_storeInfo d))
    by (intros d w0; reflexivity).
  auto 10 with keeps.
Qed.

Lemma marketStatus_traffic (w : World) :
  traffic (GoldMarketApp.fetchInitialData_marketStatus w).2
  = traffic w ++ [API.buildUrl "/settings/market/status"].
Proof.
  pose proof traffic_is_backdrop.
  apply block_traffic. intros v.
  assert (forall d, keeps traffic (GoldMarketApp.set_marketStatus d))
    by (intros d w0; reflexivity).
  auto 10 with keeps.
Qed.

Lemma try_catch_traffic {A} (endpoint : string) (k : value -> M A)
    (h : thrown -> M A) (w : World) :
  (forall v, keeps traffic (k v)) ->
  (forall t, keeps traffic (h t)) ->
  traffic (try_catch (let* response := API.get endpoint [] in k response) h w).2
  = traffic w ++ [API.buildUrl endpoint].
Proof.
  intros Hk Hh. pose proof (block_traffic endpoint k w Hk) as Hb.
  unfold try_catch.
  destruct ((let* response := API.get endpoint [] in k response) w) as [[a|t] w1];
    cbn [snd] in *; [exact Hb|].
  rewrite Hh. exact Hb.
Qed.

Lemma fetchGoldPrices_traffic (w : World) :
  traffic (GoldMarketApp.fetchGoldPrices w).2
  = traffic w ++ [API.buildUrl "/gold/prices"].
Proof.
  pose proof traffic_is_backdrop.
  assert (forall d, keeps traffic (GoldMarketApp.set_goldPrices d))
    by (intros d w0; reflexivity).
  apply try_catch_traffic; intros; auto 10 with keeps.
Qed.

Lemma fetchCurrencyRates_traffic (w : World) :
  traffic (GoldMarketApp.fetchCurrencyRates w).2
  = traffic w ++ [API.buildUrl "/currency/rates"].
Proof.
  pose proof traffic_is_backdrop.
  assert (forall d, keeps traffic (GoldMarketApp.set_currencyRates d))
    by (intros d w0; reflexivity).
  apply try_catch_traffic; intros; auto 10 with keeps.
Qed.

Lemma fetchInitialData_traffic (w : World) :
  let r := GoldMarketApp.fetchInitialData w in
  exists n : nat,
    (n = 1 \/ n = 2 \/ n = 4)%nat
    /\ traffic r.2 = traffic w ++ take n startup_urls.
Proof.
  cbn zeta. unfold GoldMarketApp.fetchInitialData, try_catch, bind.
  pose proof (storeInfo_traffic w) as H1.
  destruct (GoldMarketApp.fetchInitialData_storeInfo w) as [[[]|t] w1]; cbn [snd] in H1.
  - pose proof (marketStatus_traffic w1) as H2.
    destruct (GoldMarketApp.fetchInitialData_marketStatus w1) as [[[]|t] w2];
      cbn [snd] in H2.
    + pose proof (fetchGoldPrices_traffic w2) as H3.
      pose proof (snapshot_task_normal GoldAPI.getAllPrices GoldMarketApp.set_goldPrices
                    GoldMarketApp.renderGoldPrices "Error fetching gold prices:" w2) as N3.
      change (snapshot_task _ _ _ _) with GoldMarketApp.fetchGoldPrices in N3.
      destruct (GoldMarketApp.fetchGoldPrices w2) as [c3 w3]; cbn [fst snd] in *. subst c3.
      pose proof (fetchCurrencyRates_traffic w3) as H4.
      pose proof (snapshot_task_normal CurrencyAPI.getAllRates
                    GoldMarketApp.set_currencyRates
                    GoldMarketApp.renderCurrencyRates
                    "Error fetching currency rates:" w3) as N4.
      change (snapshot_task _ _ _ _) with GoldMarketApp.fetchCurrencyRates in N4.
      destruct (GoldMarketApp.fetchCurrencyRates w3) as [c4 w4]; cbn [fst snd] in *.
      subst c4. exists 4%nat. split; [auto|]. cbn [snd].
      rewrite H4, H3, H2, H1, <- !app_assoc. reflexivity.
    + exists 2%nat. split; [auto|].
      cbn [fst snd]. unfold console_error, modify, throw. cbn [fst snd].
      rewrite traffic_emit by discriminate. rewrite H2, H1, <- app_assoc. reflexivity.
  - exists 1%nat. split; [auto|].
    cbn [fst snd]. unfold console_error, modify, throw. cbn [fst snd].
    rewrite traffic_emit by discriminate. exact H1.
Qed.

Lemma booted_traffic (w : World) : traffic (booted w) = traffic w.
Proof.
  unfold booted, GoldMarketApp.initClock, GoldMarketApp.updateClock, bind,
    console_log, getElement, reads, setInterval, setElement,
    GoldMarketApp.set_clockInterval, modify, ret.
  cbn [fst snd elements document emit].
  destruct (elements (document w) !! "clock");
    cbn [fst snd set_app advance_timer emit set_elements events];
    unfold traffic, fetch_urls; cbn [events set_app set_elements advance_timer];
    cbn; rewrite ?omap_app; cbn; rewrite ?app_nil_r; reflexivity.
Qed.

Lemma register_traffic (w : World) : traffic (register w).2 = traffic w.
Proof.
  unfold register, GoldMarketApp.startAutoUpdate, GoldMarketApp.attachEventListeners,
    GoldMarketApp.set_updateInterval, bind, setInterval, getElement, reads,
    console_log, modify, ret.
  cbn [fst snd elements document emit advance_timer set_app].
  destruct (elements (document w) !! "admin-btn");
    unfold traffic, fetch_urls; cbn [fst snd events set_app set_elements advance_timer emit];
    cbn; rewrite ?omap_app; cbn; rewrite ?app_nil_r; reflexivity.
Qed.

Lemma init_catch_traffic (t : thrown) (w : World) :
  traffic (init_catch t w).2 = traffic w.
Proof.
  rewrite init_catch_run. cbn [snd].
  destruct (with_innerHTML_frame "error-container"
              (GoldMarketApp.error_banner "Failed to initialize application")
              (emit (ConsoleError "App initialization error:" t) w)) as (els & ->).
  change (traffic (set_elements els ?w0)) with (traffic w0).
  apply traffic_emit. discriminate.
Qed.

(** X17.  [init] requests the store info, the market status, the gold
    prices and the currency rates, in this order and one after the
    other, and stops early only after the first or the second request:
    it sends one, two or four requests, never none, never three, and
    nothing else. *)
Theorem init_request_order (w : World) :
  exists n : nat,
    (n = 1 \/ n = 2 \/ n = 4)%nat
    /\ fetch_urls (events (GoldMarketApp.init w).2)
       = fetch_urls (events w) ++ take n startup_urls.
Proof.
  destruct (fetchInitialData_traffic (booted w)) as (n & Hn & Ht).
  cbn zeta in *. rewrite booted_traffic in Ht.
  exists n. split; [exact Hn|].
  change (fetch_urls (events ?w0)) with (traffic w0).
  rewrite init_cases.
  destruct (GoldMarketApp.fetchInitialData (booted w)) as [[[]|t] w1]; cbn [fst snd] in *.
  - assert (Hr : traffic (GoldMarketApp.render w1).2 = traffic w1).
    { pose proof traffic_is_backdrop. unfold GoldMarketApp.render.
      apply keeps_bind; [|intros ?]; auto with keeps. }
    destruct (GoldMarketApp.render w1) as [[[]|t] w2]; cbn [snd] in *.
    + rewrite register_traffic, Hr. exact Ht.
    + rewrite init_catch_traffic, Hr. exact Ht.
  - rewrite init_catch_traffic. exact Ht.
Qed.

End Startup.

(** *** Which failures abort startup *)

Section StartupFailures.
Context {RT : Runtime} {CD : Cards}.

Lemma fetchGoldPrices_normal (w : World) :
  (GoldMarketApp.fetchGoldPrices w).1 = Normal tt.
Proof.
  exact (snapshot_task_normal GoldAPI.getAllPrices GoldMarketApp.set_goldPrices
           GoldMarketApp.renderGoldPrices "Error fetching gold prices:" w).
Qed.

Lemma fetchCurrencyRates_normal (w : World) :
  (GoldMarketApp.fetchCurrencyRates w).1 = Normal tt.
Proof.
  exact (snapshot_task_normal CurrencyAPI.getAllRates GoldMarketApp.set_currencyRates
           GoldMarketApp.renderCurrencyRates "Error fetching currency rates:" w).
Qed.

Lemma settings_loaded_run (w w0 : World) :
  settings_loaded w w0 ->
  GoldMarketApp.fetchInitialData (booted w)
  = (Normal tt, ((GoldMarketApp.fetchGoldPrices;;
                  GoldMarketApp.fetchCurrencyRates) w0).2)
  /\ traffic ((GoldMarketApp.fetchGoldPrices;; GoldMarketApp.fetchCurrencyRates) w0).2
     = traffic w ++ startup_urls.
Proof.
  intros (w1 & Hs & Hm).
  pose proof (storeInfo_traffic (booted w)) as T1. rewrite Hs in T1.
  pose proof (marketStatus_traffic w1) as T2. rewrite Hm in T2.
  pose proof (fetchGoldPrices_traffic w0) as T3.
  pose proof (fetchGoldPrices_normal w0) as N3.
  unfold GoldMarketApp.fetchInitialData, try_catch, bind. rewrite Hs, Hm.
  destruct (GoldMarketApp.fetchGoldPrices w0) as [c3 w3]. cbn [fst snd] in *. subst c3.
  pose proof (fetchCurrencyRates_traffic w3) as T4.
  pose proof (fetchCurrencyRates_normal w3) as N4.
  destruct (GoldMarketApp.fetchCurrencyRates w3) as [c4 w4]. cbn [fst snd] in *. subst c4.
  split; [reflexivity|].
  rewrite T4, T3, T2, T1, booted_traffic, <- !app_assoc. reflexivity.
Qed.


End StartupFailures.

(** *** A store record the page cannot draw *)

Section Malformed.
Context {RT : Runtime} {CD : Cards}.

Lemma with_store_field_pass (key field : string) (g : Element -> value -> Element)
    (w : World) :
  key <> "footer-whatsapp" ->
  nullish (storeInfo (app w)) = false ->
  exists w1,
    GoldMarketApp.with_store_field key field
      (fun el v => setElement key (g el v)) w = (Normal tt, w1)
    /\ whatsapp_link w1 = whatsapp_link w.
Proof.
  intros Hkey Hinfo.
  unfold GoldMarketApp.with_store_field, bind, getElement, reads, member, lift, read,
    setElement, modify.
  cbn [fst snd].
  destruct (elements (document w) !! key) as [el|]; [|eexists; split; reflexivity].
  cbn [fst snd]. rewrite Hinfo.
  destruct (truthy (prop (storeInfo (app w)) field)); [|eexists; split; reflexivity].
  eexists. split; [reflexivity|]. unfold whatsapp_link.
  cbn [set_elements app document elements]. f_equal.
  apply lookup_insert_ne. exact Hkey.
Qed.

Lemma updateStoreInfo_throws (w : World) :
  let number := prop (storeInfo (app w)) "whatsapp" in
  nullish (storeInfo (app w)) = false ->
  truthy number = true ->
  (forall s, number <> VStr s) ->
  is_Some (elements (document w) !! "footer-whatsapp") ->
  (GoldMarketApp.updateStoreInfo w).1
  = Abrupt (Thrown (TypeError "replace is not a function")).
Proof.
  cbn zeta. intros Hinfo Htruthy Hnot [el Hel].
  unfold GoldMarketApp.updateStoreInfo.
  assert (Hlink : forall w0, whatsapp_link w0 = whatsapp_link w ->
            nullish (storeInfo (app w0)) = false).
  { intros w0 [= E _]. rewrite E. exact Hinfo. }
  destruct (with_store_field_pass ".logo-text" "name"
              (fun el name => GoldMarketApp.set_textContent (ToString name) el) w)
    as (w1 & E1 & L1); [discriminate|exact Hinfo|].
  unfold bind at 1. rewrite E1.
  destruct (with_store_field_pass "footer-store-name" "name"
              (fun el name => GoldMarketApp.set_textContent (ToString name) el) w1)
    as (w2 & E2 & L2); [discriminate|auto|]. rewrite L1 in L2.
  unfold bind at 1. rewrite E2.
  destruct (with_store_field_pass "footer-address" "address"
              (fun el name => GoldMarketApp.set_textContent (ToString name) el) w2)
    as (w3 & E3 & L3); [discriminate|auto|]. rewrite L2 in L3.
  unfold bind at 1. rewrite E3.
  destruct (with_store_field_pass "footer-phone" "phone"
              (fun el phone => GoldMarketApp.set_href ("tel:" +:+ ToString phone)
                                 (GoldMarketApp.set_textContent (ToString phone) el)) w3)
    as (w4 & E4 & L4); [discriminate|auto|]. rewrite L3 in L4.
  unfold bind at 1. rewrite E4.
  unfold bind at 1.
  unfold GoldMarketApp.with_store_field at 1.
  unfold bind, getElement, reads, member, lift, read. cbn [fst snd].
  injection L4 as Li Le. rewrite Le, Hel, Li, Hinfo, Htruthy.
  destruct (prop (storeInfo (app w)) "whatsapp") eqn:Ev; try reflexivity.
  destruct (Hnot _ eq_refl).
Qed.

Lemma booted_whatsapp (w : World) :
  elements (document (booted w)) !! "footer-whatsapp"
  = elements (document w) !! "footer-whatsapp".
Proof.
  unfold booted, GoldMarketApp.initClock, GoldMarketApp.updateClock, bind,
    console_log, getElement, reads, setInterval, setElement,
    GoldMarketApp.set_clockInterval, modify, ret.
  cbn [fst snd elements document emit].
  destruct (elements (document w) !! "clock");
    cbn [fst snd set_app advance_timer emit set_elements document elements];
    [apply lookup_insert_ne; discriminate|reflexivity].
Qed.

(** X18.  A store record whose [whatsapp] is truthy and not a string
    (a number, say) takes startup down on a page that has the WhatsApp
    link, although every endpoint answers: [updateStoreInfo] throws on
    [whatsapp.replace], [init] ends in its [catch] after the one
    request, shows the banner, and neither requests the prices nor
    registers the refresh timer. *)
Theorem malformed_whatsapp_aborts_startup (w : World) (response : Response)
    (payload : value) :
  let w0 := booted w in
  let number := prop (prop payload "data") "whatsapp" in
  let w' := (GoldMarketApp.init w).2 in
  fetch (fetch_count w0) (plain_get "/settings/store" (document w0))
  = Resolved response ->
  response_ok response = true ->
  response_json response = Some payload ->
  truthy (opt_chain payload "success") = true ->
  nullish (prop payload "data") = false ->
  truthy number = true ->
  (forall s, number <> VStr s) ->
  is_Some (elements (document w) !! "footer-whatsapp") ->
  fetch_urls (events w') = fetch_urls (events w) ++ [API.buildUrl "/settings/store"]
  /\ updateInterval (app w') = updateInterval (app w)
  /\ error_region w'
     = GoldMarketApp.set_innerHTML
         (GoldMarketApp.error_banner "Failed to initialize application")
       <$> error_region w.
Proof.
  cbn zeta. intros Hfetch Hok Hjson Hsuccess Hdata Htruthy Hnot Hel.
  set (w0 := booted w) in *.
  set (req := plain_get "/settings/store" (document w0)) in *.
  assert (Hpayload : nullish payload = false).
  { unfold opt_chain in Hsuccess. destruct (nullish payload); [discriminate|reflexivity]. }
  assert (Hget : SettingsAPI.getStoreInfo w0 = (Normal payload, issued req w0)).
  { unfold SettingsAPI.getStoreInfo, API.get, bind. rewrite get_start_run.
    fold req. rewrite Hfetch. cbn [API.finish API.fetch_finish].
    unfold bind, ret, API.handleResponse. rewrite Hjson, Hok. reflexivity. }
  set (w2 := (GoldMarketApp.set_storeInfo (prop payload "data") (issued req w0)).2).
  assert (Hthrow : (GoldMarketApp.updateStoreInfo w2).1
                   = Abrupt (Thrown (TypeError "replace is not a function"))).
  { apply updateStoreInfo_throws; try assumption.
    unfold w2. cbn. fold w0. unfold w0. rewrite booted_whatsapp. exact Hel. }
  assert (Hblock : exists w1,
            GoldMarketApp.fetchInitialData_storeInfo w0
            = (Abrupt (Thrown (TypeError "replace is not a function")), w1)).
  { unfold GoldMarketApp.fetchInitialData_storeInfo, bind. rewrite Hget.
    unfold member, lift, read. rewrite Hpayload.
    unfold opt_chain in Hsuccess. rewrite Hpayload in Hsuccess. rewrite Hsuccess.
    change ((GoldMarketApp.set_storeInfo (prop payload "data") (issued req w0)))
      with (Normal tt, w2).
    destruct (GoldMarketApp.updateStoreInfo w2) as [c w1]. cbn in Hthrow. subst c.
    exists w1. reflexivity. }
  destruct Hblock as (w1 & Hblock).
  pose proof (fetchInitialData_abort w0 w1 _ (or_introl Hblock)) as Habort.
  pose proof (storeInfo_traffic w0) as Htraffic. rewrite Hblock in Htraffic.
  cbn [snd] in Htraffic. unfold w0 in Htraffic. rewrite booted_traffic in Htraffic.
  pose proof (offstage_fetchInitialData timers w0) as Htimers.
  pose proof (offstage_fetchInitialData error_region w0) as Herror.
  rewrite Habort in Htimers, Herror. cbn [snd] in Htimers, Herror.
  rewrite init_cases. fold w0. rewrite Habort.
  split; [|split].
  - change (fetch_urls (events ?x)) with (traffic x).
    rewrite init_catch_traffic, traffic_emit by discriminate. exact Htraffic.
  - pose proof (init_catch_timers
                  (Thrown (TypeError "replace is not a function"))
                  (emit (ConsoleError "Error fetching initial data:"
                           (Thrown (TypeError "replace is not a function"))) w1)) as Hc.
    rewrite Htimers in Hc. unfold w0 in Hc. rewrite booted_timers in Hc.
    unfold timers at 1 in Hc. injection Hc as _ _ Hu _ _. exact Hu.
  - rewrite init_catch_error_region, Herror. unfold w0.
    rewrite booted_error_region. reflexivity.
Qed.

End Malformed.

(** *** Banners *)

Section Banners.
Context {RT : Runtime} {CD : Cards}.

Lemma showSuccess_run (message : string) (w : World) :
  GoldMarketApp.showSuccess message w
  = (Normal (match success_region w with
             | Some _ => [GoldMarketApp.ClearSuccess 5000]
             | None => []
             end),
     with_innerHTML "success-container" (GoldMarketApp.success_banner message) w).
Proof.
  unfold GoldMarketApp.showSuccess, with_innerHTML, success_region, bind, getElement,
    reads, setElement, modify. cbn [fst snd].
  destruct (elements (document w) !! "success-container"); reflexivity.
Qed.

Lemma showSuccess_timeout_run (w : World) :
  GoldMarketApp.showSuccess_timeout w
  = (Normal tt, with_innerHTML "success-container" "" w).
Proof.
  unfold GoldMarketApp.showSuccess_timeout, with_innerHTML, bind, getElement,
    reads, setElement, modify. cbn [fst snd].
  destruct (elements (document w) !! "success-container"); reflexivity.
Qed.

Lemma with_innerHTML_other (key html other : string) (w : World) :
  other <> key ->
  elements (document (with_innerHTML key html w)) !! other
  = elements (document w) !! other.
Proof.
  intros Hne. unfold with_innerHTML.
  destruct (elements (document w) !! key); [|reflexivity].
  cbn. apply lookup_insert_ne. congruence.
Qed.

(** X19.  [showError] completes on every page; it replaces the markup
    of the error container by the banner of its message, so that of
    two messages in a row only the second is left, and it touches no
    other element. *)
Theorem showError_last_wins (first last : string) (w : World) :
  (GoldMarketApp.showError first;; GoldMarketApp.showError last) w
  = GoldMarketApp.showError last w
  /\ (GoldMarketApp.showError last w).1 = Normal tt
  /\ error_region (GoldMarketApp.showError last w).2
     = GoldMarketApp.set_innerHTML (GoldMarketApp.error_banner last)
       <$> error_region w
  /\ forall key, key <> "error-container" ->
       elements (document (GoldMarketApp.showError last w).2) !! key
       = elements (document w) !! key.
Proof.
  unfold bind. rewrite !showError_run. rewrite with_innerHTML_twice.
  split; [reflexivity|]. split; [reflexivity|]. cbn [snd].
  split; [apply with_innerHTML_lookup|].
  intros key Hne. apply with_innerHTML_other. exact Hne.
Qed.

(** X20.  The timeout of [showSuccess] is never cancelled: when a
    second message is shown before the timeout of the first has fired,
    that timeout empties the container all the same, and the second
    message is gone before its own five seconds have passed.  A page
    without the container gets no timeout at all. *)
Theorem showSuccess_cleared_by_earlier_timeout (first second : string) (w : World) :
  let r := (let* t1 := GoldMarketApp.showSuccess first in
            let* t2 := GoldMarketApp.showSuccess second in
            GoldMarketApp.showSuccess_timeout;;
            ret (t1 ++ t2)) w in
  r.1 = Normal (match success_region w with
                | Some _ => [GoldMarketApp.ClearSuccess 5000;
                             GoldMarketApp.ClearSuccess 5000]
                | None => []
                end)
  /\ success_region r.2 = GoldMarketApp.set_innerHTML "" <$> success_region w
  /\ r.2 = ((GoldMarketApp.showSuccess first;; GoldMarketApp.showSuccess_timeout) w).2.
Proof.
  cbn zeta. unfold bind. rewrite !showSuccess_run, showSuccess_timeout_run.
  cbn [fst snd]. rewrite showSuccess_timeout_run. cbn [snd].
  rewrite !with_innerHTML_twice. unfold ret. cbn [fst snd].
  split; [|split; [apply with_innerHTML_lookup|reflexivity]].
  unfold success_region. rewrite with_innerHTML_lookup.
  destruct (elements (document w) !! "success-container"); reflexivity.
Qed.

End Banners.

(** ** The program run on concrete pages and servers *)

Import Fixtures.

(** The card builders on the records of the fixtures, and on records
    that lack an amount. *)
Example createGoldPriceCard_gold_24 :
  @createGoldPriceCard (cards healthy) gold_24
  = Normal (GoldMarketApp.gold_card "1" "Gold 24" "24" "2,500" "2,550" "50.00").
Proof. reflexivity. Qed.

Example createCurrencyRateCard_usd :
  @createCurrencyRateCard (cards healthy) usd
  = Normal (GoldMarketApp.rate_card "7" "🏳️" "US Dollar" "USD" "3.0000" "4.0000"
                                    "1.0000").
Proof. reflexivity. Qed.

Example card_of_a_record_without_amounts :
  @createGoldPriceCard (cards healthy) (VObj [("id", VNum 1); ("karat", VNum 24)])
  = Abrupt (Thrown (TypeError
      "Cannot read properties of undefined (reading 'toLocaleString')"))
  /\ @createCurrencyRateCard (cards healthy) (VObj [("id", VNum 7)])
     = Abrupt (Thrown (TypeError
         "Cannot read properties of undefined (reading 'toFixed')"))
  /\ @createCurrencyRateCard (cards healthy)
       (VObj [("id", VNum 7); ("buyRate", VStr "3.65"); ("sellRate", VStr "3.70")])
     = Abrupt (Thrown (TypeError "toFixed is not a function")).
Proof. repeat split. Qed.



Lemma requestWithRetry_policy_witness :
  let call := @retry_call missing POST "/gold/prices" (VObj []) VUndefined in
  @API.requestWithRetry missing POST "/gold/prices" (VObj []) VUndefined (page "" None)
  = call (before_attempt call 1 1 (page "" None))
  /\ fetch_urls (events (call (before_attempt call 1 1 (page "" None))).2)
     = ["https://shop.example/api/gold/prices"; "https://shop.example/api/gold/prices"].
Proof.
  split; [|vm_compute; reflexivity].
  apply (@requestWithRetry_policy missing POST "/gold/prices" (VObj []) VUndefined 3 1).
  - reflexivity.
  - lia.
  - intros i Hi. destruct i as [|i]; [|lia]. eexists. split; vm_compute; reflexivity.
  - vm_compute. left. reflexivity.
Defined.

Lemma requestWithRetry_backoff_witness :
  let w' := (@API.requestWithRetry flaky POST "/gold/prices" (VObj []) VUndefined
               (page "" None)).2 in
  timeline (events w')
  = [Attempt "POST" "https://shop.example/api/gold/prices"; Wait 1000;
     Attempt "POST" "https://shop.example/api/gold/prices"; Wait 2000;
     Attempt "POST" "https://shop.example/api/gold/prices"]
  /\ delays (events w') = [1000; 2000].
Proof.
  apply (@requestWithRetry_backoff flaky POST "/gold/prices" (VObj []) VUndefined 3 2).
  - reflexivity.
  - lia.
  - intros i Hi. destruct i as [|[|i]]; [| |lia]; eexists; split; vm_compute; reflexivity.
  - vm_compute. exact I.
Defined.

(** C9 on a GET whose query parameters are passed as options: the
    three attempts are [get(endpoint, data)], and no request carries
    the query. *)
Lemma requestWithRetry_drops_options_witness :
  let w := page "" None in
  let query := VObj [("params", VObj [("days", VNum 7)])] in
  let call := @API.get flaky "/gold/history/1" [VObj []] in
  (exists k : nat,
     Z.of_nat k < 3
     /\ @API.requestWithRetry flaky GET "/gold/history/1" (VObj []) query w
        = call (before_attempt call 1 k w))
  /\ fetch_urls (events (@API.requestWithRetry flaky GET "/gold/history/1"
                           (VObj []) query w).2)
     = ["https://shop.example/api/gold/history/1";
        "https://shop.example/api/gold/history/1";
        "https://shop.example/api/gold/history/1"].
Proof.
  split; [|vm_compute; reflexivity].
  apply (@requestWithRetry_drops_options flaky GET "/gold/history/1" (VObj [])
           (VObj [("params", VObj [("days", VNum 7)])]) 3 (page "" None));
    [reflexivity|lia].
Defined.

(** C6 as stated fails: the page has the meta tag, with empty content,
    and a mutating request goes out without the header. *)
Lemma csrf_header_missing_with_meta_tag :
  let doc := mkDocument "" (Some "") ∅ in
  meta_csrf_token doc = Some ""
  /\ API.getCSRFToken doc = Some ""
  /\ API.getHeaders true doc !! "X-CSRF-Token" = None.
Proof. repeat split. Qed.

(** C6 on a page with three cookies and the meta tag: the header is
    the value of the cookie named [csrf_token]. *)
Lemma csrf_header_rule_witness :
  let doc := document (page "theme=dark; csrf_token=abc; lang=ar" (Some "frommeta")) in
  csrf_token_names_only (cookie doc) = true
  /\ csrf_cookie (cookie doc) = Some "abc"
  /\ csrf_header doc = Some "abc".
Proof.
  cbn zeta. split; [reflexivity|]. split; [reflexivity|].
  destruct (@csrf_header_rule healthy "/gold/prices" []
              (page "theme=dark; csrf_token=abc; lang=ar" (Some "frommeta")))
    as (_ & _ & _ & _ & _ & Hrule).
  destruct (Hrule eq_refl) as [_ Hvalue]. exact Hvalue.
Defined.

(** Outside that condition: the pattern is not anchored at a cookie's
    name, and a cookie named [xcsrf_token] supplies the header although
    the page has no cookie [csrf_token]. *)
Example csrf_header_from_longer_cookie_name :
  let doc := mkDocument "theme=dark; xcsrf_token=abc; lang=ar" None ∅ in
  csrf_cookie (cookie doc) = None
  /\ csrf_token_names_only (cookie doc) = false
  /\ API.getHeaders true doc !! "X-CSRF-Token" = Some "abc".
Proof. repeat split. Qed.

Example csrf_cookie_before_meta :
  API.getCSRFToken (mkDocument "csrf_token=fromcookie" (Some "frommeta") ∅)
  = Some "fromcookie"
  /\ API.getCSRFToken (mkDocument "csrf_token=; lang=ar" (Some "frommeta") ∅)
     = Some "frommeta".
Proof. split; reflexivity. Qed.

Example buildUrl_with_and_without_slash :
  @API.buildUrl healthy "gold/prices" = "https://shop.example/api/gold/prices"
  /\ @API.buildUrl healthy "/gold/prices" = "https://shop.example/api/gold/prices"
  /\ @API.buildUrl healthy "" = "https://shop.example/api/".
Proof. repeat split. Qed.

(** A 404 on the first attempt: one request, no pause, the error out. *)
Example requestWithRetry_404 :
  let r := @API.requestWithRetry (scripted [not_json 404]) DELETE "/gold/prices/9"
             VUndefined VUndefined (page "csrf_token=abc" None) in
  r.1 = Abrupt (Thrown (mkError "Error" "HTTP 404" (Some 404) (VStr "UNKNOWN_ERROR")
                                VNull))
  /\ timeline (events r.2)
     = [Attempt "DELETE" "https://shop.example/api/gold/prices/9"]
  /\ tokens_sent (events r.2) = [Some "abc"].
Proof. vm_compute. repeat split. Qed.

(** Three server errors in a row: three requests, two pauses, and the
    error of the third attempt. *)
Example requestWithRetry_exhausted :
  let r := @API.requestWithRetry
             (scripted [not_json 500; not_json 502; not_json 503; not_json 200])
             PUT "/settings/store" (VObj []) VUndefined (page "" None) in
  r.1 = Abrupt (Thrown (mkError "Error" "HTTP 503" (Some 503) (VStr "UNKNOWN_ERROR")
                                VNull))
  /\ delays (events r.2) = [1000; 2000]
  /\ length (fetch_urls (events r.2)) = 3%nat.
Proof. vm_compute. repeat split. Qed.

(** A GET through [requestWithRetry] without data: the verb receives
    [null] as its options, throws before any request is sent, and the
    TypeError, having no status, is retried to the ceiling. *)
Example requestWithRetry_get_without_data :
  let r := @API.requestWithRetry healthy GET "/gold/prices" VUndefined
             (VObj [("params", VObj [("days", VNum 7)])]) (page "" None) in
  r.1 = Abrupt (Thrown (TypeError "Cannot read properties of null (reading 'params')"))
  /\ timeline (events r.2) = [Wait 1000; Wait 2000].
Proof. vm_compute. repeat split. Qed.

(** The refresh tick on a page that shows the market closed, while the
    server would now report it open: the status endpoint is not asked,
    and the indicator still reads closed after the tick. *)
Example refresh_shows_stale_market_status :
  let w := (@GoldMarketApp.updateMarketStatus (page "" None)).2 in
  let w' := (@GoldMarketApp.startAutoUpdate_callback healthy (cards healthy) true w).2 in
  @SettingsAPI.checkMarketStatus healthy w
  = (Normal (success market_open),
     issued (@plain_get healthy "/settings/market/status" (document w)) w)
  /\ fetch_urls (events w')
     = ["https://shop.example/api/gold/prices";
        "https://shop.example/api/currency/rates"]
  /\ marketStatus (app w') = VObj [("isOpen", VBool false)]
  /\ className <$> elements (document w') !! ".status-text" = Some "status-text closed"
  /\ innerHTML <$> elements (document w') !! "gold-prices-grid"
     = Some (GoldMarketApp.gold_card "1" "Gold 24" "24" "2,500" "2,550" "50.00"
             +:+ GoldMarketApp.gold_card "2" "Gold 21" "21" "2,190" "2,230" "40.00").
Proof. vm_compute. repeat split. Qed.

(** A healthy startup, for comparison. *)
Example init_ready :
  let r := @GoldMarketApp.constructor healthy (cards healthy) (page "" None) in
  r.1 = Normal tt
  /\ fetch_urls (events r.2)
     = ["https://shop.example/api/settings/store";
        "https://shop.example/api/settings/market/status";
        "https://shop.example/api/gold/prices";
        "https://shop.example/api/currency/rates"]
  /\ console_errors (events r.2) = []
  /\ updateInterval (app r.2) = Some 2%positive
  /\ clockInterval (app r.2) = Some 1%positive
  /\ className <$> elements (document r.2) !! ".status-text" = Some "status-text open"
  /\ href <$> elements (document r.2) !! "footer-whatsapp"
     = Some "https://wa.me/97059000"
  /\ href <$> elements (document r.2) !! "footer-instagram"
     = Some "https://instagram.com/elam"
  /\ innerHTML <$> elements (document r.2) !! "currency-rates-grid"
     = Some (GoldMarketApp.rate_card "7" "🏳️" "US Dollar" "USD" "3.0000" "4.0000"
                                     "1.0000").
Proof. vm_compute. repeat split. Qed.

(** The gold endpoint is down and the currency endpoint sends a record
    without rates: the card cannot be built, [fetchCurrencyRates] logs
    it, [render] throws it again, and startup ends in the [catch] of
    [init]. *)
Example init_aborted_by_unbuildable_card :
  let server :=
    routed [("/settings/store", json 200 (success store));
            ("/settings/market/status", json 200 (success market_open));
            ("/gold/prices", network_failure);
            ("/currency/rates", json 200 (success (VArr [VObj [("id", VNum 7)]])))] in
  let w' := (@GoldMarketApp.init server (cards server) (page "" None)).2 in
  console_errors (events w')
  = ["Error fetching gold prices:"; "Error fetching currency rates:";
     "App initialization error:"]
  /\ innerHTML <$> error_region w'
     = Some (GoldMarketApp.error_banner "Failed to initialize application")
  /\ updateInterval (app w') = None.
Proof. vm_compute. repeat split. Qed.

(** ** Further runs *)

(** X1 on a cookie string with three cookies. *)
Lemma cookie_token_shape_witness :
  exists pre post,
    "theme=dark; csrf_token=abc; lang=ar" = pre +:+ "csrf_token=" +:+ "abc" +:+ post
    /\ "abc" <> "" /\ has_semicolon "abc" = false /\ ends_value post
    /\ forall p1 p2,
         pre = p1 +:+ p2 -> p2 <> "" ->
         API.csrf_match_here (p2 +:+ "csrf_token=" +:+ "abc" +:+ post) = None.
Proof.
  apply (cookie_token_shape "theme=dark; csrf_token=abc; lang=ar" "abc"). reflexivity.
Defined.

(** X3 on the request of [GoldAPI.getAllPrices]. *)
Lemma verb_single_request_witness :
  let w := page "theme=dark; csrf_token=abc" None in
  let req := mkRequest (@API.buildUrl healthy "/gold/prices") "GET"
               (API.getHeaders false (document w)) "include" None in
  let r := @API.verb healthy GET "/gold/prices" [] w in
  r = settle (@fetch healthy (fetch_count w) req) (issued req w)
  /\ r.2 = issued req w.
Proof.
  apply (@verb_single_request healthy GET "/gold/prices" []
           (page "theme=dark; csrf_token=abc" None)).
  intros _. reflexivity.
Defined.

(** X4 on the server that fails twice, with the default ceiling. *)
Lemma requestWithRetry_bounded_witness :
  let call := @retry_call flaky POST "/gold/prices" (VObj []) VUndefined in
  let r := @API.requestWithRetry flaky POST "/gold/prices" (VObj []) VUndefined
             (page "" None) in
  exists k : nat,
    Z.of_nat k < 3
    /\ r = call (before_attempt call 1 k (page "" None))
    /\ (fetch_count r.2 <= fetch_count (page "" None) + k + 1)%nat
    /\ delays (events r.2)
       = delays (events (page "" None))
         ++ map (fun i => API_CONFIG.RETRY_DELAY * Z.of_nat i) (seq 1 k)
    /\ page_state r.2 = page_state (page "" None).
Proof.
  apply (@requestWithRetry_bounded flaky POST "/gold/prices" (VObj []) VUndefined 3
           (page "" None)); [reflexivity|lia].
Defined.

(** X5 with [retryAttempts: 0]. *)
Lemma requestWithRetry_falsy_ceiling_witness :
  @API.requestWithRetry flaky GET "/gold/prices" (VObj [])
     (VObj [("retryAttempts", VNum 0)]) (page "" None)
  = @API.requestWithRetry flaky GET "/gold/prices" (VObj []) VUndefined (page "" None).
Proof.
  apply (@requestWithRetry_falsy_ceiling flaky GET "/gold/prices" (VObj [])
           (VObj [("retryAttempts", VNum 0)]) (page "" None)); reflexivity.
Defined.

(** X8 on a snapshot of two prices. *)
Lemma render_concatenates_cards_witness :
  let w := (GoldMarketApp.set_goldPrices gold_list (page "" None)).2 in
  @GoldMarketApp.renderGoldPrices (cards healthy) w
  = (Normal tt,
     with_innerHTML "gold-prices-grid"
       (GoldMarketApp.gold_card "1" "Gold 24" "24" "2,500" "2,550" "50.00"
        +:+ GoldMarketApp.gold_card "2" "Gold 21" "21" "2,190" "2,230" "40.00") w).
Proof.
  cbn zeta.
  apply (proj1 (@render_concatenates_cards (cards healthy)
                  (GoldMarketApp.set_goldPrices gold_list (page "" None)).2
                  [gold_24; gold_21]
                  [GoldMarketApp.gold_card "1" "Gold 24" "24" "2,500" "2,550" "50.00";
                   GoldMarketApp.gold_card "2" "Gold 21" "21" "2,190" "2,230"
                                           "40.00"])).
  - reflexivity.
  - repeat constructor.
Defined.

(** X9 on a snapshot whose second rate is [null]. *)
Lemma render_stops_at_first_bad_item_witness :
  let w := (GoldMarketApp.set_currencyRates (VArr [usd; VNull; usd]) (page "" None)).2 in
  @GoldMarketApp.renderCurrencyRates (cards healthy) w
  = (Abrupt (Thrown (TypeError "Cannot read properties of null (reading 'sellRate')")),
     w).
Proof.
  cbn zeta.
  apply (proj2 (@render_stops_at_first_bad_item (cards healthy)
                  (GoldMarketApp.set_currencyRates (VArr [usd; VNull; usd])
                     (page "" None)).2
                  [usd] VNull [usd]
                  [GoldMarketApp.rate_card "7" "🏳️" "US Dollar" "USD" "3.0000" "4.0000"
                                           "1.0000"]
                  (Thrown (TypeError
                     "Cannot read properties of null (reading 'sellRate')")))).
  - reflexivity.
  - repeat constructor.
  - reflexivity.
  - eexists. vm_compute. reflexivity.
Defined.

(** X11 on a handle with two [@]. *)
Lemma drop_first_at_first_only_witness :
  GoldMarketApp.drop_first_at ("elam" +:+ String "@" "shop@ps") = "elam" +:+ "shop@ps"
  /\ GoldMarketApp.drop_first_at "elam" = "elam".
Proof. apply (drop_first_at_first_only "elam" "shop@ps"). reflexivity. Defined.

(** X12 on the full page and the store of the fixtures. *)
Lemma updateStoreInfo_rewrites_witness :
  let w := (GoldMarketApp.set_storeInfo store (page "" None)).2 in
  let w' := (GoldMarketApp.updateStoreInfo w).2 in
  exists els',
    w' = set_elements els' w
    /\ forall k, els' !! k
                 = store_update (storeInfo (app w)) k <$> elements (document w) !! k.
Proof.
  cbn zeta.
  apply (updateStoreInfo_rewrites
           (GoldMarketApp.set_storeInfo store (page "" None)).2
           (GoldMarketApp.updateStoreInfo
              (GoldMarketApp.set_storeInfo store (page "" None)).2).2).
  vm_compute. reflexivity.
Defined.

(** X18 on a store record with a number as WhatsApp contact. *)
Lemma malformed_whatsapp_aborts_startup_witness :
  let payload :=
    success (VObj [("name", VStr "ELAM"); ("whatsapp", VNum 97059000)]) in
  let server :=
    routed [("/settings/store", json 200 payload);
            ("/settings/market/status", json 200 (success market_open));
            ("/gold/prices", json 200 (success gold_list));
            ("/currency/rates", json 200 (success rate_list))] in
  let w' := (@GoldMarketApp.init server (cards server) (page "" None)).2 in
  fetch_urls (events w')
  = fetch_urls (events (page "" None)) ++ [@API.buildUrl server "/settings/store"]
  /\ updateInterval (app w') = updateInterval (app (page "" None))
  /\ error_region w'
     = GoldMarketApp.set_innerHTML
         (GoldMarketApp.error_banner "Failed to initialize application")
       <$> error_region (page "" None).
Proof.
  cbn zeta.
  apply (@malformed_whatsapp_aborts_startup
           (routed [("/settings/store",
                     json 200 (success (VObj [("name", VStr "ELAM");
                                              ("whatsapp", VNum 97059000)])));
                    ("/settings/market/status", json 200 (success market_open));
                    ("/gold/prices", json 200 (success gold_list));
                    ("/currency/rates", json 200 (success rate_list))])
           (cards (routed [("/settings/store",
                            json 200 (success (VObj [("name", VStr "ELAM");
                                                     ("whatsapp", VNum 97059000)])));
                           ("/settings/market/status", json 200 (success market_open));
                           ("/gold/prices", json 200 (success gold_list));
                           ("/currency/rates", json 200 (success rate_list))]))
           (page "" None)
           (mkResponse true 200
              (Some (success (VObj [("name", VStr "ELAM");
                                    ("whatsapp", VNum 97059000)]))))
           (success (VObj [("name", VStr "ELAM"); ("whatsapp", VNum 97059000)])));
    try reflexivity.
  - intros s. discriminate.
  - eexists. vm_compute. reflexivity.
Defined.

(** The refresh timer is registered once startup got through, and the
    page closes after three ticks. *)
Example page_life_healthy :
  let loaded := (@GoldMarketApp.constructor healthy (cards healthy) (page "" None)).2 in
  let w' := (GoldMarketApp.beforeunload
               (@after_ticks healthy (cards healthy)
                  [ClockTick; RefreshTick true; RefreshTick false] loaded)).2 in
  intervals_set (events w') = [1%positive; 2%positive]
  /\ intervals_cleared (events w') = [2%positive; 1%positive]
  /\ length (fetch_urls (events w')) = 8%nat.
Proof. vm_compute. repeat split. Qed.

(** A WhatsApp number is reduced to its digits, and only the first
    [@] of the Instagram handle is dropped. *)
Example store_links :
  let w := (GoldMarketApp.set_storeInfo
              (VObj [("whatsapp", VStr "+970-59-000"); ("instagram", VStr "@elam@ps")])
              (page "" None)).2 in
  let w' := (GoldMarketApp.updateStoreInfo w).2 in
  href <$> elements (document w') !! "footer-whatsapp" = Some "https://wa.me/97059000"
  /\ href <$> elements (document w') !! "footer-instagram"
     = Some "https://instagram.com/elam@ps".
Proof. vm_compute. repeat split. Qed.

(** A number where a string is expected: the blocks before it have
    run, the rest has not, and the call throws. *)
Example updateStoreInfo_number_as_whatsapp :
  let w := (GoldMarketApp.set_storeInfo
              (VObj [("name", VStr "ELAM"); ("whatsapp", VNum 97059000);
                     ("facebook", VStr "elam")])
              (page "" None)).2 in
  let r := GoldMarketApp.updateStoreInfo w in
  r.1 = Abrupt (Thrown (TypeError "replace is not a function"))
  /\ textContent <$> elements (document r.2) !! ".logo-text" = Some "ELAM"
  /\ href <$> elements (document r.2) !! "footer-facebook" = Some "".
Proof. vm_compute. repeat split. Qed.
